(** * Aditi daily updates: the update feed of the two dashboards

    A shallow embedding of the client-side logic of
    [src/pages/user-dashboard.tsx] (the employee view, component
    [UserDashboard]), of the manager view that follows it in the same
    source file (component [Dashboard]) and of [src/lib/tabSwitchUtil.ts].

    React state is an explicit record; a handler is a function from the
    state it finds to the state it leaves.  The values a handler closes
    over (the constants of the render that created it) are passed as a
    separate [Render] argument: a handler that runs later (a timer, the
    continuation of an [await]) still reads the values of its own render,
    while its setters write to the live state.  Calls to collaborators
    (toasts, timers, the router, the update store) are recorded in the
    state or supplied as a list of outcomes. *)

From Stdlib Require Import ZArith List String Ascii Bool Arith Lia.
From Stdlib Require Import DecimalString.
From Equations Require Import Equations.
Import ListNotations.

(** ** Platform values *)

Module Js.

(** Truthiness of a string value: only the empty string is falsy. *)
Definition truthy (s : string) : bool := negb (s =? "")%string.

(** Truthiness of a nullable string: [null]/[undefined] are falsy. *)
Definition truthyOpt (o : option string) : bool :=
  match o with
  | Some s => truthy s
  | None => false
  end.

(** [a || d] on a nullable string. *)
Definition orElse (o : option string) (d : string) : string :=
  match o with
  | Some s => if truthy s then s else d
  | None => d
  end.

(** [s.startsWith(p)] *)
Definition startsWith (s p : string) : bool := String.prefix p s.

(** [s.includes(sub)] *)
Definition includes (s sub : string) : bool :=
  match String.index 0 sub s with
  | Some _ => true
  | None => false
  end.

(** [s.split(sep)] for a non-empty separator.  [skip] counts the
    characters of a separator occurrence still to be dropped and [cur]
    holds the piece being read, last character first. *)
Fixpoint rev_string (acc s : string) : string :=
  match s with
  | EmptyString => acc
  | String c s' => rev_string (String c acc) s'
  end.

Fixpoint split_go (sep : string) (skip : nat) (cur : string) (s : string)
  : list string :=
  match s with
  | EmptyString => [rev_string EmptyString cur]
  | String c s' =>
      match skip with
      | S k => split_go sep k cur s'
      | O =>
          if String.prefix sep s
          then rev_string EmptyString cur
                 :: split_go sep (String.length sep - 1) EmptyString s'
          else split_go sep 0 (String c cur) s'
      end
  end.

Definition split (s sep : string) : list string := split_go sep 0 EmptyString s.

(** Template-literal rendering of a loop counter. *)
Definition ofNat (n : nat) : string := NilZero.string_of_uint (Nat.to_uint n).

End Js.

(** ** Time

    An instant is a number of milliseconds since the epoch (what
    [new Date(x).getTime()] gives).  A calendar date string ['YYYY-MM-DD']
    is represented by its day number since the epoch: on such strings the
    comparison of strings used by the source coincides with the comparison
    of day numbers. *)

Definition msPerDay : Z := 86400000.

(** [new Date(t).toISOString().split('T')[0]] *)
Definition isoDate (t : Z) : Z := (t / msPerDay)%Z.

(** The instant written [`${d}T00:00:00.000Z`] (and [`${d}T00:00:00Z`]). *)
Definition T00_00_00_000Z (d : Z) : Z := (d * msPerDay)%Z.

(** The instant written [`${d}T23:59:59.999Z`]. *)
Definition T23_59_59_999Z (d : Z) : Z := (d * msPerDay + 86399999)%Z.

(** The instant written [`${d}T23:59:59Z`]. *)
Definition T23_59_59Z (d : Z) : Z := (d * msPerDay + 86399000)%Z.

Record DateRange := mkDateRange { start : Z; end_ : Z }.

(** ** Data model (the columns the two views read) *)

Module Team.
Record t := mk {
  id : string;
  team_name : string;
  manager_email : string
}.
End Team.

Module DailyUpdate.
Record t := mk {
  id : string;
  employee_email : string;
  team_id : option string;
  created_at : Z;
  status : string;
  blocker_type : option string;
  aditi_teams : option Team.t;
  team_name : option string
}.

Definition set_team_name (v : option string) (u : t) : t :=
  mk (id u) (employee_email u) (team_id u) (created_at u) (status u)
     (blocker_type u) (aditi_teams u) v.

Definition set_created_at (v : Z) (u : t) : t :=
  mk (id u) (employee_email u) (team_id u) v (status u)
     (blocker_type u) (aditi_teams u) (team_name u).

Definition hasStatus (s : string) (u : t) : bool := (status u =? s)%string.
End DailyUpdate.

Record User := mkUser { email : string; name : string; role : string }.

(** [user?.role === r] *)
Definition roleIs (user : option User) (r : string) : bool :=
  match user with
  | Some u => (role u =? r)%string
  | None => false
  end.

(** ** Collaborators *)

Inductive Toast :=
| ToastSuccess (msg : string)
| ToastError (msg : string).

Definition isError (t : Toast) : bool :=
  match t with
  | ToastError _ => true
  | ToastSuccess _ => false
  end.

Definition errorsShown (ts : list Toast) : nat := List.length (filter isError ts).

(** The update store.  A query is the conjunction of the filters chained
    on [supabase.from('aditi_daily_updates')]; the store answers it from
    the rows it holds at that moment. *)

Module Store.

Record Query := mkQuery {
  eq_employee_email : option string;
  gte_created_at : Z;
  lte_created_at : Z;
  eq_team_id : option string;
  order_created_at_desc : bool
}.

Definition optEqb (o : option string) (s : string) : bool :=
  match o with
  | Some x => (x =? s)%string
  | None => false
  end.

Definition selects (q : Query) (u : DailyUpdate.t) : bool :=
  (gte_created_at q <=? DailyUpdate.created_at u)%Z
  && (DailyUpdate.created_at u <=? lte_created_at q)%Z
  && match eq_employee_email q with
     | Some e => (DailyUpdate.employee_email u =? e)%string
     | None => true
     end
  && match eq_team_id q with
     | Some t => optEqb (DailyUpdate.team_id u) t
     | None => true
     end.

Fixpoint insertDesc (u : DailyUpdate.t) (l : list DailyUpdate.t) : list DailyUpdate.t :=
  match l with
  | [] => [u]
  | v :: l' =>
      if (DailyUpdate.created_at v <? DailyUpdate.created_at u)%Z
      then u :: l
      else v :: insertDesc u l'
  end.

Definition sortDesc (l : list DailyUpdate.t) : list DailyUpdate.t :=
  fold_right insertDesc [] l.

Definition run (q : Query) (table : list DailyUpdate.t) : list DailyUpdate.t :=
  let rows := filter (selects q) table in
  if order_created_at_desc q then sortDesc rows else rows.

(** What one request meets: an error, an answer without data, or the
    table as it stands, with the clock reading [now] of the moment the
    answer is handled. *)
Inductive Outcome :=
| Failed
| NoData
| Served (now : Z) (table : list DailyUpdate.t).

(** The next outcome; a request beyond the recorded ones fails. *)
Definition next (net : list Outcome) : Outcome * list Outcome :=
  match net with
  | [] => (Failed, [])
  | o :: net' => (o, net')
  end.

End Store.

(** ** The employee view: component [UserDashboard] *)

Module UserDashboard.

Record Stats := mkStats {
  totalUpdates : nat;
  completedTasks : nat;
  inProgressTasks : nat;
  blockedTasks : nat
}.

(** The constants of one render that the handlers close over. *)
Record Render := mkRender {
  r_user : option User;
  r_dateRange : DateRange;
  r_userUpdates : list DailyUpdate.t;
  r_activeFilter : string;
  r_loadingTimeout : option nat
}.

(** Callbacks handed to [setTimeout]. *)
Inductive Callback :=
| LoadingTimedOut
| DeferredApplyFilters (r : Render).

Record Timer := mkTimer { timerId : nat; delay : Z; callback : Callback }.

(** The [useState] cells of the component, the value of [useAuth()], and
    the record of what was asked of the collaborators: toasts shown,
    timers pending, delays awaited. *)
Record State := mkState {
  user : option User;
  userUpdates : list DailyUpdate.t;
  filteredUpdates : list DailyUpdate.t;
  isLoading : bool;
  dateRange : DateRange;
  loadingTimeout : option nat;
  lastFetched : option Z;
  dataLoaded : bool;
  activeFilter : string;
  stats : Stats;
  isRefreshing : bool;
  toasts : list Toast;
  timers : list Timer;
  nextTimerId : nat;
  slept : list Z
}.

Definition setUser (v : option User) (st : State) : State :=
  mkState v (userUpdates st) (filteredUpdates st) (isLoading st) (dateRange st) (loadingTimeout st) (lastFetched st) (dataLoaded st) (activeFilter st) (stats st) (isRefreshing st) (toasts st) (timers st) (nextTimerId st) (slept st).

Definition setUserUpdates (v : list DailyUpdate.t) (st : State) : State :=
  mkState (user st) v (filteredUpdates st) (isLoading st) (dateRange st) (loadingTimeout st) (lastFetched st) (dataLoaded st) (activeFilter st) (stats st) (isRefreshing st) (toasts st) (timers st) (nextTimerId st) (slept st).

Definition setFilteredUpdates (v : list DailyUpdate.t) (st : State) : State :=
  mkState (user st) (userUpdates st) v (isLoading st) (dateRange st) (loadingTimeout st) (lastFetched st) (dataLoaded st) (activeFilter st) (stats st) (isRefreshing st) (toasts st) (timers st) (nextTimerId st) (slept st).

Definition setIsLoading (v : bool) (st : State) : State :=
  mkState (user st) (userUpdates st) (filteredUpdates st) v (dateRange st) (loadingTimeout st) (lastFetched st) (dataLoaded st) (activeFilter st) (stats st) (isRefreshing st) (toasts st) (timers st) (nextTimerId st) (slept st).

Definition setDateRange (v : DateRange) (st : State) : State :=
  mkState (user st) (userUpdates st) (filteredUpdates st) (isLoading st) v (loadingTimeout st) (lastFetched st) (dataLoaded st) (activeFilter st) (stats st) (isRefreshing st) (toasts st) (timers st) (nextTimerId st) (slept st).

Definition setLoadingTimeout (v : option nat) (st : State) : State :=
  mkState (user st) (userUpdates st) (filteredUpdates st) (isLoading st) (dateRange st) v (lastFetched st) (dataLoaded st) (activeFilter st) (stats st) (isRefreshing st) (toasts st) (timers st) (nextTimerId st) (slept st).

Definition setLastFetched (v : option Z) (st : State) : State :=
  mkState (user st) (userUpdates st) (filteredUpdates st) (isLoading st) (dateRange st) (loadingTimeout st) v (dataLoaded st) (activeFilter st) (stats st) (isRefreshing st) (toasts st) (timers st) (nextTimerId st) (slept st).

Definition setDataLoaded (v : bool) (st : State) : State :=
  mkState (user st) (userUpdates st) (filteredUpdates st) (isLoading st) (dateRange st) (loadingTimeout st) (lastFetched st) v (activeFilter st) (stats st) (isRefreshing st) (toasts st) (timers st) (nextTimerId st) (slept st).

Definition setActiveFilter (v : string) (st : State) : State :=
  mkState (user st) (userUpdates st) (filteredUpdates st) (isLoading st) (dateRange st) (loadingTimeout st) (lastFetched st) (dataLoaded st) v (stats st) (isRefreshing st) (toasts st) (timers st) (nextTimerId st) (slept st).

Definition setStats (v : Stats) (st : State) : State :=
  mkState (user st) (userUpdates st) (filteredUpdates st) (isLoading st) (dateRange st) (loadingTimeout st) (lastFetched st) (dataLoaded st) (activeFilter st) v (isRefreshing st) (toasts st) (timers st) (nextTimerId st) (slept st).

Definition setIsRefreshing (v : bool) (st : State) : State :=
  mkState (user st) (userUpdates st) (filteredUpdates st) (isLoading st) (dateRange st) (loadingTimeout st) (lastFetched st) (dataLoaded st) (activeFilter st) (stats st) v (toasts st) (timers st) (nextTimerId st) (slept st).

Definition setToasts (v : list Toast) (st : State) : State :=
  mkState (user st) (userUpdates st) (filteredUpdates st) (isLoading st) (dateRange st) (loadingTimeout st) (lastFetched st) (dataLoaded st) (activeFilter st) (stats st) (isRefreshing st) v (timers st) (nextTimerId st) (slept st).

Definition setTimers (v : list Timer) (st : State) : State :=
  mkState (user st) (userUpdates st) (filteredUpdates st) (isLoading st) (dateRange st) (loadingTimeout st) (lastFetched st) (dataLoaded st) (activeFilter st) (stats st) (isRefreshing st) (toasts st) v (nextTimerId st) (slept st).

Definition setNextTimerId (v : nat) (st : State) : State :=
  mkState (user st) (userUpdates st) (filteredUpdates st) (isLoading st) (dateRange st) (loadingTimeout st) (lastFetched st) (dataLoaded st) (activeFilter st) (stats st) (isRefreshing st) (toasts st) (timers st) v (slept st).

Definition setSlept (v : list Z) (st : State) : State :=
  mkState (user st) (userUpdates st) (filteredUpdates st) (isLoading st) (dateRange st) (loadingTimeout st) (lastFetched st) (dataLoaded st) (activeFilter st) (stats st) (isRefreshing st) (toasts st) (timers st) (nextTimerId st) v.

Definition render (st : State) : Render :=
  mkRender (user st) (dateRange st) (userUpdates st) (activeFilter st)
           (loadingTimeout st).

(** The state of a freshly mounted component; [today] is the day number
    of [new Date()]. *)
Definition mount (auth : option User) (today : Z) : State :=
  mkState auth [] [] true (mkDateRange (today - 30) today) None None false
          "all" (mkStats 0 0 0 0) false [] [] 1 [].

Definition toast (t : Toast) (st : State) : State :=
  setToasts (toasts st ++ [t]) st.

Definition setTimeout (cb : Callback) (ms : Z) (st : State) : nat * State :=
  (nextTimerId st,
   setNextTimerId (S (nextTimerId st))
     (setTimers (timers st ++ [mkTimer (nextTimerId st) ms cb]) st)).

Definition clearTimeout (id : nat) (st : State) : State :=
  setTimers (filter (fun t => negb (timerId t =? id)) (timers st)) st.

(** [await new Promise(resolve => setTimeout(resolve, ms))], once per
    element. *)
Definition sleep (ms : list Z) (st : State) : State :=
  setSlept (slept st ++ ms) st.

(** Lines 50-58. *)
Definition calculateStats (updates : list DailyUpdate.t) (st : State) : State :=
  let newStats :=
    mkStats (List.length updates)
            (List.length (filter (DailyUpdate.hasStatus "completed") updates))
            (List.length (filter (DailyUpdate.hasStatus "in-progress") updates))
            (List.length (filter (DailyUpdate.hasStatus "blocked") updates)) in
  setStats newStats st.

(** The [switch (activeFilter)] of lines 70-84. *)
Definition switchActiveFilter (activeFilter : string)
  (filtered : list DailyUpdate.t) : list DailyUpdate.t :=
  if (activeFilter =? "completed")%string
  then filter (DailyUpdate.hasStatus "completed") filtered
  else if (activeFilter =? "in-progress")%string
  then filter (DailyUpdate.hasStatus "in-progress") filtered
  else if (activeFilter =? "blocked")%string
  then filter (DailyUpdate.hasStatus "blocked") filtered
  else filtered.

(** Lines 61-91. *)
Definition applyFilters (r : Render) (st : State) : State :=
  if (List.length (r_userUpdates r) =? 0)%nat
  then setFilteredUpdates [] st
  else
    let filtered := r_userUpdates r in
    let filtered := switchActiveFilter (r_activeFilter r) filtered in
    calculateStats (r_userUpdates r) (setFilteredUpdates filtered st).

(** Lines 45-47: the effect that re-applies the filters after a render in
    which [userUpdates] or [activeFilter] changed; it belongs to that
    render, so it reads the live values. *)
Definition applyFiltersEffect (st : State) : State :=
  applyFilters (render st) st.

(** Lines 94-104. *)
Definition filterByCardType (r : Render) (filterType : string) (st : State)
  : State :=
  let st := setActiveFilter filterType st in
  let st := snd (setTimeout (DeferredApplyFilters r) 100 st) in
  toast (ToastSuccess
           ("Filtered by "
            ++ (if (filterType =? "all")%string then "all updates" else filterType)
            ++ " status")%string) st.

(** The query of lines 171-177. *)
Definition updatesQuery (r : Render) : Store.Query :=
  Store.mkQuery
    (Some match r_user r with
          | Some u => email u
          | None => "undefined"%string
          end)
    (T00_00_00_000Z (start (r_dateRange r)))
    (T23_59_59_999Z (end_ (r_dateRange r)))
    None
    true.

(** How [attemptFetch] settles. *)
Inductive Result :=
| Data (now : Z) (rows : list DailyUpdate.t)
| Null
| Thrown.

Record Trial := mkTrial {
  result : Result;
  retryCount : nat;
  waits : list Z;
  rest : list Store.Outcome
}.

Definition afterWait (ms : Z) (t : Trial) : Trial :=
  mkTrial (result t) (retryCount t) (ms :: waits t) (rest t).

(** Lines 169-198; [retryCount] is the counter of line 166. *)
Equations attemptFetch (q : Store.Query) (maxRetries retryCount : nat)
  (net : list Store.Outcome) : Trial by wf (maxRetries - retryCount) lt :=
attemptFetch q maxRetries retryCount net with Store.next net => {
  | (Store.Served now table, net') :=
      mkTrial (Data now (Store.run q table)) retryCount [] net';
  | (Store.NoData, net') := mkTrial Null retryCount [] net';
  | (Store.Failed, net') with lt_dec (S retryCount) maxRetries => {
    | left _ :=
        afterWait (1000 * Z.of_nat (S retryCount))
                  (attemptFetch q maxRetries (S retryCount) net');
    | right _ := mkTrial Thrown (S retryCount) [] net' } }.
Next Obligation. lia. Qed.

(** Line 167; [production] is [process.env.NODE_ENV === 'production']. *)
Definition maxRetriesOf (production : bool) : nat := if production then 3 else 1.

(** Lines 144-232. *)
Definition fetchUserUpdates (production : bool) (r : Render)
  (net : list Store.Outcome) (st : State) : State * list Store.Outcome :=
  let st := setIsLoading true st in
  let (timeout, st) :=
    setTimeout LoadingTimedOut (if production then 20000 else 15000) st in
  let st := match r_loadingTimeout r with
            | Some t => clearTimeout t st
            | None => st
            end in
  let st := setLoadingTimeout (Some timeout) st in
  let maxRetries := maxRetriesOf production in
  let t := attemptFetch (updatesQuery r) maxRetries 0 net in
  let st := sleep (waits t) st in
  let st :=
    match result t with
    | Data now data =>
        let st := setUserUpdates data st in
        let st := setDataLoaded true st in
        let st := setLastFetched (Some now) st in
        snd (setTimeout (DeferredApplyFilters r) 100 st)
    | Null =>
        let st := setUserUpdates [] st in
        let st := setFilteredUpdates [] st in
        calculateStats [] st
    | Thrown =>
        let st := toast (ToastError "Failed to load your updates") st in
        let st := setUserUpdates [] st in
        let st := setFilteredUpdates [] st in
        calculateStats [] st
    end in
  let st := setIsLoading false st in
  let st := match r_loadingTimeout r with
            | Some t => setLoadingTimeout None (clearTimeout t st)
            | None => st
            end in
  (st, rest t).

(** What a pending timer does when it fires. *)
Definition fire (cb : Callback) (st : State) : State :=
  match cb with
  | LoadingTimedOut =>
      toast (ToastError "Request timed out. Please try refreshing.")
            (setIsLoading false st)
  | DeferredApplyFilters r => applyFilters r st
  end.

(** Lines 289-297. *)
Definition isTaskEditable (user : option User) (status : string) : bool :=
  if roleIs user "admin" || roleIs user "manager"
  then true
  else (status =? "to-do")%string || (status =? "in-progress")%string.

(** The [disabled] attribute of both edit buttons (lines 659 and 751). *)
Definition editDisabled (user : option User) (status : string) : bool :=
  negb (roleIs user "admin") && negb (roleIs user "manager")
  && (status =? "completed")%string.

(** The edit cell of a table row, lines 653-675: the button, with its
    [disabled] attribute, and the dash shown in its place. *)
Record EditCell := mkEditCell { button : option bool; dash : bool }.

Definition listViewEditCell (user : option User) (status : string) : EditCell :=
  mkEditCell
    (if (roleIs user "admin" || roleIs user "manager")
        || isTaskEditable user status
     then Some (editDisabled user status) else None)
    (negb (roleIs user "admin" || roleIs user "manager"
           || isTaskEditable user status)).

(** The "Actions" entry of the expanded row, lines 741-765. *)
Definition detailViewEditAction (user : option User) (status : string)
  : option bool :=
  if (roleIs user "admin" || roleIs user "manager")
     || isTaskEditable user status
  then Some (editDisabled user status) else None.

(** Lines 107-120.  [fetchUserUpdates] catches whatever it meets, so
    the [await] always resumes in the [try] block. *)
Definition refreshData (production : bool) (r : Render)
  (net : list Store.Outcome) (st : State) : State * list Store.Outcome :=
  let st := setIsRefreshing true st in
  let (st, net) := fetchUserUpdates production r net st in
  let st := toast (ToastSuccess "Data refreshed successfully") st in
  (setIsRefreshing false st, net).

End UserDashboard.

(** ** [src/lib/tabSwitchUtil.ts] *)

Module TabSwitchUtil.

(** Lines 32-35. *)
Definition isReturningFromTabSwitch : bool := false.

(** Lines 41-44. *)
Definition shouldAllowFilterOperations : bool := true.

End TabSwitchUtil.

(** ** The manager view: component [Dashboard] *)

Module Dashboard.

Inductive Tab :=
| Tab_all
| Tab_recent
| Tab_blockers
| Tab_completed
| Tab_in_progress
| Tab_blocked.

Record Stats := mkStats {
  totalUpdates : nat;
  totalBlockers : nat;
  completedTasks : nat;
  inProgressTasks : nat;
  stuckTasks : nat
}.

(** The constants of one render that the handlers close over. *)
Record Render := mkRender {
  r_user : option User;
  r_dateRange : DateRange;
  r_selectedTeam : string;
  r_activeTab : Tab;
  r_historicalData : list DailyUpdate.t;
  r_loadingTimeout : option nat;
  r_dataLoaded : bool
}.

(** Callbacks handed to [setTimeout]. *)
Inductive Callback :=
| DataTimedOut
| DeferredApplyFilters (r : Render).

Record Timer := mkTimer { timerId : nat; delay : Z; callback : Callback }.

(** The [useState] cells the handlers below touch, the value of
    [useAuth()], and the record of what was asked of the collaborators:
    toasts shown, timers pending, [router.replace] targets. *)
Record State := mkState {
  user : option User;
  isLoading : bool;
  loadingFailed : bool;
  historicalData : list DailyUpdate.t;
  filteredData : list DailyUpdate.t;
  activeTab : Tab;
  selectedTeam : string;
  teams : list Team.t;
  dateRange : DateRange;
  stats : Stats;
  lastRefreshed : option Z;
  loadingTimeout : option nat;
  dataLoaded : bool;
  toasts : list Toast;
  timers : list Timer;
  nextTimerId : nat;
  route : list string
}.

Definition setUser (v : option User) (st : State) : State :=
  mkState v (isLoading st) (loadingFailed st) (historicalData st) (filteredData st) (activeTab st) (selectedTeam st) (teams st) (dateRange st) (stats st) (lastRefreshed st) (loadingTimeout st) (dataLoaded st) (toasts st) (timers st) (nextTimerId st) (route st).

Definition setIsLoading (v : bool) (st : State) : State :=
  mkState (user st) v (loadingFailed st) (historicalData st) (filteredData st) (activeTab st) (selectedTeam st) (teams st) (dateRange st) (stats st) (lastRefreshed st) (loadingTimeout st) (dataLoaded st) (toasts st) (timers st) (nextTimerId st) (route st).

Definition setLoadingFailed (v : bool) (st : State) : State :=
  mkState (user st) (isLoading st) v (historicalData st) (filteredData st) (activeTab st) (selectedTeam st) (teams st) (dateRange st) (stats st) (lastRefreshed st) (loadingTimeout st) (dataLoaded st) (toasts st) (timers st) (nextTimerId st) (route st).

Definition setHistoricalData (v : list DailyUpdate.t) (st : State) : State :=
  mkState (user st) (isLoading st) (loadingFailed st) v (filteredData st) (activeTab st) (selectedTeam st) (teams st) (dateRange st) (stats st) (lastRefreshed st) (loadingTimeout st) (dataLoaded st) (toasts st) (timers st) (nextTimerId st) (route st).

Definition setFilteredData (v : list DailyUpdate.t) (st : State) : State :=
  mkState (user st) (isLoading st) (loadingFailed st) (historicalData st) v (activeTab st) (selectedTeam st) (teams st) (dateRange st) (stats st) (lastRefreshed st) (loadingTimeout st) (dataLoaded st) (toasts st) (timers st) (nextTimerId st) (route st).

Definition setActiveTab (v : Tab) (st : State) : State :=
  mkState (user st) (isLoading st) (loadingFailed st) (historicalData st) (filteredData st) v (selectedTeam st) (teams st) (dateRange st) (stats st) (lastRefreshed st) (loadingTimeout st) (dataLoaded st) (toasts st) (timers st) (nextTimerId st) (route st).

Definition setSelectedTeam (v : string) (st : State) : State :=
  mkState (user st) (isLoading st) (loadingFailed st) (historicalData st) (filteredData st) (activeTab st) v (teams st) (dateRange st) (stats st) (lastRefreshed st) (loadingTimeout st) (dataLoaded st) (toasts st) (timers st) (nextTimerId st) (route st).

Definition setTeams (v : list Team.t) (st : State) : State :=
  mkState (user st) (isLoading st) (loadingFailed st) (historicalData st) (filteredData st) (activeTab st) (selectedTeam st) v (dateRange st) (stats st) (lastRefreshed st) (loadingTimeout st) (dataLoaded st) (toasts st) (timers st) (nextTimerId st) (route st).

Definition setDateRange (v : DateRange) (st : State) : State :=
  mkState (user st) (isLoading st) (loadingFailed st) (historicalData st) (filteredData st) (activeTab st) (selectedTeam st) (teams st) v (stats st) (lastRefreshed st) (loadingTimeout st) (dataLoaded st) (toasts st) (timers st) (nextTimerId st) (route st).

Definition setStats (v : Stats) (st : State) : State :=
  mkState (user st) (isLoading st) (loadingFailed st) (historicalData st) (filteredData st) (activeTab st) (selectedTeam st) (teams st) (dateRange st) v (lastRefreshed st) (loadingTimeout st) (dataLoaded st) (toasts st) (timers st) (nextTimerId st) (route st).

Definition setLastRefreshed (v : option Z) (st : State) : State :=
  mkState (user st) (isLoading st) (loadingFailed st) (historicalData st) (filteredData st) (activeTab st) (selectedTeam st) (teams st) (dateRange st) (stats st) v (loadingTimeout st) (dataLoaded st) (toasts st) (timers st) (nextTimerId st) (route st).

Definition setLoadingTimeout (v : option nat) (st : State) : State :=
  mkState (user st) (isLoading st) (loadingFailed st) (historicalData st) (filteredData st) (activeTab st) (selectedTeam st) (teams st) (dateRange st) (stats st) (lastRefreshed st) v (dataLoaded st) (toasts st) (timers st) (nextTimerId st) (route st).

Definition setDataLoaded (v : bool) (st : State) : State :=
  mkState (user st) (isLoading st) (loadingFailed st) (historicalData st) (filteredData st) (activeTab st) (selectedTeam st) (teams st) (dateRange st) (stats st) (lastRefreshed st) (loadingTimeout st) v (toasts st) (timers st) (nextTimerId st) (route st).

Definition setToasts (v : list Toast) (st : State) : State :=
  mkState (user st) (isLoading st) (loadingFailed st) (historicalData st) (filteredData st) (activeTab st) (selectedTeam st) (teams st) (dateRange st) (stats st) (lastRefreshed st) (loadingTimeout st) (dataLoaded st) v (timers st) (nextTimerId st) (route st).

Definition setTimers (v : list Timer) (st : State) : State :=
  mkState (user st) (isLoading st) (loadingFailed st) (historicalData st) (filteredData st) (activeTab st) (selectedTeam st) (teams st) (dateRange st) (stats st) (lastRefreshed st) (loadingTimeout st) (dataLoaded st) (toasts st) v (nextTimerId st) (route st).

Definition setNextTimerId (v : nat) (st : State) : State :=
  mkState (user st) (isLoading st) (loadingFailed st) (historicalData st) (filteredData st) (activeTab st) (selectedTeam st) (teams st) (dateRange st) (stats st) (lastRefreshed st) (loadingTimeout st) (dataLoaded st) (toasts st) (timers st) v (route st).

Definition setRoute (v : list string) (st : State) : State :=
  mkState (user st) (isLoading st) (loadingFailed st) (historicalData st) (filteredData st) (activeTab st) (selectedTeam st) (teams st) (dateRange st) (stats st) (lastRefreshed st) (loadingTimeout st) (dataLoaded st) (toasts st) (timers st) (nextTimerId st) v.

Definition render (st : State) : Render :=
  mkRender (user st) (dateRange st) (selectedTeam st) (activeTab st)
           (historicalData st) (loadingTimeout st) (dataLoaded st).

(** The state of a freshly mounted component; [today] is the day number
    of [new Date()]. *)
Definition mount (auth : option User) (today : Z) : State :=
  mkState auth false false [] [] Tab_all "" [] (mkDateRange (today - 7) today)
          (mkStats 0 0 0 0 0) None None false [] [] 1 [].

Definition toast (t : Toast) (st : State) : State :=
  setToasts (toasts st ++ [t]) st.

Definition setTimeout (cb : Callback) (ms : Z) (st : State) : nat * State :=
  (nextTimerId st,
   setNextTimerId (S (nextTimerId st))
     (setTimers (timers st ++ [mkTimer (nextTimerId st) ms cb]) st)).

Definition clearTimeout (id : nat) (st : State) : State :=
  setTimers (filter (fun t => negb (timerId t =? id)) (timers st)) st.

Definition routerReplace (path : string) (st : State) : State :=
  setRoute (route st ++ [path]) st.

(** [update => update.blocker_type] as a filter predicate. *)
Definition hasBlocker (u : DailyUpdate.t) : bool :=
  Js.truthyOpt (DailyUpdate.blocker_type u).

(** The date predicate of lines 1225-1228 and 1551-1554. *)
Definition inDateRange (dr : DateRange) (u : DailyUpdate.t) : bool :=
  let updateDate := isoDate (DailyUpdate.created_at u) in
  (start dr <=? updateDate)%Z && (updateDate <=? end_ dr)%Z.

(** [update => update.team_id === selectedTeam] *)
Definition inTeam (selectedTeam : string) (u : DailyUpdate.t) : bool :=
  Store.optEqb (DailyUpdate.team_id u) selectedTeam.

(** [update => new Date(update.created_at) >= sevenDaysAgo] *)
Definition isRecent (sevenDaysAgo : Z) (u : DailyUpdate.t) : bool :=
  (sevenDaysAgo <=? DailyUpdate.created_at u)%Z.

(** Lines 1215-1260.  [sevenDaysAgo] is the instant lines 1238-1239 derive
    from the clock: [new Date()] moved back seven calendar days. *)
Definition applyFiltersToData (r : Render) (sevenDaysAgo : Z)
  (data : list DailyUpdate.t) : list DailyUpdate.t :=
  if (List.length data =? 0)%nat then []
  else
    let filtered := data in
    let filtered := filter (inDateRange (r_dateRange r)) filtered in
    let filtered :=
      if Js.truthy (r_selectedTeam r)
      then filter (inTeam (r_selectedTeam r)) filtered
      else filtered in
    let filtered :=
      match r_activeTab r with
      | Tab_recent => filter (isRecent sevenDaysAgo) filtered
      | Tab_blockers => filter hasBlocker filtered
      | Tab_completed => filter (DailyUpdate.hasStatus "completed") filtered
      | Tab_in_progress => filter (DailyUpdate.hasStatus "in-progress") filtered
      | Tab_blocked => filter (DailyUpdate.hasStatus "blocked") filtered
      | Tab_all => filtered
      end in
    filtered.

(** Lines 1262-1271. *)
Definition calculateStats (data : list DailyUpdate.t) (st : State) : State :=
  let stats :=
    mkStats (List.length data)
            (List.length (filter hasBlocker data))
            (List.length (filter (DailyUpdate.hasStatus "completed") data))
            (List.length (filter (DailyUpdate.hasStatus "in-progress") data))
            (List.length (filter (DailyUpdate.hasStatus "blocked") data)) in
  setStats stats st.

(** Lines 1537-1587. *)
Definition forceApplyFilters (r : Render) (sevenDaysAgo : Z) (st : State)
  : State :=
  if (List.length (r_historicalData r) =? 0)%nat
  then calculateStats [] (setFilteredData [] st)
  else
    let filtered := r_historicalData r in
    let filtered := filter (inDateRange (r_dateRange r)) filtered in
    let filtered :=
      if Js.truthy (r_selectedTeam r)
      then filter (inTeam (r_selectedTeam r)) filtered
      else filtered in
    let filtered :=
      match r_activeTab r with
      | Tab_recent => filter (isRecent sevenDaysAgo) filtered
      | Tab_blockers => filter hasBlocker filtered
      | Tab_completed => filter (DailyUpdate.hasStatus "completed") filtered
      | Tab_in_progress => filter (DailyUpdate.hasStatus "in-progress") filtered
      | Tab_blocked => filter (DailyUpdate.hasStatus "blocked") filtered
      | Tab_all => filtered
      end in
    calculateStats filtered (setFilteredData filtered st).

(** Lines 1273-1275. *)
Definition applyFilters (r : Render) (sevenDaysAgo : Z) (st : State) : State :=
  forceApplyFilters r sevenDaysAgo st.

(** Lines 1123-1125 and 1531-1534: the effects that re-apply the filters
    after a render in which a filter or [historicalData] changed; they
    belong to that render, so they read the live values. *)
Definition applyFiltersEffect (sevenDaysAgo : Z) (st : State) : State :=
  applyFilters (render st) sevenDaysAgo st.

(** The [switch (filterType)] of lines 1285-1300. *)
Definition tabOfCard (filterType : string) : Tab :=
  if (filterType =? "total")%string then Tab_all
  else if (filterType =? "completed")%string then Tab_completed
  else if (filterType =? "in-progress")%string then Tab_in_progress
  else if (filterType =? "blocked")%string then Tab_blocked
  else Tab_all.

(** Lines 1278-1309. *)
Definition filterByCardType (r : Render) (filterType : string) (st : State)
  : State :=
  let st := if Js.truthy (r_selectedTeam r) then setSelectedTeam "" st else st in
  let st := setActiveTab (tabOfCard filterType) st in
  let st := snd (setTimeout (DeferredApplyFilters r) 100 st) in
  toast (ToastSuccess
           ("Filtered by "
            ++ (if (filterType =? "total")%string then "all updates" else filterType)
            ++ " status")%string) st.

(** A click on a stats card runs the handler of the render on screen. *)
Definition clickStatsCard (filterType : string) (st : State) : State :=
  filterByCardType (render st) filterType st.

(** What a pending timer does when it fires. *)
Definition fire (cb : Callback) (sevenDaysAgo : Z) (st : State) : State :=
  match cb with
  | DataTimedOut =>
      toast (ToastError "Data fetch timed out. Please try again.")
            (setIsLoading false (setLoadingFailed true st))
  | DeferredApplyFilters r => applyFilters r sevenDaysAgo st
  end.

(** The query of lines 1152-1176 and of lines 1456-1474. *)
Definition updatesQuery (r : Render) (teamFilter : string) : Store.Query :=
  Store.mkQuery
    (match r_user r with
     | Some u => if (role u =? "user")%string then Some (email u) else None
     | None => None
     end)
    (T00_00_00_000Z (start (r_dateRange r)))
    (T23_59_59Z (end_ (r_dateRange r)))
    (if Js.truthy teamFilter then Some teamFilter else None)
    false.

(** Lines 1190-1193 and 1485-1488. *)
Definition cleanData (data : list DailyUpdate.t) : list DailyUpdate.t :=
  map (fun item =>
         DailyUpdate.set_team_name
           (Some (Js.orElse (option_map Team.team_name (DailyUpdate.aditi_teams item))
                            "Unknown Team"))
           item)
      data.

(** Lines 1452-1502.  Nothing is written before the [await]: while the
    request is in flight the state is the one the call found. *)
Definition fetchDataSilently (r : Render) (teamFilter : string)
  (outcome : Store.Outcome) (st : State) : State :=
  match outcome with
  | Store.Failed => st
  | Store.NoData => st
  | Store.Served now table =>
      let data := Store.run (updatesQuery r teamFilter) table in
      let cleanedData := cleanData data in
      let st := setHistoricalData cleanedData st in
      (* applyFiltersToData(cleanedData): the value is dropped *)
      setLastRefreshed (Some now) st
  end.

(** Lines 1421-1449: the periodic refresh. *)
Definition refreshInterval : Z := 5 * 60 * 1000.

Definition pollPeriod : Z := 30000.

(** The effect installs the interval only with data loaded and a user;
    the value is the initial [lastRefreshTime]. *)
Definition periodicRefresh (r : Render) (now : Z) : option Z :=
  if r_dataLoaded r && match r_user r with Some _ => true | None => false end
  then Some now
  else None.

(** One run of the interval callback: whether [fetchDataSilently] is
    called, and the new [lastRefreshTime]. *)
Definition onInterval (visible : bool) (now : Z) (lastRefreshTime : Z)
  : bool * Z :=
  if visible
  then
    if TabSwitchUtil.isReturningFromTabSwitch
    then (false, lastRefreshTime)
    else
      let timeSinceLastRefresh := (now - lastRefreshTime)%Z in
      if (refreshInterval <=? timeSinceLastRefresh)%Z
      then (true, now)
      else (false, lastRefreshTime)
  else (false, lastRefreshTime).

(** The instants at which a sequence of interval ticks, each with the
    clock reading and the visibility it finds, calls [fetchDataSilently]. *)
Fixpoint refreshTimes (ticks : list (Z * bool)) (lastRefreshTime : Z)
  : list Z :=
  match ticks with
  | [] => []
  | (now, visible) :: ticks' =>
      let (refresh, lastRefreshTime') := onInterval visible now lastRefreshTime in
      if refresh
      then now :: refreshTimes ticks' lastRefreshTime'
      else refreshTimes ticks' lastRefreshTime'
  end.

(** The team store answers a query with an error or with its rows
    ([null] possible); a request beyond the recorded ones fails. *)
Inductive TeamsOutcome :=
| TeamsFailed
| TeamsServed (data : option (list Team.t)).

Record Net := mkNet {
  teamsNet : list TeamsOutcome;
  updatesNet : list Store.Outcome
}.

Definition nextTeams (net : Net) : TeamsOutcome * Net :=
  match teamsNet net with
  | [] => (TeamsFailed, net)
  | o :: rest => (o, mkNet rest (updatesNet net))
  end.

Definition nextUpdates (net : Net) : Store.Outcome * Net :=
  let (o, rest) := Store.next (updatesNet net) in
  (o, mkNet (teamsNet net) rest).

(** The [catch] of lines 1115-1120. *)
Definition teamsFailed (st : State) : State :=
  let st := toast (ToastError "Failed to load teams") st in
  let st := setIsLoading false st in
  setLoadingFailed true st.

(** [fetchData] (lines 1128-1212) awaits [fetchTeamsBasedOnRole] (lines
    1070-1121), which awaits [fetchData] in turn once the teams are
    loaded.  [fuel] bounds the depth of that mutual recursion; [None]
    stands for a run that has not returned within it. *)
Fixpoint fetchData (fuel : nat) (r : Render) (teamFilter : string)
  (net : Net) (st : State) {struct fuel} : option (State * Net) :=
  match fuel with
  | O => None
  | S fuel' =>
      match r_user r with
      | None => Some (st, net)
      | Some _ =>
          let st := setIsLoading true st in
          let st := setLoadingFailed false st in
          match fetchTeamsBasedOnRole fuel' r net st with
          | None => None
          | Some (st, net) =>
              let st := match r_loadingTimeout r with
                        | Some t => clearTimeout t st
                        | None => st
                        end in
              let (newTimeout, st) := setTimeout DataTimedOut 20000 st in
              let st := setLoadingTimeout (Some newTimeout) st in
              let (outcome, net) := nextUpdates net in
              let st :=
                match outcome with
                | Store.Served now table =>
                    let data := Store.run (updatesQuery r teamFilter) table in
                    let cleanedData := cleanData data in
                    let st := setHistoricalData cleanedData st in
                    (* applyFiltersToData(cleanedData): the value is dropped *)
                    let st := setLastRefreshed (Some now) st in
                    setDataLoaded true st
                | Store.NoData => st
                | Store.Failed =>
                    let st :=
                      toast (ToastError "Failed to load data. Please try again.") st in
                    setLoadingFailed true st
                end in
              let st := setIsLoading false st in
              let st := match r_loadingTimeout r with
                        | Some t => setLoadingTimeout None (clearTimeout t st)
                        | None => st
                        end in
              Some (st, net)
          end
      end
  end
with fetchTeamsBasedOnRole (fuel : nat) (r : Render) (net : Net) (st : State)
  {struct fuel} : option (State * Net) :=
  match fuel with
  | O => None
  | S fuel' =>
      match r_user r with
      | None => Some (st, net)
      | Some user =>
          let st := setIsLoading true st in
          if (role user =? "admin")%string then
            match nextTeams net with
            | (TeamsFailed, net) => Some (teamsFailed st, net)
            | (TeamsServed data, net) =>
                let st := setTeams (match data with Some d => d | None => [] end) st in
                fetchData fuel' r "" net st
            end
          else if (role user =? "manager")%string then
            match nextTeams net with
            | (TeamsFailed, net) => Some (teamsFailed st, net)
            | (TeamsServed data, net) =>
                let st := setTeams (match data with Some d => d | None => [] end) st in
                match data with
                | Some [team] =>
                    let st := setSelectedTeam (Team.id team) st in
                    fetchData fuel' r (Team.id team) net st
                | _ => fetchData fuel' r "" net st
                end
            end
          else Some (routerReplace "/user-dashboard" st, net)
      end
  end.

(** *** The local recovery cache, lines 908-995

    [localStorage] is the list of its entries in key order; the three
    platform parsers are parameters: [JSON_parse_email s] is
    [JSON.parse(s).email] ([None] when the parse throws or gives no
    email), [JSON_parse_updates s] is [JSON.parse(s)] read as an array of
    updates ([None] when that throws) and [parseInt s] is [None] for
    [NaN]. *)

Definition Storage := list (string * string).

Fixpoint getItem (storage : Storage) (key : string) : option string :=
  match storage with
  | [] => None
  | (k, v) :: storage' => if (k =? key)%string then Some v else getItem storage' key
  end.

(** [localStorage.getItem(key)] with a truthy value. *)
Definition getTruthy (storage : Storage) (key : string) : option string :=
  match getItem storage key with
  | Some v => if Js.truthy v then Some v else None
  | None => None
  end.

Section LocalRecovery.

Variable JSON_parse_email : string -> option string.
Variable JSON_parse_updates : string -> option (list DailyUpdate.t).
Variable parseInt : string -> option Z.

(** Lines 913-933. *)
Definition recoverUserEmail (storage : Storage) : option string :=
  let userEmail :=
    match getTruthy storage "aditi_user_cache" with
    | Some cachedUser => JSON_parse_email cachedUser
    | None => None
    end in
  if negb (Js.truthyOpt userEmail)
  then
    let keys := map fst storage in
    match find (fun key => Js.startsWith key "dashboard_" && Js.includes key "@") keys with
    | Some dashboardKey =>
        Some (nth 0 (Js.split (nth 1 (Js.split dashboardKey "dashboard_") ""%string) "_")
                  ""%string)
    | None => userEmail
    end
  else userEmail.

Definition chunkKey (i : nat) (userEmail : string) : string :=
  ("dashboard_historicalData_chunk_" ++ Js.ofNat i ++ "_" ++ userEmail)%string.

(** The loop of lines 947-953, [todo] iterations from index [i] on;
    [None] when a [JSON.parse] throws. *)
Fixpoint loadChunks (storage : Storage) (userEmail : string) (todo i : nat)
  (combinedData : list DailyUpdate.t) : option (list DailyUpdate.t) :=
  match todo with
  | O => Some combinedData
  | S todo' =>
      match getTruthy storage (chunkKey i userEmail) with
      | Some chunkData =>
          match JSON_parse_updates chunkData with
          | Some parsedChunk =>
              loadChunks storage userEmail todo' (S i) (combinedData ++ parsedChunk)
          | None => None
          end
      | None => loadChunks storage userEmail todo' (S i) combinedData
      end
  end.

(** The state writes of lines 958-962 and 973-977. *)
Definition recovered (data : list DailyUpdate.t) (st : State) : State :=
  let st := setHistoricalData data st in
  let st := setFilteredData data st in
  let st := calculateStats data st in
  let st := setDataLoaded true st in
  setLoadingFailed false st.

(** Lines 967-986. *)
Definition recoverOldFormat (storage : Storage) (userEmail : string)
  (st : State) : bool * State :=
  match getTruthy storage ("dashboard_historicalData_" ++ userEmail)%string with
  | Some oldDataStr =>
      match JSON_parse_updates oldDataStr with
      | Some parsedData => (true, recovered parsedData st)
      | None => (false, st)
      end
  | None => (false, st)
  end.

(** Lines 908-995. *)
Definition tryRecoverFromLocalStorage (storage : Storage) (st : State)
  : bool * State :=
  match recoverUserEmail storage with
  | Some userEmail =>
      if Js.truthy userEmail then
        match getTruthy storage
                ("dashboard_historicalData_chunkCount_" ++ userEmail)%string with
        | Some chunkCountStr =>
            let chunkCount :=
              match parseInt chunkCountStr with
              | Some n => Z.to_nat n
              | None => O
              end in
            match loadChunks storage userEmail chunkCount 0 [] with
            | Some combinedData =>
                if (0 <? List.length combinedData)%nat
                then (true, recovered combinedData st)
                else recoverOldFormat storage userEmail st
            | None => (false, st)
            end
        | None => recoverOldFormat storage userEmail st
        end
      else (false, st)
  | None => (false, st)
  end.

End LocalRecovery.

(** The edit button of a table row (lines 2037-2050) and of the expanded
    row (lines 2116-2128): rendered without a condition. *)
Definition listViewEditButton (user : option User) (status : string) : bool :=
  true.

Definition detailViewEditButton (user : option User) (status : string) : bool :=
  true.

(** Lines 1407-1419 (and 1377-1389, with another message).  [fetchData]
    is called without [await]: the toast is shown when that call reaches
    its first [await], after it has written the two loading flags and
    before any toast of its own; the toast is written here before the
    call, which gives the same state. *)
Definition clearCache (fuel : nat) (r : Render) (net : Net) (st : State)
  : option (State * Net) :=
  let st := setHistoricalData [] st in
  let st := setFilteredData [] st in
  let st := setDataLoaded false st in
  let st := toast (ToastSuccess "Fetching fresh data...") st in
  fetchData fuel r (r_selectedTeam r) net st.

(** *** The page buttons, lines 2189-2224 *)

(** The number on the [i]-th page button. *)
Definition pageNum (totalPages currentPage i : Z) : Z :=
  if (totalPages <=? 5)%Z then (i + 1)%Z
  else if (currentPage <=? 3)%Z then (i + 1)%Z
  else if (totalPages - 2 <=? currentPage)%Z then (totalPages - 4 + i)%Z
  else (currentPage - 2 + i)%Z.

(** [Array.from({ length: Math.min(5, totalPages) }, (_, i) => pageNum)] *)
Definition pageButtons (totalPages currentPage : Z) : list Z :=
  map (fun i => pageNum totalPages currentPage (Z.of_nat i))
      (seq 0 (Z.to_nat (Z.min 5 totalPages))).

(** [prev => Math.max(prev - 1, 1)] *)
Definition previousPage (prev : Z) : Z := Z.max (prev - 1) 1.

(** [prev => Math.min(prev + 1, totalPages)] *)
Definition nextPage (totalPages prev : Z) : Z := Z.min (prev + 1) totalPages.

(** *** The CSV export, lines 1324-1368

    The columns of an update that the record above does not carry, and the
    renderings of dates and numbers by the platform, are parameters. *)

(** [parts.join(sep)] *)
Fixpoint join (sep : string) (parts : list string) : string :=
  match parts with
  | [] => EmptyString
  | [p] => p
  | p :: parts' => (p ++ sep ++ join sep parts')%string
  end.

Definition csvHeaders : list string :=
  ["Date"; "Start Date"; "End Date"; "Story Points"; "Team"; "Employee";
   "Tasks Completed"; "Status"; "Priority"; "Additional Notes"]%string.

(** Lines 1355-1361. *)
Definition team_name_from_teams (teams : list Team.t) (update : DailyUpdate.t)
  : string :=
  match DailyUpdate.team_id update with
  | Some team_id =>
      if Js.truthy team_id
      then match find (fun t => (Team.id t =? team_id)%string) teams with
           | Some team => Team.team_name team
           | None => EmptyString
           end
      else EmptyString
  | None => EmptyString
  end.

Section ExportToCSV.

Variable toLocaleDateString : Z -> string.
Variable dateToLocaleDateString : string -> string.
Variable numberToString : Z -> string.
Variable start_date : DailyUpdate.t -> option string.
Variable end_date : DailyUpdate.t -> option string.
Variable story_points : DailyUpdate.t -> option Z.
Variable tasks_completed : DailyUpdate.t -> string.
Variable priority : DailyUpdate.t -> string.
Variable additional_notes : DailyUpdate.t -> option string.

(** [d ? new Date(d).toLocaleDateString() : ''] *)
Definition optionalDate (d : option string) : string :=
  match d with
  | Some s => if Js.truthy s then dateToLocaleDateString s else EmptyString
  | None => EmptyString
  end.

(** The array of lines 1340-1351. *)
Definition csvFields (teams : list Team.t) (update : DailyUpdate.t) : list string :=
  [toLocaleDateString (DailyUpdate.created_at update);
   optionalDate (start_date update);
   optionalDate (end_date update);
   match story_points update with
   | Some n => numberToString n
   | None => EmptyString
   end;
   Js.orElse (option_map Team.team_name (DailyUpdate.aditi_teams update))
             (Js.orElse (Some (team_name_from_teams teams update)) EmptyString);
   DailyUpdate.employee_email update;
   tasks_completed update;
   DailyUpdate.status update;
   priority update;
   Js.orElse (additional_notes update) EmptyString].

(** Lines 1338-1352: the content of the exported file. *)
Definition csvContent (teams : list Team.t) (filteredData : list DailyUpdate.t)
  : string :=
  join (String (ascii_of_nat 10) EmptyString)
       (join "," csvHeaders
        :: map (fun update => join "," (csvFields teams update)) filteredData).

End ExportToCSV.

End Dashboard.

(** ** Row expansion: [toggleRowExpansion], lines 234-239 and 1317-1322

    [expandedRows] is the list of the properties of the object, a row id
    with its flag. *)

Module ExpandedRows.

Definition t := list (string * bool).

(** [rows[id]] *)
Fixpoint get (rows : t) (id : string) : option bool :=
  match rows with
  | [] => None
  | (k, v) :: rows' => if (k =? id)%string then Some v else get rows' id
  end.

(** [{ ...rows, [id]: v }] *)
Fixpoint assign (id : string) (v : bool) (rows : t) : t :=
  match rows with
  | [] => [(id, v)]
  | (k, x) :: rows' =>
      if (k =? id)%string then (k, v) :: rows' else (k, x) :: assign id v rows'
  end.

(** [!rows[id]] *)
Definition notAt (rows : t) (id : string) : bool :=
  match get rows id with
  | Some v => negb v
  | None => true
  end.

Definition toggleRowExpansion (id : string) (prev : t) : t :=
  assign id (notAt prev id) prev.

(** [expandedRows[id]] read as a condition (lines 612, 677 and 1972). *)
Definition isExpanded (rows : t) (id : string) : bool :=
  match get rows id with
  | Some v => v
  | None => false
  end.

End ExpandedRows.

(** ** The tab id of [src/lib/tabSwitchUtil.ts], lines 9-25 *)

Module TabId.

Definition TAB_ID_KEY : string := "aditi_tab_id".

(** [sessionStorage.setItem(key, value)] *)
Fixpoint setItem (key value : string) (storage : Dashboard.Storage)
  : Dashboard.Storage :=
  match storage with
  | [] => [(key, value)]
  | (k, v) :: storage' =>
      if (k =? key)%string then (k, value) :: storage'
      else (k, v) :: setItem key value storage'
  end.

(** Lines 14-25.  [hasWindow] is [typeof window !== 'undefined']; [now]
    is the rendering of [Date.now()] and [random] that of
    [Math.random().toString(36).slice(2, 11)]. *)
Definition getTabId (hasWindow : bool) (now random : string)
  (sessionStorage : Dashboard.Storage) : string * Dashboard.Storage :=
  if negb hasWindow then (EmptyString, sessionStorage)
  else
    match Dashboard.getTruthy sessionStorage TAB_ID_KEY with
    | Some tabId => (tabId, sessionStorage)
    | None =>
        let tabId := ("tab_" ++ now ++ "_" ++ random)%string in
        (tabId, setItem TAB_ID_KEY tabId sessionStorage)
    end.

End TabId.

(** * Vocabulary of the properties *)

Local Open Scope string_scope.

(** ** The rule of the specification for editing (section 4.1), in the
    spec's words: the acting user's role is admin or manager, or the
    acting user owns the update and its status is to-do or in-progress. *)
Definition spec_editPermitted (actor : User) (u : DailyUpdate.t) : bool :=
  ((role actor =? "admin")%string || (role actor =? "manager")%string)
  || ((DailyUpdate.employee_email u =? email actor)%string
      && ((DailyUpdate.status u =? "to-do")%string
          || (DailyUpdate.status u =? "in-progress")%string)).

(** The three filter passes of the manager view as one predicate. *)
Definition keeps (r : Dashboard.Render) (sevenDaysAgo : Z) (u : DailyUpdate.t)
  : bool :=
  Dashboard.inDateRange (Dashboard.r_dateRange r) u
  && (if Js.truthy (Dashboard.r_selectedTeam r)
      then Dashboard.inTeam (Dashboard.r_selectedTeam r) u
      else true)
  && match Dashboard.r_activeTab r with
     | Dashboard.Tab_recent => Dashboard.isRecent sevenDaysAgo u
     | Dashboard.Tab_blockers => Dashboard.hasBlocker u
     | Dashboard.Tab_completed => DailyUpdate.hasStatus "completed" u
     | Dashboard.Tab_in_progress => DailyUpdate.hasStatus "in-progress" u
     | Dashboard.Tab_blocked => DailyUpdate.hasStatus "blocked" u
     | Dashboard.Tab_all => true
     end.

(** The delays awaited by a run that starts with the counter at
    [retryCount]: 1000 ms times the count of failed attempts so far. *)
Definition backoff (retryCount retries : nat) : list Z :=
  map (fun attempt => (1000 * Z.of_nat attempt)%Z) (seq (S retryCount) retries).

(** The outcomes met by the first [k] attempts are all failures. *)
Definition allFail (k : nat) (net : list Store.Outcome) : Prop :=
  Forall (fun o => o = Store.Failed) (firstn k net).

(** Every update query on record fails. *)
Definition updatesAllFail (net : Dashboard.Net) : Prop :=
  Forall (fun o => o = Store.Failed) (Dashboard.updatesNet net).

(** The toast of the [catch] of [fetchData], line 1203. *)
Definition dataFailedToast : Toast :=
  ToastError "Failed to load data. Please try again.".

(** What a run of the fetch leaves alone when every update query fails,
    and what it shows. *)
Definition dataKept (st st' : Dashboard.State) : Prop :=
  Dashboard.historicalData st' = Dashboard.historicalData st
  /\ Dashboard.filteredData st' = Dashboard.filteredData st
  /\ Dashboard.stats st' = Dashboard.stats st
  /\ exists shown, Dashboard.toasts st' = (Dashboard.toasts st ++ shown)%list.

(** Each refresh comes at least a full interval after the one before. *)
Fixpoint spaced (lastRefreshTime : Z) (times : list Z) : Prop :=
  match times with
  | [] => True
  | t :: times' =>
      (lastRefreshTime + Dashboard.refreshInterval <= t)%Z /\ spaced t times'
  end.

Section RecoveryVocabulary.

Variable JSON_parse_updates : string -> option (list DailyUpdate.t).
Variable parseInt : string -> option Z.

(** The chunked representation in the words of the specification: the
    stored chunk count, and the stored chunks put end to end in index
    order. *)
Definition storedChunkCount (storage : Dashboard.Storage) (userEmail : string)
  : option nat :=
  match Dashboard.getTruthy storage
          ("dashboard_historicalData_chunkCount_" ++ userEmail) with
  | Some chunkCountStr =>
      Some match parseInt chunkCountStr with
           | Some n => Z.to_nat n
           | None => O
           end
  | None => None
  end.




End RecoveryVocabulary.

(** A cache that holds the user record, the legacy entry and two chunks,
    with parsers that read exactly these entries. *)
Definition cachedUpdate (id : string) : DailyUpdate.t :=
  DailyUpdate.mk id "alice@aditi.test" (Some "t1") 0 "to-do" None None None.

Definition sampleParseEmail (s : string) : option string :=
  if s =? "user alice@aditi.test" then Some "alice@aditi.test" else None.

Definition sampleParseUpdates (s : string) : option (list DailyUpdate.t) :=
  if s =? "[u0]" then Some [cachedUpdate "u0"]
  else if s =? "[u1]" then Some [cachedUpdate "u1"]
  else if s =? "[u2]" then Some [cachedUpdate "u2"]
  else None.

Definition sampleParseInt (s : string) : option Z :=
  if s =? "2" then Some 2%Z else None.

Definition sampleStorage (chunk0 : string) : Dashboard.Storage :=
  [("aditi_user_cache", "user alice@aditi.test");
   ("dashboard_historicalData_alice@aditi.test", "[u0]");
   ("dashboard_historicalData_chunkCount_alice@aditi.test", "2");
   ("dashboard_historicalData_chunk_0_alice@aditi.test", chunk0);
   ("dashboard_historicalData_chunk_1_alice@aditi.test", "[u2]")].

(** The pass of a tab of the manager view over one update. *)
Definition tabSelects (tab : Dashboard.Tab) (sevenDaysAgo : Z) (u : DailyUpdate.t)
  : bool :=
  match tab with
  | Dashboard.Tab_recent => Dashboard.isRecent sevenDaysAgo u
  | Dashboard.Tab_blockers => Dashboard.hasBlocker u
  | Dashboard.Tab_completed => DailyUpdate.hasStatus "completed" u
  | Dashboard.Tab_in_progress => DailyUpdate.hasStatus "in-progress" u
  | Dashboard.Tab_blocked => DailyUpdate.hasStatus "blocked" u
  | Dashboard.Tab_all => true
  end.

(** The sum of a list of delays. *)
Definition totalDelay (ms : list Z) : Z := fold_right Z.add 0%Z ms.

(** The occurrences of a character in a string. *)
Fixpoint countChar (c : ascii) (s : string) : nat :=
  match s with
  | EmptyString => O
  | String d s' => ((if Ascii.eqb d c then 1 else 0) + countChar c s')%nat
  end.

Definition countCharAll (c : ascii) (parts : list string) : nat :=
  fold_right (fun p n => (countChar c p + n)%nat) O parts.

(** * Properties *)

(** ** Lists and strings *)

Lemma truthy_false (s : string) : Js.truthy s = false -> s = ""%string.
Proof.
  unfold Js.truthy. destruct (String.eqb_spec s ""); [easy | discriminate].
Qed.

Lemma filter_and {A} (f g : A -> bool) (l : list A) :
  filter g (filter f l) = filter (fun x => f x && g x) l.
Proof.
  induction l as [|x l IH]; simpl; [reflexivity|].
  destruct (f x); simpl; [destruct (g x)|]; now rewrite IH.
Qed.

Lemma filter_twice {A} (f : A -> bool) (l : list A) :
  filter f (filter f l) = filter f l.
Proof.
  rewrite filter_and. apply filter_ext. intros x. now destruct (f x).
Qed.

Lemma filter_length_le {A} (f : A -> bool) (l : list A) :
  (List.length (filter f l) <= List.length l)%nat.
Proof.
  induction l as [|x l IH]; simpl; [lia|]. destruct (f x); simpl; lia.
Qed.

(** Three predicates no two of which hold together select at most the
    whole list. *)
Lemma three_disjoint_counts {A} (f g h : A -> bool) (l : list A) :
  (forall x, f x && g x = false) ->
  (forall x, f x && h x = false) ->
  (forall x, g x && h x = false) ->
  (List.length (filter f l) + List.length (filter g l)
   + List.length (filter h l) <= List.length l)%nat.
Proof.
  intros Hfg Hfh Hgh.
  induction l as [|x l IH]; simpl; [lia|].
  specialize (Hfg x); specialize (Hfh x); specialize (Hgh x).
  destruct (f x), (g x), (h x); simpl in *; try discriminate; lia.
Qed.

Lemma hasStatus_disjoint (s1 s2 : string) (u : DailyUpdate.t) :
  s1 <> s2 -> DailyUpdate.hasStatus s1 u && DailyUpdate.hasStatus s2 u = false.
Proof.
  intros Hne. unfold DailyUpdate.hasStatus.
  destruct (String.eqb_spec (DailyUpdate.status u) s1);
    destruct (String.eqb_spec (DailyUpdate.status u) s2); simpl; congruence.
Qed.

(** ** The store *)

Lemma In_insertDesc (u x : DailyUpdate.t) (l : list DailyUpdate.t) :
  In x (Store.insertDesc u l) <-> x = u \/ In x l.
Proof.
  induction l as [|v l IH]; simpl.
  - intuition congruence.
  - destruct (DailyUpdate.created_at v <? DailyUpdate.created_at u)%Z; simpl.
    + intuition congruence.
    + rewrite IH. intuition congruence.
Qed.

Lemma In_sortDesc (x : DailyUpdate.t) (l : list DailyUpdate.t) :
  In x (Store.sortDesc l) <-> In x l.
Proof.
  unfold Store.sortDesc.
  induction l as [|v l IH]; simpl; [tauto|].
  rewrite In_insertDesc, IH. intuition congruence.
Qed.

(** A row is in the answer exactly when the table holds it and the query
    selects it. *)
Lemma In_run (q : Store.Query) (table : list DailyUpdate.t) (x : DailyUpdate.t) :
  In x (Store.run q table) <-> In x table /\ Store.selects q x = true.
Proof.
  unfold Store.run.
  destruct (Store.order_created_at_desc q);
    [rewrite In_sortDesc|]; apply filter_In.
Qed.

(** ** Edit authorization *)

Lemma isTaskEditable_iff (user : option User) (status : string) :
  UserDashboard.isTaskEditable user status = true <->
  roleIs user "admin" = true \/ roleIs user "manager" = true
  \/ status = "to-do"%string \/ status = "in-progress"%string.
Proof.
  unfold UserDashboard.isTaskEditable.
  destruct (roleIs user "admin"), (roleIs user "manager"); simpl;
    try (split; [auto | reflexivity]).
  destruct (String.eqb_spec status "to-do"), (String.eqb_spec status "in-progress");
    simpl; split; auto; intros [H|[H|[H|H]]]; congruence.
Qed.

(** Every update the employee view fetches belongs to the user of the
    render that issued the query. *)
Lemma fetched_updates_are_own (r : UserDashboard.Render) (actor : User)
  (table : list DailyUpdate.t) (u : DailyUpdate.t) :
  UserDashboard.r_user r = Some actor ->
  In u (Store.run (UserDashboard.updatesQuery r) table) ->
  DailyUpdate.employee_email u = email actor.
Proof.
  intros Hr Hin. apply In_run in Hin as [_ Hsel].
  unfold Store.selects, UserDashboard.updatesQuery in Hsel; simpl in Hsel.
  rewrite Hr in Hsel.
  repeat (apply andb_prop in Hsel as [Hsel ?]).
  now apply String.eqb_eq.
Qed.

Lemma isTaskEditable_own (actor : User) (u : DailyUpdate.t) :
  DailyUpdate.employee_email u = email actor ->
  UserDashboard.isTaskEditable (Some actor) (DailyUpdate.status u)
  = spec_editPermitted actor u.
Proof.
  intros Hown. unfold UserDashboard.isTaskEditable, spec_editPermitted; simpl.
  rewrite Hown, String.eqb_refl; simpl.
  now destruct ((role actor =? "admin")%string || (role actor =? "manager")%string).
Qed.

(** C6. For every role and every status the edit cell of the collapsed
    row and the "Actions" entry of the expanded row agree: the button is
    shown in both or in neither, with the same [disabled] attribute, and
    the dash of the collapsed row is shown exactly when the button is
    not.  In the manager view both places render the button without a
    condition. *)
Theorem edit_affordance_parity :
  forall (user : option User) (status : string),
    UserDashboard.button (UserDashboard.listViewEditCell user status)
    = UserDashboard.detailViewEditAction user status
    /\ UserDashboard.dash (UserDashboard.listViewEditCell user status)
       = match UserDashboard.detailViewEditAction user status with
         | Some _ => false
         | None => true
         end
    /\ Dashboard.listViewEditButton user status
       = Dashboard.detailViewEditButton user status.
Proof.
  intros user status.
  unfold UserDashboard.listViewEditCell, UserDashboard.detailViewEditAction; simpl.
  repeat split.
  rewrite <- orb_assoc.
  now destruct (roleIs user "admin" || (roleIs user "manager"
                || UserDashboard.isTaskEditable user status)).
Qed.

(** C5, counterexample. A plain user looking at somebody else's update
    in status to-do: the rule of the specification refuses the edit, the
    predicate of the code grants it. *)
Lemma edit_rule_ignores_owner :
  let bob := mkUser "bob@aditi.test" "Bob" "user" in
  let u := DailyUpdate.mk "u1" "alice@aditi.test" (Some "t1") 0 "to-do"
                          None None None in
  spec_editPermitted bob u = false
  /\ UserDashboard.isTaskEditable (Some bob) (DailyUpdate.status u) = true.
Proof. split; reflexivity. Qed.

(** C5, amended. The edit control is offered if and only if the role is
    admin or manager, or the status is to-do or in-progress; the owner of
    the update is not looked at.  Every update the employee view fetches
    is owned by the acting user, and on those the predicate is the rule of
    the specification: in particular an own update in status completed,
    blocked or reopen is read-only to a plain user. *)
Theorem edit_rule_on_fetched_updates :
  forall (r : UserDashboard.Render) (actor : User)
         (table : list DailyUpdate.t) (u : DailyUpdate.t),
    UserDashboard.r_user r = Some actor ->
    In u (Store.run (UserDashboard.updatesQuery r) table) ->
    (forall (user : option User) (status : string),
        UserDashboard.isTaskEditable user status = true <->
        roleIs user "admin" = true \/ roleIs user "manager" = true
        \/ status = "to-do"%string \/ status = "in-progress"%string)
    /\ DailyUpdate.employee_email u = email actor
    /\ UserDashboard.isTaskEditable (Some actor) (DailyUpdate.status u)
       = spec_editPermitted actor u.
Proof.
  intros r actor table u Hr Hin.
  pose proof (fetched_updates_are_own r actor table u Hr Hin) as Hown.
  split; [exact isTaskEditable_iff|].
  split; [exact Hown | now apply isTaskEditable_own].
Qed.

(** The rule at work: a completed update of a plain user is fetched by
    her view and is read-only to her. *)
Lemma edit_rule_on_fetched_updates_witness :
  let alice := mkUser "alice@aditi.test" "Alice" "user" in
  let r := UserDashboard.mkRender (Some alice) (mkDateRange 0 0) [] "all" None in
  let u := DailyUpdate.mk "u1" "alice@aditi.test" (Some "t1") 5 "completed"
                          None None None in
  UserDashboard.r_user r = Some alice
  /\ In u (Store.run (UserDashboard.updatesQuery r) [u])
  /\ DailyUpdate.employee_email u = email alice
  /\ UserDashboard.isTaskEditable (Some alice) (DailyUpdate.status u) = false
  /\ spec_editPermitted alice u = false.
Proof.
  intros alice r u.
  assert (Hr : UserDashboard.r_user r = Some alice) by reflexivity.
  assert (Hin : In u (Store.run (UserDashboard.updatesQuery r) [u]))
    by (vm_compute; left; reflexivity).
  destruct (edit_rule_on_fetched_updates r alice [u] u Hr Hin) as (_ & Hown & Hrule).
  repeat split; try assumption; reflexivity.
Defined.

(** ** Filters and stats *)

Lemma applyFiltersToData_filter (r : Dashboard.Render) (sevenDaysAgo : Z)
  (data : list DailyUpdate.t) :
  Dashboard.applyFiltersToData r sevenDaysAgo data
  = filter (keeps r sevenDaysAgo) data.
Proof.
  unfold Dashboard.applyFiltersToData.
  destruct data as [|u data]; [reflexivity|].
  cbn [List.length Nat.eqb].
  unfold keeps.
  destruct (Js.truthy (Dashboard.r_selectedTeam r)), (Dashboard.r_activeTab r);
    rewrite ?filter_and; apply filter_ext; intros x;
    rewrite ?andb_true_r, ?andb_assoc; reflexivity.
Qed.

Lemma forceApplyFilters_filteredData (r : Dashboard.Render) (sevenDaysAgo : Z)
  (st : Dashboard.State) :
  Dashboard.filteredData (Dashboard.forceApplyFilters r sevenDaysAgo st)
  = Dashboard.applyFiltersToData r sevenDaysAgo (Dashboard.r_historicalData r).
Proof.
  unfold Dashboard.forceApplyFilters, Dashboard.applyFiltersToData.
  destruct (Dashboard.r_historicalData r) as [|u data]; [reflexivity|].
  cbn [List.length Nat.eqb]. reflexivity.
Qed.

Lemma forceApplyFilters_stats (r : Dashboard.Render) (sevenDaysAgo : Z)
  (st : Dashboard.State) :
  Dashboard.stats (Dashboard.forceApplyFilters r sevenDaysAgo st)
  = Dashboard.stats
      (Dashboard.calculateStats
         (Dashboard.filteredData (Dashboard.forceApplyFilters r sevenDaysAgo st))
         st).
Proof.
  unfold Dashboard.forceApplyFilters.
  destruct (Dashboard.r_historicalData r) as [|u data]; [reflexivity|].
  cbn [List.length Nat.eqb]. reflexivity.
Qed.

(** C4. The filter engine of the manager view is idempotent: under one
    filter configuration (date range, team, tab) and one reading of the
    clock, filtering a filtered set changes nothing.  It holds for the
    helper [applyFiltersToData], for the set [forceApplyFilters] displays
    (which is that helper applied to the fetched set), and for the card
    filter of the employee view. *)
Theorem filter_idempotent :
  forall (r : Dashboard.Render) (sevenDaysAgo : Z) (U : list DailyUpdate.t)
         (st : Dashboard.State) (activeFilter : string),
    Dashboard.applyFiltersToData r sevenDaysAgo
      (Dashboard.applyFiltersToData r sevenDaysAgo U)
    = Dashboard.applyFiltersToData r sevenDaysAgo U
    /\ Dashboard.filteredData (Dashboard.forceApplyFilters r sevenDaysAgo st)
       = Dashboard.applyFiltersToData r sevenDaysAgo (Dashboard.r_historicalData r)
    /\ Dashboard.applyFiltersToData r sevenDaysAgo
         (Dashboard.filteredData (Dashboard.forceApplyFilters r sevenDaysAgo st))
       = Dashboard.filteredData (Dashboard.forceApplyFilters r sevenDaysAgo st)
    /\ UserDashboard.switchActiveFilter activeFilter
         (UserDashboard.switchActiveFilter activeFilter U)
       = UserDashboard.switchActiveFilter activeFilter U.
Proof.
  intros r sevenDaysAgo U st activeFilter.
  assert (Hidem : forall V,
             Dashboard.applyFiltersToData r sevenDaysAgo
               (Dashboard.applyFiltersToData r sevenDaysAgo V)
             = Dashboard.applyFiltersToData r sevenDaysAgo V).
  { intros V. rewrite !applyFiltersToData_filter. apply filter_twice. }
  split; [apply Hidem|].
  split; [apply forceApplyFilters_filteredData|].
  split; [rewrite forceApplyFilters_filteredData; apply Hidem|].
  unfold UserDashboard.switchActiveFilter.
  destruct (activeFilter =? "completed"); [apply filter_twice|].
  destruct (activeFilter =? "in-progress"); [apply filter_twice|].
  destruct (activeFilter =? "blocked"); [apply filter_twice|reflexivity].
Qed.

(** C10. A click on a stats card of the manager view leaves the team
    filter empty, sets the tab the card stands for and does not touch the
    date range. *)
Theorem stats_card_click_resets_team :
  forall (filterType : string) (st : Dashboard.State),
    let st' := Dashboard.clickStatsCard filterType st in
    Dashboard.selectedTeam st' = ""
    /\ Dashboard.activeTab st' = Dashboard.tabOfCard filterType
    /\ Dashboard.dateRange st' = Dashboard.dateRange st
    /\ Dashboard.tabOfCard "total" = Dashboard.Tab_all
    /\ Dashboard.tabOfCard "completed" = Dashboard.Tab_completed
    /\ Dashboard.tabOfCard "in-progress" = Dashboard.Tab_in_progress
    /\ Dashboard.tabOfCard "blocked" = Dashboard.Tab_blocked.
Proof.
  intros filterType st st'. subst st'.
  unfold Dashboard.clickStatsCard, Dashboard.filterByCardType; simpl.
  destruct (Js.truthy (Dashboard.selectedTeam st)) eqn:Hteam; simpl.
  - repeat split.
  - apply truthy_false in Hteam. repeat split. exact Hteam.
Qed.

Lemma status_counts_le (data : list DailyUpdate.t) :
  (List.length (filter (DailyUpdate.hasStatus "completed") data)
   + List.length (filter (DailyUpdate.hasStatus "in-progress") data)
   + List.length (filter (DailyUpdate.hasStatus "blocked") data)
   <= List.length data)%nat.
Proof.
  apply three_disjoint_counts; intros u; apply hasStatus_disjoint; discriminate.
Qed.

Lemma switchActiveFilter_length (activeFilter : string) (l : list DailyUpdate.t) :
  (List.length (UserDashboard.switchActiveFilter activeFilter l)
   <= List.length l)%nat.
Proof.
  unfold UserDashboard.switchActiveFilter.
  repeat match goal with
         | |- context [if ?b then _ else _] => destruct b
         end; auto using filter_length_le.
Qed.

(** C2, counterexample. The employee view with three fetched updates,
    one completed, one in progress, one blocked, and the card filter
    "blocked": one row is displayed and the total card reads 3. *)
Lemma user_stats_cover_the_fetched_set :
  let mkU id status :=
    DailyUpdate.mk id "alice@aditi.test" (Some "t1") 0 status None None None in
  let fetched := [mkU "u1" "completed"; mkU "u2" "in-progress"; mkU "u3" "blocked"] in
  let st :=
    UserDashboard.setActiveFilter "blocked"
      (UserDashboard.setUserUpdates fetched
         (UserDashboard.mount (Some (mkUser "alice@aditi.test" "Alice" "user")) 0)) in
  let st' := UserDashboard.applyFiltersEffect st in
  UserDashboard.filteredUpdates st' = [mkU "u3" "blocked"]
  /\ UserDashboard.totalUpdates (UserDashboard.stats st') = 3%nat
  /\ UserDashboard.totalUpdates (UserDashboard.stats st')
     <> List.length (UserDashboard.filteredUpdates st')
  /\ UserDashboard.completedTasks (UserDashboard.stats st') = 1%nat
  /\ UserDashboard.inProgressTasks (UserDashboard.stats st') = 1%nat.
Proof. repeat split; vm_compute; discriminate. Qed.

(** C2, amended. In the manager view the stats are those of the filtered
    set: the total is its length, and the completed, in-progress and
    blocked counts add up to at most the total.  In the employee view the
    stats are those of the whole fetched set, whatever the card filter:
    over a non-empty fetched set the total is its length, the three counts
    add up to at most the total, and the displayed rows are at most the
    total. *)
Theorem stats_consistency :
  forall (r : Dashboard.Render) (sevenDaysAgo : Z) (st : Dashboard.State)
         (ur : UserDashboard.Render) (ust : UserDashboard.State),
    UserDashboard.r_userUpdates ur <> [] ->
    let st' := Dashboard.forceApplyFilters r sevenDaysAgo st in
    let ust' := UserDashboard.applyFilters ur ust in
    (Dashboard.totalUpdates (Dashboard.stats st')
     = List.length (Dashboard.filteredData st')
     /\ Dashboard.completedTasks (Dashboard.stats st')
        + Dashboard.inProgressTasks (Dashboard.stats st')
        + Dashboard.stuckTasks (Dashboard.stats st')
        <= Dashboard.totalUpdates (Dashboard.stats st'))%nat
    /\ (UserDashboard.totalUpdates (UserDashboard.stats ust')
        = List.length (UserDashboard.r_userUpdates ur)
        /\ UserDashboard.completedTasks (UserDashboard.stats ust')
           + UserDashboard.inProgressTasks (UserDashboard.stats ust')
           + UserDashboard.blockedTasks (UserDashboard.stats ust')
           <= UserDashboard.totalUpdates (UserDashboard.stats ust')
        /\ List.length (UserDashboard.filteredUpdates ust')
           <= UserDashboard.totalUpdates (UserDashboard.stats ust'))%nat.
Proof.
  intros r sevenDaysAgo st ur ust Hne st' ust'. split.
  - subst st'. rewrite forceApplyFilters_stats. simpl.
    split; [reflexivity | apply status_counts_le].
  - subst ust'. unfold UserDashboard.applyFilters.
    destruct (UserDashboard.r_userUpdates ur) as [|u fetched] eqn:Hfetched;
      [congruence|].
    cbn [List.length Nat.eqb]. simpl.
    split; [reflexivity|].
    split; [apply (status_counts_le (u :: fetched))|].
    apply (switchActiveFilter_length _ (u :: fetched)).
Qed.

(** Both views on three updates under the blocked filter: the manager
    view counts the one displayed row, the employee view the three
    fetched ones. *)
Lemma stats_consistency_witness :
  let mkU id status :=
    DailyUpdate.mk id "alice@aditi.test" (Some "t1") 0 status None None None in
  let fetched := [mkU "u1" "completed"; mkU "u2" "in-progress"; mkU "u3" "blocked"] in
  let alice := Some (mkUser "alice@aditi.test" "Alice" "manager") in
  let r := Dashboard.mkRender alice (mkDateRange 0 0) "" Dashboard.Tab_blocked
                              fetched None true in
  let ur := UserDashboard.mkRender alice (mkDateRange 0 0) fetched "blocked" None in
  let st' := Dashboard.forceApplyFilters r 0 (Dashboard.mount alice 0) in
  let ust' := UserDashboard.applyFilters ur (UserDashboard.mount alice 0) in
  UserDashboard.r_userUpdates ur <> []
  /\ (Dashboard.totalUpdates (Dashboard.stats st') = 1
      /\ List.length (Dashboard.filteredData st') = 1
      /\ UserDashboard.totalUpdates (UserDashboard.stats ust') = 3
      /\ List.length (UserDashboard.filteredUpdates ust') = 1)%nat.
Proof.
  intros mkU fetched alice r ur st' ust'.
  assert (Hne : UserDashboard.r_userUpdates ur <> []) by (simpl; discriminate).
  split; [exact Hne|].
  destruct (stats_consistency r 0 (Dashboard.mount alice 0) ur
              (UserDashboard.mount alice 0) Hne) as [[Hm _] [Hu _]].
  fold st' in Hm. fold ust' in Hu.
  rewrite Hm, Hu. repeat split; reflexivity.
Defined.

(** ** The date range of the fetch *)

Lemma day_bounds (d : Z) :
  (T00_00_00_000Z d <= T23_59_59Z d < T23_59_59_999Z d)%Z
  /\ (T23_59_59_999Z d + 1 = T00_00_00_000Z (d + 1))%Z
  /\ isoDate (T00_00_00_000Z d) = d
  /\ isoDate (T23_59_59_999Z d) = d.
Proof.
  unfold T00_00_00_000Z, T23_59_59Z, T23_59_59_999Z, isoDate, msPerDay.
  repeat split; try lia.
  - apply Z.div_mul; lia.
  - symmetry. apply (Z.div_unique _ _ d 86399999); lia.
Qed.

(** The employee view bounds the fetch at the millisecond on both ends:
    of the updates of the user, the query selects those created from
    [start 00:00:00.000] to [end 23:59:59.999], both included. *)
Lemma user_query_bounds (r : UserDashboard.Render) (actor : User)
  (u : DailyUpdate.t) :
  UserDashboard.r_user r = Some actor ->
  DailyUpdate.employee_email u = email actor ->
  Store.selects (UserDashboard.updatesQuery r) u
  = ((T00_00_00_000Z (start (UserDashboard.r_dateRange r))
      <=? DailyUpdate.created_at u)%Z
     && (DailyUpdate.created_at u
         <=? T23_59_59_999Z (end_ (UserDashboard.r_dateRange r)))%Z).
Proof.
  intros Hr Hown.
  unfold Store.selects, UserDashboard.updatesQuery; simpl.
  rewrite Hr, Hown, String.eqb_refl. now rewrite !andb_true_r.
Qed.

Lemma user_query_boundaries (r : UserDashboard.Render) (actor : User)
  (u : DailyUpdate.t) :
  UserDashboard.r_user r = Some actor ->
  DailyUpdate.employee_email u = email actor ->
  (start (UserDashboard.r_dateRange r) <= end_ (UserDashboard.r_dateRange r))%Z ->
  let q := UserDashboard.updatesQuery r in
  let first := T00_00_00_000Z (start (UserDashboard.r_dateRange r)) in
  let last := T23_59_59_999Z (end_ (UserDashboard.r_dateRange r)) in
  Store.selects q (DailyUpdate.set_created_at first u) = true
  /\ Store.selects q (DailyUpdate.set_created_at last u) = true
  /\ Store.selects q (DailyUpdate.set_created_at (first - 1) u) = false
  /\ Store.selects q (DailyUpdate.set_created_at (last + 1) u) = false.
Proof.
  intros Hr Hown Hrange q first last. subst q.
  rewrite !(user_query_bounds r actor) by assumption. simpl.
  subst first last. unfold T00_00_00_000Z, T23_59_59_999Z, msPerDay.
  repeat split.
  - apply andb_true_intro; split; [apply Z.leb_le|apply Z.leb_le]; lia.
  - apply andb_true_intro; split; [apply Z.leb_le|apply Z.leb_le]; lia.
  - apply andb_false_intro1. apply Z.leb_gt. lia.
  - apply andb_false_intro2. apply Z.leb_gt. lia.
Qed.

(** C3. The manager view writes the upper bound of its fetch as
    [end 23:59:59Z]: an update created at [end 23:59:59.999] is not
    selected by the query of [fetchData] and [fetchDataSilently], whatever
    the team filter and the table, and so is no row of the answer. *)
Theorem manager_query_drops_last_millisecond :
  forall (r : Dashboard.Render) (teamFilter : string) (u : DailyUpdate.t)
         (table : list DailyUpdate.t),
    let late :=
      DailyUpdate.set_created_at
        (T23_59_59_999Z (end_ (Dashboard.r_dateRange r))) u in
    Store.selects (Dashboard.updatesQuery r teamFilter) late = false
    /\ ~ In late (Store.run (Dashboard.updatesQuery r teamFilter) table).
Proof.
  intros r teamFilter u table late.
  assert (Hsel : Store.selects (Dashboard.updatesQuery r teamFilter) late = false).
  { unfold Store.selects, Dashboard.updatesQuery; simpl.
    replace (T23_59_59_999Z (end_ (Dashboard.r_dateRange r))
             <=? T23_59_59Z (end_ (Dashboard.r_dateRange r)))%Z with false.
    - now rewrite andb_false_r.
    - symmetry. apply Z.leb_gt. apply day_bounds. }
  split; [exact Hsel|].
  intros Hin. apply In_run in Hin as [_ Hin]. congruence.
Qed.

(** The same update under both views, for the one-day range of day 0: the
    employee view fetches it, the manager view does not; the update one
    second earlier is fetched by both. *)
Example last_millisecond_in_both_views :
  let admin := Some (mkUser "alice@aditi.test" "Alice" "admin") in
  let u := DailyUpdate.mk "u1" "alice@aditi.test" (Some "t1") 86399999 "to-do"
                          None None None in
  let v := DailyUpdate.set_created_at 86399000 u in
  let ur := UserDashboard.mkRender admin (mkDateRange 0 0) [] "all" None in
  let r := Dashboard.mkRender admin (mkDateRange 0 0) "" Dashboard.Tab_all []
                              None false in
  Store.run (UserDashboard.updatesQuery ur) [u; v] = [u; v]
  /\ Store.run (Dashboard.updatesQuery r "") [u; v] = [v]
  /\ Dashboard.historicalData
       (Dashboard.fetchDataSilently r "" (Store.Served 0 [u; v])
          (Dashboard.mount admin 0))
     = Dashboard.cleanData [v].
Proof. repeat split. Qed.

(** ** The retry loop of the employee view *)

Lemma attemptFetch_failed (q : Store.Query) (maxRetries retryCount : nat)
  (net net' : list Store.Outcome) :
  Store.next net = (Store.Failed, net') ->
  UserDashboard.attemptFetch q maxRetries retryCount net
  = if lt_dec (S retryCount) maxRetries
    then UserDashboard.afterWait (1000 * Z.of_nat (S retryCount))
           (UserDashboard.attemptFetch q maxRetries (S retryCount) net')
    else UserDashboard.mkTrial UserDashboard.Thrown (S retryCount) [] net'.
Proof.
  intros Hnext.
  rewrite UserDashboard.attemptFetch_equation_1, Hnext.
  rewrite UserDashboard.attemptFetch_clause_1_equation_1.
  destruct (lt_dec (S retryCount) maxRetries).
  - now rewrite UserDashboard.attemptFetch_clause_1_clause_3_equation_1.
  - now rewrite UserDashboard.attemptFetch_clause_1_clause_3_equation_2.
Qed.

Lemma attemptFetch_failed_cons (q : Store.Query) (maxRetries retryCount : nat)
  (net : list Store.Outcome) :
  UserDashboard.attemptFetch q maxRetries retryCount (Store.Failed :: net)
  = if lt_dec (S retryCount) maxRetries
    then UserDashboard.afterWait (1000 * Z.of_nat (S retryCount))
           (UserDashboard.attemptFetch q maxRetries (S retryCount) net)
    else UserDashboard.mkTrial UserDashboard.Thrown (S retryCount) [] net.
Proof. now apply attemptFetch_failed. Qed.

Lemma attemptFetch_served (q : Store.Query) (maxRetries retryCount : nat)
  (now : Z) (table : list DailyUpdate.t) (net : list Store.Outcome) :
  UserDashboard.attemptFetch q maxRetries retryCount (Store.Served now table :: net)
  = UserDashboard.mkTrial (UserDashboard.Data now (Store.run q table))
                          retryCount [] net.
Proof.
  rewrite UserDashboard.attemptFetch_equation_1. cbn [Store.next].
  now rewrite UserDashboard.attemptFetch_clause_1_equation_3.
Qed.

Lemma attemptFetch_nodata (q : Store.Query) (maxRetries retryCount : nat)
  (net : list Store.Outcome) :
  UserDashboard.attemptFetch q maxRetries retryCount (Store.NoData :: net)
  = UserDashboard.mkTrial UserDashboard.Null retryCount [] net.
Proof.
  rewrite UserDashboard.attemptFetch_equation_1. cbn [Store.next].
  now rewrite UserDashboard.attemptFetch_clause_1_equation_2.
Qed.

(** The loop waits [1000 * k] ms after its [k]-th failure and gives up
    at the [maxRetries]-th: it never waits [maxRetries] times. *)
Lemma attemptFetch_backoff (q : Store.Query) (maxRetries : nat) :
  forall (budget retryCount : nat) (net : list Store.Outcome),
    maxRetries - retryCount <= budget ->
    let t := UserDashboard.attemptFetch q maxRetries retryCount net in
    UserDashboard.waits t = backoff retryCount (List.length (UserDashboard.waits t))
    /\ List.length (UserDashboard.waits t) <= maxRetries - S retryCount.
Proof.
  induction budget as [|budget IH]; intros retryCount net Hle t; subst t.
  - destruct (Store.next net) as [[| |now table] net'] eqn:Hnext.
    + rewrite (attemptFetch_failed _ _ _ _ _ Hnext).
      destruct (lt_dec (S retryCount) maxRetries); [lia|].
      simpl. split; [reflexivity | lia].
    + destruct net as [|o net'']; [discriminate|].
      injection Hnext as -> ->. rewrite attemptFetch_nodata.
      simpl. split; [reflexivity | lia].
    + destruct net as [|o net'']; [discriminate|].
      injection Hnext as -> ->. rewrite attemptFetch_served.
      simpl. split; [reflexivity | lia].
  - destruct (Store.next net) as [[| |now table] net'] eqn:Hnext.
    + rewrite (attemptFetch_failed _ _ _ _ _ Hnext).
      destruct (lt_dec (S retryCount) maxRetries) as [Hlt|Hge].
      * destruct (IH (S retryCount) net') as [Hw Hlen]; [lia|].
        unfold UserDashboard.afterWait; cbn [UserDashboard.waits List.length].
        split; [|lia].
        unfold backoff in *. cbn [seq map]. now rewrite <- Hw.
      * simpl. split; [reflexivity | lia].
    + destruct net as [|o net'']; [discriminate|].
      injection Hnext as -> ->. rewrite attemptFetch_nodata.
      simpl. split; [reflexivity | lia].
    + destruct net as [|o net'']; [discriminate|].
      injection Hnext as -> ->. rewrite attemptFetch_served.
      simpl. split; [reflexivity | lia].
Qed.

Lemma allFail_next (k : nat) (net : list Store.Outcome) :
  allFail (S k) net ->
  exists net', Store.next net = (Store.Failed, net') /\ allFail k net'.
Proof.
  unfold allFail. destruct net as [|o net]; simpl; intros Hall.
  - exists []. split; [reflexivity|]. destruct k; constructor.
  - inversion Hall as [|? ? Ho Hrest]; subst. now exists net.
Qed.

(** When every attempt of the budget fails the loop throws, after
    [maxRetries] attempts and the full series of delays. *)
Lemma attemptFetch_exhausted (q : Store.Query) (maxRetries : nat) :
  forall (left_ retryCount : nat) (net : list Store.Outcome),
    S left_ = maxRetries - retryCount ->
    allFail (S left_) net ->
    let t := UserDashboard.attemptFetch q maxRetries retryCount net in
    UserDashboard.result t = UserDashboard.Thrown
    /\ UserDashboard.retryCount t = maxRetries
    /\ UserDashboard.waits t = backoff retryCount left_.
Proof.
  induction left_ as [|left_ IH]; intros retryCount net Hleft Hall t; subst t;
    destruct (allFail_next _ _ Hall) as (net' & Hnext & Hall');
    rewrite (attemptFetch_failed _ _ _ _ _ Hnext);
    destruct (lt_dec (S retryCount) maxRetries) as [Hlt|Hge]; try lia.
  - simpl. repeat split. lia.
  - destruct (IH (S retryCount) net') as (Hres & Hcount & Hw); [lia|assumption|].
    unfold UserDashboard.afterWait; simpl.
    repeat split; try assumption.
    unfold backoff in *. cbn [seq map]. now rewrite Hw.
Qed.

(** ** The fetch of the employee view *)

(** The fetch that settles with data stores it, shows no toast and leaves
    the rows on display to the filter pass that follows. *)
Lemma fetchUserUpdates_data (production : bool) (r : UserDashboard.Render)
  (net : list Store.Outcome) (st : UserDashboard.State)
  (now : Z) (rows : list DailyUpdate.t) :
  let t := UserDashboard.attemptFetch (UserDashboard.updatesQuery r)
             (UserDashboard.maxRetriesOf production) 0 net in
  let st' := fst (UserDashboard.fetchUserUpdates production r net st) in
  UserDashboard.result t = UserDashboard.Data now rows ->
  UserDashboard.userUpdates st' = rows
  /\ UserDashboard.toasts st' = UserDashboard.toasts st
  /\ UserDashboard.isLoading st' = false
  /\ UserDashboard.dataLoaded st' = true
  /\ UserDashboard.lastFetched st' = Some now
  /\ UserDashboard.filteredUpdates st' = UserDashboard.filteredUpdates st
  /\ UserDashboard.activeFilter st' = UserDashboard.activeFilter st
  /\ UserDashboard.slept st' = (UserDashboard.slept st ++ UserDashboard.waits t)%list.
Proof.
  intros t st' Hres. subst st'.
  unfold UserDashboard.fetchUserUpdates.
  cbn [UserDashboard.setTimeout].
  fold (UserDashboard.maxRetriesOf production). fold t. rewrite Hres.
  destruct (UserDashboard.r_loadingTimeout r); simpl; repeat split.
Qed.

(** The fetch that throws shows one error toast and empties the fetched
    set, the rows on display and the stats. *)
Lemma fetchUserUpdates_thrown (production : bool) (r : UserDashboard.Render)
  (net : list Store.Outcome) (st : UserDashboard.State) :
  let t := UserDashboard.attemptFetch (UserDashboard.updatesQuery r)
             (UserDashboard.maxRetriesOf production) 0 net in
  let st' := fst (UserDashboard.fetchUserUpdates production r net st) in
  UserDashboard.result t = UserDashboard.Thrown ->
  UserDashboard.userUpdates st' = []
  /\ UserDashboard.filteredUpdates st' = []
  /\ UserDashboard.stats st' = UserDashboard.mkStats 0 0 0 0
  /\ UserDashboard.toasts st'
     = (UserDashboard.toasts st ++ [ToastError "Failed to load your updates"])%list
  /\ UserDashboard.isLoading st' = false
  /\ UserDashboard.slept st' = (UserDashboard.slept st ++ UserDashboard.waits t)%list.
Proof.
  intros t st' Hres. subst st'.
  unfold UserDashboard.fetchUserUpdates.
  cbn [UserDashboard.setTimeout].
  fold (UserDashboard.maxRetriesOf production). fold t. rewrite Hres.
  destruct (UserDashboard.r_loadingTimeout r); simpl; repeat split.
Qed.

(** The timers a first fetch leaves behind.  The handler of a render that
    has no timer on record does not cancel the watchdog it starts: the
    [loadingTimeout] read at lines 158 and 227 is the constant of that
    render, not the id passed to [setLoadingTimeout] at line 161.  After
    a served fetch the watchdog and the deferred filter pass are pending. *)
Lemma fetchUserUpdates_pending_timers (production : bool)
  (r : UserDashboard.Render) (net : list Store.Outcome)
  (st : UserDashboard.State) (now : Z) (rows : list DailyUpdate.t) :
  let t := UserDashboard.attemptFetch (UserDashboard.updatesQuery r)
             (UserDashboard.maxRetriesOf production) 0 net in
  let st' := fst (UserDashboard.fetchUserUpdates production r net st) in
  UserDashboard.r_loadingTimeout r = None ->
  UserDashboard.result t = UserDashboard.Data now rows ->
  UserDashboard.timers st'
  = (UserDashboard.timers st
     ++ [UserDashboard.mkTimer (UserDashboard.nextTimerId st)
           (if production then 20000 else 15000) UserDashboard.LoadingTimedOut]
     ++ [UserDashboard.mkTimer (S (UserDashboard.nextTimerId st)) 100
           (UserDashboard.DeferredApplyFilters r)])%list
  /\ UserDashboard.loadingTimeout st' = Some (UserDashboard.nextTimerId st).
Proof.
  intros t st' Hnone Hres. subst st'.
  unfold UserDashboard.fetchUserUpdates.
  cbn [UserDashboard.setTimeout].
  fold t. rewrite Hres, Hnone.
  split; [|reflexivity].
  cbn. now rewrite <- app_assoc.
Qed.

(** The deferred filter pass displays the set and the card filter of the
    render that scheduled it. *)
Lemma deferred_applyFilters_rows (r : UserDashboard.Render)
  (st : UserDashboard.State) :
  UserDashboard.filteredUpdates
    (UserDashboard.fire (UserDashboard.DeferredApplyFilters r) st)
  = UserDashboard.switchActiveFilter (UserDashboard.r_activeFilter r)
      (UserDashboard.r_userUpdates r).
Proof.
  unfold UserDashboard.fire, UserDashboard.applyFilters.
  destruct (UserDashboard.r_userUpdates r) as [|u l]; [|reflexivity].
  unfold UserDashboard.switchActiveFilter.
  repeat match goal with
         | |- context [if ?b then _ else _] => destruct b
         end; reflexivity.
Qed.

Lemma errorsShown_app (ts us : list Toast) :
  errorsShown (ts ++ us) = (errorsShown ts + errorsShown us)%nat.
Proof. unfold errorsShown. now rewrite filter_app, length_app. Qed.

(** The rows on display after the filter pass of a render. *)
Lemma applyFiltersEffect_filteredUpdates (st : UserDashboard.State) :
  UserDashboard.filteredUpdates (UserDashboard.applyFiltersEffect st)
  = UserDashboard.switchActiveFilter (UserDashboard.activeFilter st)
      (UserDashboard.userUpdates st).
Proof.
  unfold UserDashboard.applyFiltersEffect, UserDashboard.applyFilters; simpl.
  destruct (UserDashboard.userUpdates st) as [|u l]; simpl; [|reflexivity].
  unfold UserDashboard.switchActiveFilter.
  repeat match goal with
         | |- context [if ?b then _ else _] => destruct b
         end; reflexivity.
Qed.

(** The retries, up to the moment the fetch settles.  The fetch of the
    employee view retries a failed attempt after a delay of 1000 ms times
    the count of failures so far, and makes at most 3 attempts in
    production (1 otherwise).  When two attempts fail and the third is
    served, with the budget of 3, the state the fetch leaves when it
    settles holds the answer to the third attempt as the fetched set and
    no new toast, the delays awaited are 1000 ms and 2000 ms, and the
    filter pass of the render that follows displays the answer under the
    active card filter (all of it under "all").  The timers the call
    leaves pending are not fired here. *)
Theorem retry_with_backoff :
  forall (production : bool) (r : UserDashboard.Render)
         (net : list Store.Outcome) (st : UserDashboard.State)
         (now : Z) (table : list DailyUpdate.t),
    let t := UserDashboard.attemptFetch (UserDashboard.updatesQuery r)
               (UserDashboard.maxRetriesOf production) 0 net in
    let run := UserDashboard.fetchUserUpdates true r
                 (Store.Failed :: Store.Failed :: Store.Served now table :: net) st in
    let answer := Store.run (UserDashboard.updatesQuery r) table in
    (UserDashboard.waits t
     = map (fun attempt => (1000 * Z.of_nat attempt)%Z)
           (seq 1 (List.length (UserDashboard.waits t)))
     /\ (List.length (UserDashboard.waits t) < UserDashboard.maxRetriesOf production)%nat
     /\ UserDashboard.slept
          (fst (UserDashboard.fetchUserUpdates production r net st))
        = (UserDashboard.slept st ++ UserDashboard.waits t)%list)
    /\ UserDashboard.userUpdates (fst run) = answer
    /\ UserDashboard.toasts (fst run) = UserDashboard.toasts st
    /\ UserDashboard.slept (fst run) = (UserDashboard.slept st ++ [1000; 2000]%Z)%list
    /\ UserDashboard.isLoading (fst run) = false
    /\ snd run = net
    /\ UserDashboard.filteredUpdates (UserDashboard.applyFiltersEffect (fst run))
       = UserDashboard.switchActiveFilter (UserDashboard.activeFilter st) answer
    /\ UserDashboard.switchActiveFilter "all" answer = answer.
Proof.
  intros production r net st now table t run answer.
  split.
  { destruct (attemptFetch_backoff (UserDashboard.updatesQuery r)
                (UserDashboard.maxRetriesOf production) (UserDashboard.maxRetriesOf production) 0 net)
      as [Hw Hlen]; [lia|].
    fold t in Hw, Hlen. split; [exact Hw|].
    split; [destruct production; unfold UserDashboard.maxRetriesOf in *; lia|].
    unfold UserDashboard.fetchUserUpdates.
    cbn [UserDashboard.setTimeout].
    fold (UserDashboard.maxRetriesOf production). fold t.
    destruct (UserDashboard.r_loadingTimeout r), (UserDashboard.result t);
      reflexivity. }
  assert (Htrial :
            UserDashboard.attemptFetch (UserDashboard.updatesQuery r)
              (UserDashboard.maxRetriesOf true) 0
              (Store.Failed :: Store.Failed :: Store.Served now table :: net)
            = UserDashboard.mkTrial (UserDashboard.Data now answer) 2
                                    [1000; 2000]%Z net).
  { rewrite attemptFetch_failed_cons.
    destruct (lt_dec 1 (UserDashboard.maxRetriesOf true)) as [_|Hge];
      [|exfalso; apply Hge; unfold UserDashboard.maxRetriesOf; lia].
    rewrite attemptFetch_failed_cons.
    destruct (lt_dec 2 (UserDashboard.maxRetriesOf true)) as [_|Hge];
      [|exfalso; apply Hge; unfold UserDashboard.maxRetriesOf; lia].
    rewrite attemptFetch_served. reflexivity. }
  destruct (fetchUserUpdates_data true r
              (Store.Failed :: Store.Failed :: Store.Served now table :: net) st
              now answer)
    as (Hupd & Htoasts & Hload & _ & _ & _ & Hfilter & Hslept);
    [rewrite Htrial; reflexivity|].
  fold run in Hupd, Htoasts, Hload, Hfilter, Hslept.
  rewrite Htrial in Hslept.
  assert (Hsnd : snd run = net).
  { subst run. unfold UserDashboard.fetchUserUpdates.
    cbn [UserDashboard.setTimeout].
    fold (UserDashboard.maxRetriesOf true). rewrite Htrial. reflexivity. }
  split; [exact Hupd|]. split; [exact Htoasts|]. split; [exact Hslept|].
  split; [exact Hload|]. split; [exact Hsnd|]. split; [|reflexivity].
  rewrite applyFiltersEffect_filteredUpdates, Hfilter, Hupd. reflexivity.
Qed.

(** C7. The scenario of two failures and a served third attempt, from the
    first fetch of a mounted employee view to the last timer the call
    leaves behind.  The retries behave as specified: the delays awaited
    are 1000 ms and 2000 ms, and when the fetch settles the fetched set
    and, after the filter pass of the next render, the rows on display
    are the answer, with no toast shown.  But the call leaves two timers
    pending, and neither is cancelled.  The filter pass scheduled 100 ms
    after the answer belongs to the render that started the fetch, whose
    fetched set is empty: when it fires it empties the rows on display,
    the fetched set being still the answer.  The watchdog of 20 s is
    cleared only through the timer id the starting render had on record,
    which is none: when it fires it shows the error toast 'Request timed
    out. Please try refreshing.'.  So the final displayed set is empty,
    not the successful response, and an error is shown. *)
Theorem retried_fetch_is_undone_by_its_timers :
  forall (actor : User) (today now : Z) (table : list DailyUpdate.t)
         (net : list Store.Outcome),
    let st := UserDashboard.mount (Some actor) today in
    let r := UserDashboard.render st in
    let run := UserDashboard.fetchUserUpdates true r
                 (Store.Failed :: Store.Failed :: Store.Served now table :: net) st in
    let answer := Store.run (UserDashboard.updatesQuery r) table in
    let settled := UserDashboard.applyFiltersEffect (fst run) in
    let after100ms :=
      UserDashboard.fire (UserDashboard.DeferredApplyFilters r) settled in
    let after20s := UserDashboard.fire UserDashboard.LoadingTimedOut after100ms in
    (UserDashboard.slept settled = [1000; 2000]%Z
     /\ UserDashboard.userUpdates settled = answer
     /\ UserDashboard.filteredUpdates settled = answer
     /\ UserDashboard.toasts settled = []
     /\ snd run = net)
    /\ UserDashboard.timers settled
       = [UserDashboard.mkTimer 1 20000 UserDashboard.LoadingTimedOut;
          UserDashboard.mkTimer 2 100 (UserDashboard.DeferredApplyFilters r)]
    /\ (UserDashboard.userUpdates after100ms = answer
        /\ UserDashboard.filteredUpdates after100ms = []
        /\ UserDashboard.toasts after100ms = [])
    /\ (UserDashboard.userUpdates after20s = answer
        /\ UserDashboard.filteredUpdates after20s = []
        /\ UserDashboard.toasts after20s
           = [ToastError "Request timed out. Please try refreshing."]).
Proof.
  intros actor today now table net st r run answer settled after100ms after20s.
  assert (Htrial :
            UserDashboard.attemptFetch (UserDashboard.updatesQuery r)
              (UserDashboard.maxRetriesOf true) 0
              (Store.Failed :: Store.Failed :: Store.Served now table :: net)
            = UserDashboard.mkTrial (UserDashboard.Data now answer) 2
                                    [1000; 2000]%Z net).
  { rewrite attemptFetch_failed_cons.
    destruct (lt_dec 1 (UserDashboard.maxRetriesOf true)) as [_|Hge];
      [|exfalso; apply Hge; unfold UserDashboard.maxRetriesOf; lia].
    rewrite attemptFetch_failed_cons.
    destruct (lt_dec 2 (UserDashboard.maxRetriesOf true)) as [_|Hge];
      [|exfalso; apply Hge; unfold UserDashboard.maxRetriesOf; lia].
    rewrite attemptFetch_served. reflexivity. }
  clearbody answer.
  assert (Hrun :
            run
            = (UserDashboard.setIsLoading false
                 (snd (UserDashboard.setTimeout
                         (UserDashboard.DeferredApplyFilters r) 100
                         (UserDashboard.setLastFetched (Some now)
                            (UserDashboard.setDataLoaded true
                               (UserDashboard.setUserUpdates answer
                                  (UserDashboard.sleep [1000; 2000]%Z
                                     (UserDashboard.setLoadingTimeout (Some 1%nat)
                                        (snd (UserDashboard.setTimeout
                                                UserDashboard.LoadingTimedOut 20000
                                                (UserDashboard.setIsLoading true st)))))))))),
               net)).
  { subst run. unfold UserDashboard.fetchUserUpdates.
    cbn [UserDashboard.setTimeout].
    fold (UserDashboard.maxRetriesOf true). rewrite Htrial. reflexivity. }
  subst after20s after100ms settled. rewrite Hrun. clear Hrun Htrial run.
  destruct answer as [|u answer]; repeat split; reflexivity.
Qed.

(** The scenario on one stored update: the row is on display when the
    fetch settles, and gone, with one error shown, once the two timers
    have fired. *)
Example retried_fetch_at_mount :
  let alice := mkUser "alice@aditi.test" "Alice" "user" in
  let u := DailyUpdate.mk "u1" "alice@aditi.test" (Some "t1") 5 "to-do"
                          None None None in
  let st := UserDashboard.mount (Some alice) 7 in
  let r := UserDashboard.render st in
  let run := UserDashboard.fetchUserUpdates true r
               [Store.Failed; Store.Failed; Store.Served 9 [u]] st in
  let settled := UserDashboard.applyFiltersEffect (fst run) in
  let after100ms :=
    UserDashboard.fire (UserDashboard.DeferredApplyFilters r) settled in
  let after20s := UserDashboard.fire UserDashboard.LoadingTimedOut after100ms in
  UserDashboard.filteredUpdates settled = [u]
  /\ UserDashboard.toasts settled = []
  /\ UserDashboard.filteredUpdates after20s = []
  /\ UserDashboard.filteredUpdates after20s <> [u]
  /\ errorsShown (UserDashboard.toasts after20s) = 1%nat.
Proof. vm_compute. repeat split. discriminate. Qed.

(** ** The fetch of the manager view *)

Lemma nextTeams_updates (net net' : Dashboard.Net) (o : Dashboard.TeamsOutcome) :
  Dashboard.nextTeams net = (o, net') ->
  Dashboard.updatesNet net' = Dashboard.updatesNet net
  /\ (List.length (Dashboard.teamsNet net') <= List.length (Dashboard.teamsNet net))%nat
  /\ (o <> Dashboard.TeamsFailed ->
      S (List.length (Dashboard.teamsNet net')) = List.length (Dashboard.teamsNet net)).
Proof.
  unfold Dashboard.nextTeams. destruct net as [[|o' ts] us]; simpl.
  - intros [= <- <-]. simpl. repeat split; [lia | congruence].
  - intros [= <- <-]. simpl. repeat split; lia.
Qed.

Lemma nextUpdates_allFail (net : Dashboard.Net) :
  updatesAllFail net ->
  fst (Dashboard.nextUpdates net) = Store.Failed
  /\ updatesAllFail (snd (Dashboard.nextUpdates net))
  /\ Dashboard.teamsNet (snd (Dashboard.nextUpdates net)) = Dashboard.teamsNet net.
Proof.
  unfold updatesAllFail, Dashboard.nextUpdates.
  destruct net as [ts [|o us]]; simpl; intros Hall.
  - repeat split. constructor.
  - inversion Hall; subst. repeat split. assumption.
Qed.

Lemma dataKept_refl (st : Dashboard.State) : dataKept st st.
Proof. repeat split. exists []. now rewrite app_nil_r. Qed.

Lemma dataKept_trans (st1 st2 st3 : Dashboard.State) :
  dataKept st1 st2 -> dataKept st2 st3 -> dataKept st1 st3.
Proof.
  intros (H1 & H2 & H3 & s1 & H4) (K1 & K2 & K3 & s2 & K4).
  repeat split; try congruence.
  exists (s1 ++ s2)%list. now rewrite K4, H4, app_assoc.
Qed.

(** The tail of [fetchData] once the teams step is over, when the update
    query fails. *)
Lemma fetchData_after_teams (r : Dashboard.Render) (st : Dashboard.State) :
  let st1 := match Dashboard.r_loadingTimeout r with
             | Some t => Dashboard.clearTimeout t st
             | None => st
             end in
  let st2 := Dashboard.setLoadingTimeout
               (Some (fst (Dashboard.setTimeout Dashboard.DataTimedOut 20000 st1)))
               (snd (Dashboard.setTimeout Dashboard.DataTimedOut 20000 st1)) in
  let st3 := Dashboard.setLoadingFailed true (Dashboard.toast dataFailedToast st2) in
  let st4 := Dashboard.setIsLoading false st3 in
  let st5 := match Dashboard.r_loadingTimeout r with
             | Some t => Dashboard.setLoadingTimeout None (Dashboard.clearTimeout t st4)
             | None => st4
             end in
  dataKept st st5
  /\ Dashboard.loadingFailed st5 = true
  /\ Dashboard.isLoading st5 = false
  /\ Dashboard.toasts st5 = (Dashboard.toasts st ++ [dataFailedToast])%list.
Proof.
  destruct (Dashboard.r_loadingTimeout r);
    (split; [repeat split; try reflexivity; exists [dataFailedToast]; reflexivity|]);
    repeat split; reflexivity.
Qed.

(** A run in which every update query fails keeps the fetched set, the
    rows on display and the stats, whatever the team store answers. *)
Lemma fetch_frame (fuel : nat) :
  (forall r teamFilter net st st' net',
      updatesAllFail net ->
      Dashboard.fetchData fuel r teamFilter net st = Some (st', net') ->
      dataKept st st' /\ updatesAllFail net'
      /\ (Dashboard.r_user r <> None ->
          Dashboard.loadingFailed st' = true
          /\ Dashboard.isLoading st' = false
          /\ exists shown,
              Dashboard.toasts st'
              = (Dashboard.toasts st ++ shown ++ [dataFailedToast])%list))
  /\ (forall r net st st' net',
         updatesAllFail net ->
         Dashboard.fetchTeamsBasedOnRole fuel r net st = Some (st', net') ->
         dataKept st st' /\ updatesAllFail net').
Proof.
  induction fuel as [|fuel [IHdata IHteams]]; [split; discriminate|].
  split.
  - intros r teamFilter net st st' net' Hall Hrun.
    cbn [Dashboard.fetchData] in Hrun.
    destruct (Dashboard.r_user r) as [actor|] eqn:Huser.
    2:{ injection Hrun as <- <-.
        split; [apply dataKept_refl|]. split; [assumption|congruence]. }
    destruct (Dashboard.fetchTeamsBasedOnRole fuel r net _)
      as [[st1 net1]|] eqn:Hteams; [|discriminate].
    apply IHteams in Hteams as [Hkept1 Hall1]; [|assumption].
    destruct (nextUpdates_allFail _ Hall1) as (Hfail & Hall2 & _).
    destruct (Dashboard.nextUpdates net1) as [outcome net2].
    simpl in Hfail, Hall2. subst outcome.
    cbn [Dashboard.setTimeout] in Hrun.
    injection Hrun as <- <-.
    destruct (fetchData_after_teams r st1) as (Hkept2 & Hfailed & Hload & Htoasts).
    cbn [Dashboard.setTimeout fst snd] in Hkept2, Hfailed, Hload, Htoasts.
    fold dataFailedToast.
    split; [|split; [assumption|]].
    + eapply dataKept_trans; [|exact Hkept2].
      destruct Hkept1 as (H1 & H2 & H3 & shown & H4).
      repeat split; try assumption. exists shown. exact H4.
    + intros _. split; [exact Hfailed|]. split; [exact Hload|].
      destruct Hkept1 as (_ & _ & _ & shown & H4).
      exists shown. rewrite Htoasts, H4, app_assoc. reflexivity.
  - intros r net st st' net' Hall Hrun.
    cbn [Dashboard.fetchTeamsBasedOnRole] in Hrun.
    destruct (Dashboard.r_user r) as [actor|] eqn:Huser.
    2:{ injection Hrun as <- <-. split; [apply dataKept_refl|assumption]. }
    assert (Hserved : forall teamFilter (ts : list Team.t) sel net1 st1,
               Dashboard.updatesNet net1 = Dashboard.updatesNet net ->
               st1 = Dashboard.setTeams ts (Dashboard.setIsLoading true st)
               \/ st1 = Dashboard.setSelectedTeam sel
                          (Dashboard.setTeams ts (Dashboard.setIsLoading true st)) ->
               Dashboard.fetchData fuel r teamFilter net1 st1 = Some (st', net') ->
               dataKept st st' /\ updatesAllFail net').
    { intros teamFilter ts sel net1 st1 Hupd Hst1 Hdata.
      apply IHdata in Hdata as (Hkept & Hall' & _);
        [|unfold updatesAllFail; now rewrite Hupd].
      split; [|assumption].
      eapply dataKept_trans; [|exact Hkept].
      destruct Hst1 as [-> | ->]; repeat split; exists [];
        rewrite app_nil_r; reflexivity. }
    assert (Hfailed : dataKept st (Dashboard.teamsFailed (Dashboard.setIsLoading true st))).
    { repeat split. exists [ToastError "Failed to load teams"]. reflexivity. }
    destruct (role actor =? "admin").
    + destruct (Dashboard.nextTeams net) as [[|data] net1] eqn:Hnext;
        apply nextTeams_updates in Hnext as (Hupd & _).
      * injection Hrun as <- <-. split; [exact Hfailed|].
        unfold updatesAllFail. now rewrite Hupd.
      * eapply (Hserved _ _ ""); [exact Hupd | left; reflexivity | exact Hrun].
    + destruct (role actor =? "manager").
      * destruct (Dashboard.nextTeams net) as [[|data] net1] eqn:Hnext;
          apply nextTeams_updates in Hnext as (Hupd & _).
        -- injection Hrun as <- <-. split; [exact Hfailed|].
           unfold updatesAllFail. now rewrite Hupd.
        -- destruct data as [[|team [|team' ts]]|];
             try (eapply (Hserved _ _ ""); [exact Hupd | left; reflexivity | exact Hrun]).
           eapply Hserved; [exact Hupd | right; reflexivity | exact Hrun].
      * injection Hrun as <- <-.
        split; [|assumption]. repeat split. exists [].
        rewrite app_nil_r. reflexivity.
Qed.

(** With finitely many answers of the team store on record (requests
    beyond them fail), the mutual recursion of [fetchData] and
    [fetchTeamsBasedOnRole] returns: each level consumes one answer. *)
Lemma fetch_returns (fuel : nat) :
  (forall r teamFilter net st,
      (2 * List.length (Dashboard.teamsNet net) + 2 <= fuel)%nat ->
      exists run, Dashboard.fetchData fuel r teamFilter net st = Some run)
  /\ (forall r net st,
         (2 * List.length (Dashboard.teamsNet net) + 1 <= fuel)%nat ->
         exists run, Dashboard.fetchTeamsBasedOnRole fuel r net st = Some run).
Proof.
  induction fuel as [|fuel [IHdata IHteams]]; [split; intros; lia|].
  split.
  - intros r teamFilter net st Hfuel.
    cbn [Dashboard.fetchData].
    destruct (Dashboard.r_user r); [|eexists; reflexivity].
    destruct (IHteams r net
                (Dashboard.setLoadingFailed false (Dashboard.setIsLoading true st)))
      as [[st1 net1] ->]; [lia|].
    destruct (Dashboard.nextUpdates net1) as [outcome net2].
    cbn [Dashboard.setTimeout]. eexists; reflexivity.
  - intros r net st Hfuel.
    cbn [Dashboard.fetchTeamsBasedOnRole].
    destruct (Dashboard.r_user r) as [actor|]; [|eexists; reflexivity].
    assert (Hserved : forall data net1,
               Dashboard.nextTeams net = (Dashboard.TeamsServed data, net1) ->
               forall teamFilter st1,
               exists run, Dashboard.fetchData fuel r teamFilter net1 st1 = Some run).
    { intros data net1 Hnext teamFilter st1.
      apply nextTeams_updates in Hnext as (_ & _ & Hlen).
      apply IHdata. specialize (Hlen ltac:(discriminate)). lia. }
    destruct (role actor =? "admin").
    + destruct (Dashboard.nextTeams net) as [[|data] net1] eqn:Hnext;
        [eexists; reflexivity|].
      eapply Hserved; reflexivity.
    + destruct (role actor =? "manager"); [|eexists; reflexivity].
      destruct (Dashboard.nextTeams net) as [[|data] net1] eqn:Hnext;
        [eexists; reflexivity|].
      destruct data as [[|team [|team' ts]]|]; eapply Hserved; reflexivity.
Qed.

(** As long as the team store answers an admin, [fetchData] re-enters
    itself before it reaches its update query: with [n] answers on record
    a run is more than [2 * n + 1] calls deep. *)
Lemma admin_fetch_reenters (r : Dashboard.Render) (actor : User)
  (data : option (list Team.t)) :
  Dashboard.r_user r = Some actor ->
  role actor = "admin" ->
  forall (n fuel : nat) (teamFilter : string) (rest : list Dashboard.TeamsOutcome)
         (updates : list Store.Outcome) (st : Dashboard.State),
    (fuel <= 2 * n + 1)%nat ->
    Dashboard.fetchData fuel r teamFilter
      (Dashboard.mkNet (repeat (Dashboard.TeamsServed data) n ++ rest) updates) st
    = None.
Proof.
  intros Huser Hrole.
  induction n as [|n IH]; intros fuel teamFilter rest updates st Hfuel.
  - destruct fuel as [|[|fuel]]; [reflexivity| |lia].
    cbn [Dashboard.fetchData Dashboard.fetchTeamsBasedOnRole].
    now rewrite Huser.
  - destruct fuel as [|[|fuel]]; [reflexivity| |].
    + cbn [Dashboard.fetchData Dashboard.fetchTeamsBasedOnRole].
      now rewrite Huser.
    + cbn [Dashboard.fetchData Dashboard.fetchTeamsBasedOnRole].
      rewrite Huser, Hrole. cbn [String.eqb Ascii.eqb Bool.eqb].
      cbn [repeat app Dashboard.nextTeams Dashboard.teamsNet Dashboard.updatesNet].
      rewrite IH by lia. reflexivity.
Qed.

(** C1, counterexample. The employee view shows one update; a fetch in
    production meets three failures.  The fetched set and the rows on
    display are emptied, with one error toast. *)
Lemma failed_user_fetch_empties_the_display :
  let alice := Some (mkUser "alice@aditi.test" "Alice" "user") in
  let u := DailyUpdate.mk "u1" "alice@aditi.test" (Some "t1") 0 "to-do"
                          None None None in
  let st := UserDashboard.applyFiltersEffect
              (UserDashboard.setUserUpdates [u] (UserDashboard.mount alice 0)) in
  let st' := fst (UserDashboard.fetchUserUpdates true (UserDashboard.render st)
                    [Store.Failed; Store.Failed; Store.Failed] st) in
  UserDashboard.userUpdates st = [u]
  /\ UserDashboard.filteredUpdates st = [u]
  /\ UserDashboard.userUpdates st' = []
  /\ UserDashboard.filteredUpdates st' = []
  /\ UserDashboard.filteredUpdates st' <> UserDashboard.filteredUpdates st
  /\ UserDashboard.toasts st' = [ToastError "Failed to load your updates"].
Proof. vm_compute. repeat split. discriminate. Qed.

(** C1, amended. A fetch that fails on every attempt of its budget shows
    its failure once in the employee view, by one error toast, and there
    it empties the fetched set, the rows on display and the stats.  In the
    manager view a fetch whose update queries all fail returns, keeps the
    fetched set, the rows on display and the stats as they were, and shows
    the failure: the loading-failed screen and the toast of the failed
    query. *)
Theorem failed_fetch :
  forall (production : bool) (ur : UserDashboard.Render)
         (unet : list Store.Outcome) (ust : UserDashboard.State)
         (r : Dashboard.Render) (teamFilter : string) (net : Dashboard.Net)
         (st : Dashboard.State),
    allFail (UserDashboard.maxRetriesOf production) unet ->
    updatesAllFail net ->
    let ust' := fst (UserDashboard.fetchUserUpdates production ur unet ust) in
    (UserDashboard.toasts ust'
     = (UserDashboard.toasts ust ++ [ToastError "Failed to load your updates"])%list
     /\ errorsShown (UserDashboard.toasts ust')
        = S (errorsShown (UserDashboard.toasts ust))
     /\ UserDashboard.userUpdates ust' = []
     /\ UserDashboard.filteredUpdates ust' = []
     /\ UserDashboard.stats ust' = UserDashboard.mkStats 0 0 0 0
     /\ UserDashboard.isLoading ust' = false)
    /\ exists st' net',
        Dashboard.fetchData (2 * List.length (Dashboard.teamsNet net) + 2)
                            r teamFilter net st
        = Some (st', net')
        /\ Dashboard.historicalData st' = Dashboard.historicalData st
        /\ Dashboard.filteredData st' = Dashboard.filteredData st
        /\ Dashboard.stats st' = Dashboard.stats st
        /\ (Dashboard.r_user r <> None ->
            Dashboard.loadingFailed st' = true
            /\ Dashboard.isLoading st' = false
            /\ exists shown,
                Dashboard.toasts st'
                = (Dashboard.toasts st ++ shown ++ [dataFailedToast])%list).
Proof.
  intros production ur unet ust r teamFilter net st Hufail Hfail ust'.
  split.
  - assert (Hbudget : exists left_, S left_ = (UserDashboard.maxRetriesOf production - 0)%nat)
      by (destruct production; eexists; reflexivity).
    destruct Hbudget as [left_ Hleft].
    destruct (attemptFetch_exhausted (UserDashboard.updatesQuery ur)
                (UserDashboard.maxRetriesOf production) left_ 0 unet Hleft)
      as (Hres & _ & _); [rewrite Hleft, Nat.sub_0_r; exact Hufail|].
    destruct (fetchUserUpdates_thrown production ur unet ust Hres)
      as (Hupd & Hrows & Hstats & Htoasts & Hload & _).
    fold ust' in Hupd, Hrows, Hstats, Htoasts, Hload.
    repeat split; try assumption.
    rewrite Htoasts, errorsShown_app. unfold errorsShown at 2. simpl. lia.
  - destruct (proj1 (fetch_returns _) r teamFilter net st (le_n _))
      as [[st' net'] Hrun].
    exists st', net'. split; [exact Hrun|].
    apply (proj1 (fetch_frame _)) in Hrun as ((H1 & H2 & H3 & _) & _ & Hshown);
      [|exact Hfail].
    repeat split; try assumption; now apply Hshown.
Qed.

(** Both views with one update on display and a store that fails: the
    employee view loses the row, the manager view keeps it. *)
Lemma failed_fetch_witness :
  let alice := Some (mkUser "alice@aditi.test" "Alice" "manager") in
  let u := DailyUpdate.mk "u1" "alice@aditi.test" (Some "t1") 0 "to-do"
                          None None None in
  let ust := UserDashboard.applyFiltersEffect
               (UserDashboard.setUserUpdates [u] (UserDashboard.mount alice 0)) in
  let st := Dashboard.applyFiltersEffect 0
              (Dashboard.setHistoricalData [u] (Dashboard.mount alice 0)) in
  let unet := [Store.Failed; Store.Failed; Store.Failed] in
  let net := Dashboard.mkNet [Dashboard.TeamsFailed] [Store.Failed] in
  allFail (UserDashboard.maxRetriesOf true) unet
  /\ updatesAllFail net
  /\ UserDashboard.filteredUpdates ust = [u]
  /\ UserDashboard.filteredUpdates
       (fst (UserDashboard.fetchUserUpdates true (UserDashboard.render ust) unet ust))
     = []
  /\ Dashboard.filteredData st = [u]
  /\ exists st' net',
      Dashboard.fetchData 4 (Dashboard.render st) "" net st = Some (st', net')
      /\ Dashboard.filteredData st' = [u].
Proof.
  intros alice u ust st unet net.
  assert (Hufail : allFail (UserDashboard.maxRetriesOf true) unet)
    by (repeat constructor).
  assert (Hfail : updatesAllFail net) by (repeat constructor).
  destruct (failed_fetch true (UserDashboard.render ust) unet ust
              (Dashboard.render st) "" net st Hufail Hfail)
    as ((_ & _ & _ & Hrows & _) & st' & net' & Hrun & _ & Hkept & _).
  split; [exact Hufail|]. split; [exact Hfail|].
  split; [reflexivity|]. split; [exact Hrows|]. split; [reflexivity|].
  exists st', net'. split; [exact Hrun|]. rewrite Hkept. reflexivity.
Defined.

(** ** The periodic silent refresh *)

Lemma onInterval_spec (visible : bool) (now lastRefreshTime : Z) :
  Dashboard.onInterval visible now lastRefreshTime
  = if visible && (lastRefreshTime + Dashboard.refreshInterval <=? now)%Z
    then (true, now)
    else (false, lastRefreshTime).
Proof.
  unfold Dashboard.onInterval, TabSwitchUtil.isReturningFromTabSwitch.
  destruct visible; simpl; [|reflexivity].
  destruct (Z.leb_spec Dashboard.refreshInterval (now - lastRefreshTime));
    destruct (Z.leb_spec (lastRefreshTime + Dashboard.refreshInterval) now);
    try reflexivity; lia.
Qed.

Lemma refreshTimes_spaced (ticks : list (Z * bool)) :
  forall lastRefreshTime,
    spaced lastRefreshTime (Dashboard.refreshTimes ticks lastRefreshTime)
    /\ Forall (fun t => In (t, true) ticks)
              (Dashboard.refreshTimes ticks lastRefreshTime).
Proof.
  induction ticks as [|[now visible] ticks IH]; intros lastRefreshTime;
    [split; constructor|].
  cbn [Dashboard.refreshTimes]. rewrite onInterval_spec.
  destruct visible; cbn [andb].
  - destruct (Z.leb_spec (lastRefreshTime + Dashboard.refreshInterval) now).
    + destruct (IH now) as [Hsp Hvis]. split.
      * split; assumption.
      * constructor; [left; reflexivity|].
        eapply Forall_impl; [|exact Hvis]. intros t Ht. right. exact Ht.
    + destruct (IH lastRefreshTime) as [Hsp Hvis]. split; [assumption|].
      eapply Forall_impl; [|exact Hvis]. intros t Ht. right. exact Ht.
  - destruct (IH lastRefreshTime) as [Hsp Hvis]. split; [assumption|].
    eapply Forall_impl; [|exact Hvis]. intros t Ht. right. exact Ht.
Qed.

(** C8. The periodic refresh is installed only with data loaded and a
    user; its callback runs every 30 s and calls the silent fetch exactly
    when the document is visible and 5 minutes or more have passed since
    the last refresh, which it then dates at the current instant: over any
    sequence of ticks the refreshes happen at visible ticks, each at least
    5 minutes after the one before.  The silent fetch never writes the
    loading flags, the rows on display, the stats or a toast; it writes
    nothing before the answer arrives; it replaces the fetched set by the
    answer when the query is served, and leaves it unchanged otherwise;
    the filter pass of the next render displays the fetched set it finds
    under the filters in force. *)
Theorem periodic_silent_refresh :
  forall (r : Dashboard.Render) (now lastRefreshTime sevenDaysAgo : Z)
         (visible : bool) (ticks : list (Z * bool)) (teamFilter : string)
         (outcome : Store.Outcome) (st : Dashboard.State),
    let st' := Dashboard.fetchDataSilently r teamFilter outcome st in
    Dashboard.periodicRefresh r now
    = (if Dashboard.r_dataLoaded r
       then match Dashboard.r_user r with Some _ => Some now | None => None end
       else None)
    /\ (Dashboard.refreshInterval = 300000
        /\ 0 < Dashboard.pollPeriod < Dashboard.refreshInterval)%Z
    /\ Dashboard.onInterval visible now lastRefreshTime
       = (if visible && (lastRefreshTime + Dashboard.refreshInterval <=? now)%Z
          then (true, now)
          else (false, lastRefreshTime))
    /\ spaced lastRefreshTime (Dashboard.refreshTimes ticks lastRefreshTime)
    /\ Forall (fun t => In (t, true) ticks)
              (Dashboard.refreshTimes ticks lastRefreshTime)
    /\ Dashboard.isLoading st' = Dashboard.isLoading st
    /\ Dashboard.loadingFailed st' = Dashboard.loadingFailed st
    /\ Dashboard.filteredData st' = Dashboard.filteredData st
    /\ Dashboard.stats st' = Dashboard.stats st
    /\ Dashboard.toasts st' = Dashboard.toasts st
    /\ Dashboard.historicalData st'
       = match outcome with
         | Store.Served _ table =>
             Dashboard.cleanData
               (Store.run (Dashboard.updatesQuery r teamFilter) table)
         | _ => Dashboard.historicalData st
         end
    /\ Dashboard.filteredData (Dashboard.applyFiltersEffect sevenDaysAgo st')
       = Dashboard.applyFiltersToData (Dashboard.render st) sevenDaysAgo
           (Dashboard.historicalData st').
Proof.
  intros r now lastRefreshTime sevenDaysAgo visible ticks teamFilter outcome st st'.
  split.
  { unfold Dashboard.periodicRefresh.
    destruct (Dashboard.r_dataLoaded r), (Dashboard.r_user r); reflexivity. }
  split; [unfold Dashboard.refreshInterval, Dashboard.pollPeriod; lia|].
  split; [apply onInterval_spec|].
  split; [apply refreshTimes_spaced|].
  split; [apply refreshTimes_spaced|].
  subst st'. unfold Dashboard.applyFiltersEffect, Dashboard.applyFilters.
  rewrite forceApplyFilters_filteredData.
  destruct outcome; repeat split; reflexivity.
Qed.

(** ** The local recovery cache *)

Section RecoveryFacts.

Variable JSON_parse_email : string -> option string.
Variable JSON_parse_updates : string -> option (list DailyUpdate.t).
Variable parseInt : string -> option Z.



End RecoveryFacts.


(** A chunk that does not parse ends the recovery where the exception is
    caught: nothing is recovered, the legacy entry is not read. *)
Example malformed_chunk_ends_recovery :
  let storage := sampleStorage "[u1" in
  let st := Dashboard.mount None 0 in
  Dashboard.tryRecoverFromLocalStorage
    sampleParseEmail sampleParseUpdates sampleParseInt storage st
  = (false, st).
Proof. reflexivity. Qed.

(** * Further properties of the two views *)

(** ** The filter passes *)

Lemma optEqb_true (o : option string) (x : string) :
  Store.optEqb o x = true <-> o = Some x.
Proof.
  destruct o as [y|]; simpl; [|split; discriminate].
  rewrite String.eqb_eq. split; congruence.
Qed.

Lemma isoDate_bounds (t lo hi : Z) :
  ((lo <=? isoDate t) && (isoDate t <=? hi) = true
   <-> T00_00_00_000Z lo <= t <= T23_59_59_999Z hi)%Z.
Proof.
  unfold isoDate, T00_00_00_000Z, T23_59_59_999Z, msPerDay.
  rewrite andb_true_iff, !Z.leb_le.
  pose proof (Z.div_mod t 86400000 ltac:(lia)) as Hdiv.
  pose proof (Z.mod_pos_bound t 86400000 ltac:(lia)) as Hmod.
  lia.
Qed.

Lemma filter_all {A} (f : A -> bool) (l : list A) :
  Forall (fun x => f x = true) l -> filter f l = l.
Proof.
  induction 1 as [|x l Hx _ IH]; simpl; [reflexivity|]. now rewrite Hx, IH.
Qed.

Lemma keeps_spec (r : Dashboard.Render) (sevenDaysAgo : Z) (u : DailyUpdate.t) :
  keeps r sevenDaysAgo u = true <->
  (start (Dashboard.r_dateRange r) <= isoDate (DailyUpdate.created_at u)
   <= end_ (Dashboard.r_dateRange r))%Z
  /\ (Dashboard.r_selectedTeam r = ""
      \/ DailyUpdate.team_id u = Some (Dashboard.r_selectedTeam r))
  /\ tabSelects (Dashboard.r_activeTab r) sevenDaysAgo u = true.
Proof.
  unfold keeps, Dashboard.inDateRange, Dashboard.inTeam.
  fold (tabSelects (Dashboard.r_activeTab r) sevenDaysAgo u).
  rewrite !andb_true_iff, !Z.leb_le.
  destruct (Js.truthy (Dashboard.r_selectedTeam r)) eqn:Hteam.
  - rewrite optEqb_true.
    assert (Dashboard.r_selectedTeam r <> "")
      by (intros Heq; rewrite Heq in Hteam; discriminate).
    tauto.
  - apply truthy_false in Hteam. tauto.
Qed.

(** X1. The rows the manager view displays are exactly the fetched rows
    whose creation day lies in the date range, whose team is the selected
    one when a team is selected, and which pass the active tab. *)
Theorem displayed_rows_characterised :
  forall (r : Dashboard.Render) (sevenDaysAgo : Z) (st : Dashboard.State)
         (u : DailyUpdate.t),
    In u (Dashboard.filteredData (Dashboard.forceApplyFilters r sevenDaysAgo st))
    <-> In u (Dashboard.r_historicalData r)
        /\ (start (Dashboard.r_dateRange r) <= isoDate (DailyUpdate.created_at u)
            <= end_ (Dashboard.r_dateRange r))%Z
        /\ (Dashboard.r_selectedTeam r = ""
            \/ DailyUpdate.team_id u = Some (Dashboard.r_selectedTeam r))
        /\ tabSelects (Dashboard.r_activeTab r) sevenDaysAgo u = true.
Proof.
  intros r sevenDaysAgo st u.
  rewrite forceApplyFilters_filteredData, applyFiltersToData_filter.
  rewrite filter_In, keeps_spec. reflexivity.
Qed.

Lemma switchActiveFilter_In (activeFilter : string) (l : list DailyUpdate.t)
  (u : DailyUpdate.t) :
  In u (UserDashboard.switchActiveFilter activeFilter l)
  <-> In u l
      /\ (In activeFilter ["completed"; "in-progress"; "blocked"] ->
          DailyUpdate.status u = activeFilter).
Proof.
  unfold UserDashboard.switchActiveFilter, DailyUpdate.hasStatus.
  destruct (String.eqb_spec activeFilter "completed") as [->|Hc].
  { rewrite filter_In, String.eqb_eq. simpl. tauto. }
  destruct (String.eqb_spec activeFilter "in-progress") as [->|Hi].
  { rewrite filter_In, String.eqb_eq. simpl. tauto. }
  destruct (String.eqb_spec activeFilter "blocked") as [->|Hb].
  { rewrite filter_In, String.eqb_eq. simpl. tauto. }
  simpl. split; [|tauto].
  intros Hin. split; [exact Hin|].
  intros [H|[H|[H|[]]]]; congruence.
Qed.

(** X2. The rows the employee view displays are the fetched rows whose
    status is the active card filter when that filter is completed,
    in-progress or blocked; under any other filter value all fetched
    rows are displayed. *)
Theorem card_filter_characterised :
  forall (r : UserDashboard.Render) (st : UserDashboard.State)
         (u : DailyUpdate.t),
    In u (UserDashboard.filteredUpdates (UserDashboard.applyFilters r st))
    <-> In u (UserDashboard.r_userUpdates r)
        /\ (In (UserDashboard.r_activeFilter r)
               ["completed"; "in-progress"; "blocked"] ->
            DailyUpdate.status u = UserDashboard.r_activeFilter r).
Proof.
  intros r st u. rewrite <- switchActiveFilter_In.
  unfold UserDashboard.applyFilters.
  destruct (UserDashboard.r_userUpdates r) as [|v l] eqn:Hl.
  - cbn [List.length Nat.eqb]. rewrite switchActiveFilter_In.
    cbn. tauto.
  - cbn [List.length Nat.eqb]. reflexivity.
Qed.

(** X3. The date pass of the filter keeps an update exactly when it was
    created from [start 00:00:00.000] to [end 23:59:59.999], both
    included. *)
Theorem date_pass_is_inclusive :
  forall (dr : DateRange) (u : DailyUpdate.t),
    Dashboard.inDateRange dr u = true
    <-> (T00_00_00_000Z (start dr) <= DailyUpdate.created_at u
         <= T23_59_59_999Z (end_ dr))%Z.
Proof.
  intros dr u. unfold Dashboard.inDateRange. apply isoDate_bounds.
Qed.

Lemma keeps_later (r : Dashboard.Render) (earlier later : Z) (u : DailyUpdate.t) :
  (earlier <= later)%Z ->
  keeps r earlier u && keeps r later u = keeps r later u.
Proof.
  intros Hle. unfold keeps.
  destruct (Dashboard.inDateRange (Dashboard.r_dateRange r) u); [|reflexivity].
  destruct (if Js.truthy (Dashboard.r_selectedTeam r)
            then Dashboard.inTeam (Dashboard.r_selectedTeam r) u else true);
    [|reflexivity].
  cbn [andb].
  destruct (Dashboard.r_activeTab r); try apply andb_diag.
  unfold Dashboard.isRecent.
  destruct (Z.leb_spec later (DailyUpdate.created_at u));
    destruct (Z.leb_spec earlier (DailyUpdate.created_at u));
    try reflexivity; lia.
Qed.

(** X4. Filtering again at a later reading of the clock gives what
    filtering the original set at that later reading gives: an earlier
    pass never hides a row a later pass would show. *)
Theorem filter_again_later :
  forall (r : Dashboard.Render) (earlier later : Z) (U : list DailyUpdate.t),
    (earlier <= later)%Z ->
    Dashboard.applyFiltersToData r later (Dashboard.applyFiltersToData r earlier U)
    = Dashboard.applyFiltersToData r later U.
Proof.
  intros r earlier later U Hle.
  rewrite !applyFiltersToData_filter, filter_and.
  apply filter_ext. intros u. now apply keeps_later.
Qed.

Lemma filter_again_later_witness :
  let r := Dashboard.mkRender None (mkDateRange 0 10) "" Dashboard.Tab_recent
                              [] None false in
  let U := [DailyUpdate.mk "u1" "a@aditi.test" None 100 "to-do" None None None;
            DailyUpdate.mk "u2" "a@aditi.test" None 300 "to-do" None None None] in
  (100 <= 200)%Z
  /\ Dashboard.applyFiltersToData r 200 (Dashboard.applyFiltersToData r 100 U)
     = [DailyUpdate.mk "u2" "a@aditi.test" None 300 "to-do" None None None].
Proof.
  intros r U.
  assert (Hle : (100 <= 200)%Z) by lia.
  split; [exact Hle|].
  rewrite (filter_again_later r 100 200 U Hle). reflexivity.
Defined.

Lemma In_cleanData (x : DailyUpdate.t) (data : list DailyUpdate.t) :
  In x (Dashboard.cleanData data) ->
  exists u, In u data
            /\ DailyUpdate.created_at x = DailyUpdate.created_at u
            /\ DailyUpdate.team_id x = DailyUpdate.team_id u.
Proof.
  unfold Dashboard.cleanData. rewrite in_map_iff.
  intros (u & <- & Hin). exists u. repeat split. exact Hin.
Qed.

Lemma manager_query_selects (r : Dashboard.Render) (teamFilter : string)
  (u : DailyUpdate.t) :
  Store.selects (Dashboard.updatesQuery r teamFilter) u = true ->
  (T00_00_00_000Z (start (Dashboard.r_dateRange r)) <= DailyUpdate.created_at u
   <= T23_59_59Z (end_ (Dashboard.r_dateRange r)))%Z
  /\ (teamFilter = "" \/ DailyUpdate.team_id u = Some teamFilter).
Proof.
  unfold Store.selects, Dashboard.updatesQuery; simpl.
  rewrite !andb_true_iff, !Z.leb_le. intros [[[Hlo Hhi] _] Hteam].
  split; [lia|].
  destruct (Js.truthy teamFilter) eqn:Htruthy.
  - right. now apply optEqb_true.
  - left. now apply truthy_false.
Qed.

(** X5. When a silent refresh is served for the date range and the team
    in force, under the tab "all", the filter pass that follows displays
    every row of the answer: the date and team passes of the filter never
    drop a row the query selected. *)
Theorem served_rows_all_displayed :
  forall (r : Dashboard.Render) (now sevenDaysAgo : Z)
         (table : list DailyUpdate.t) (st : Dashboard.State),
    Dashboard.r_dateRange r = Dashboard.dateRange st ->
    Dashboard.r_selectedTeam r = Dashboard.selectedTeam st ->
    Dashboard.activeTab st = Dashboard.Tab_all ->
    let st' := Dashboard.fetchDataSilently r (Dashboard.r_selectedTeam r)
                 (Store.Served now table) st in
    Dashboard.filteredData (Dashboard.applyFiltersEffect sevenDaysAgo st')
    = Dashboard.historicalData st'.
Proof.
  intros r now sevenDaysAgo table st Hrange Hteam Htab st'.
  unfold Dashboard.applyFiltersEffect, Dashboard.applyFilters.
  rewrite forceApplyFilters_filteredData, applyFiltersToData_filter.
  change (Dashboard.r_historicalData (Dashboard.render st'))
    with (Dashboard.historicalData st').
  apply filter_all. apply Forall_forall. intros x Hx.
  apply keeps_spec.
  change (Dashboard.r_dateRange (Dashboard.render st')) with (Dashboard.dateRange st).
  change (Dashboard.r_selectedTeam (Dashboard.render st'))
    with (Dashboard.selectedTeam st).
  change (Dashboard.r_activeTab (Dashboard.render st')) with (Dashboard.activeTab st).
  change (Dashboard.historicalData st')
    with (Dashboard.cleanData
            (Store.run (Dashboard.updatesQuery r (Dashboard.r_selectedTeam r)) table))
    in Hx.
  apply In_cleanData in Hx as (u & Hu & Hcreated & Hteam_id).
  apply In_run in Hu as [_ Hsel].
  apply manager_query_selects in Hsel as [Hbounds Hsame].
  rewrite Hcreated, Hteam_id, <- Hrange, <- Hteam, Htab.
  split; [|split; [exact Hsame | reflexivity]].
  assert (Hin : (T00_00_00_000Z (start (Dashboard.r_dateRange r))
                 <= DailyUpdate.created_at u
                 <= T23_59_59_999Z (end_ (Dashboard.r_dateRange r)))%Z).
  { destruct (day_bounds (end_ (Dashboard.r_dateRange r))) as [Hday _]. lia. }
  apply isoDate_bounds in Hin. apply andb_true_iff in Hin as [Hlo Hhi].
  apply Z.leb_le in Hlo, Hhi. lia.
Qed.

Lemma served_rows_all_displayed_witness :
  let admin := Some (mkUser "alice@aditi.test" "Alice" "admin") in
  let st := Dashboard.setSelectedTeam "t1" (Dashboard.mount admin 7) in
  let r := Dashboard.render st in
  let table :=
    [DailyUpdate.mk "u1" "bob@aditi.test" (Some "t1") 5 "to-do" None None None;
     DailyUpdate.mk "u2" "bob@aditi.test" (Some "t2") 5 "to-do" None None None] in
  let st' := Dashboard.fetchDataSilently r "t1" (Store.Served 9 table) st in
  Dashboard.r_dateRange r = Dashboard.dateRange st
  /\ Dashboard.activeTab st = Dashboard.Tab_all
  /\ List.length (Dashboard.historicalData st') = 1%nat
  /\ Dashboard.filteredData (Dashboard.applyFiltersEffect 0 st')
     = Dashboard.historicalData st'.
Proof.
  intros admin st r table st'.
  split; [reflexivity|]. split; [reflexivity|]. split; [reflexivity|].
  exact (served_rows_all_displayed r 9 0 table st eq_refl eq_refl eq_refl).
Defined.

(** X6. For an actor whose role is not "user", the manager view's fetch
    without a team filter brings in every stored update created in the
    bounds of the query, whatever its team and its owner. *)
Theorem manager_fetch_spans_all_teams :
  forall (r : Dashboard.Render) (actor : User) (now : Z)
         (table : list DailyUpdate.t) (st : Dashboard.State) (u : DailyUpdate.t),
    Dashboard.r_user r = Some actor ->
    role actor <> "user" ->
    In u table ->
    (T00_00_00_000Z (start (Dashboard.r_dateRange r)) <= DailyUpdate.created_at u
     <= T23_59_59Z (end_ (Dashboard.r_dateRange r)))%Z ->
    incl (Dashboard.cleanData [u])
         (Dashboard.historicalData
            (Dashboard.fetchDataSilently r "" (Store.Served now table) st)).
Proof.
  intros r actor now table st u Huser Hrole Hin [Hlo Hhi] x Hx.
  change (Dashboard.historicalData
            (Dashboard.fetchDataSilently r "" (Store.Served now table) st))
    with (Dashboard.cleanData (Store.run (Dashboard.updatesQuery r "") table)).
  unfold Dashboard.cleanData in *. rewrite in_map_iff in *.
  destruct Hx as (v & Hv & [<-|[]]). exists u. split; [exact Hv|].
  apply In_run. split; [exact Hin|].
  unfold Store.selects, Dashboard.updatesQuery; simpl. rewrite Huser.
  destruct (String.eqb_spec (role actor) "user") as [Heq|_]; [contradiction|].
  rewrite !andb_true_r, andb_true_iff, !Z.leb_le. split; assumption.
Qed.

Lemma manager_fetch_spans_all_teams_witness :
  let manager := mkUser "mia@aditi.test" "Mia" "manager" in
  let st := Dashboard.mount (Some manager) 7 in
  let u := DailyUpdate.mk "u1" "bob@aditi.test" (Some "team-of-someone-else") 5
                          "to-do" None None None in
  role manager <> "user"
  /\ In (DailyUpdate.set_team_name (Some "Unknown Team") u)
        (Dashboard.historicalData
           (Dashboard.fetchDataSilently (Dashboard.render st) ""
              (Store.Served 9 [u]) st)).
Proof.
  intros manager st u.
  assert (Hrole : role manager <> "user") by discriminate.
  split; [exact Hrole|].
  apply (manager_fetch_spans_all_teams (Dashboard.render st) manager 9 [u] st u
           eq_refl Hrole (or_introl eq_refl)).
  - unfold T00_00_00_000Z, T23_59_59Z, msPerDay. simpl. lia.
  - left. reflexivity.
Defined.

(** X7. Cleaning the rows of an answer changes nothing but their team
    name, and gives every row a non-empty one: the name of the joined
    team when it has one, "Unknown Team" otherwise. *)
Theorem cleanData_names_every_row :
  forall (data : list DailyUpdate.t),
    map (DailyUpdate.set_team_name None) (Dashboard.cleanData data)
    = map (DailyUpdate.set_team_name None) data
    /\ Forall (fun x => Js.truthyOpt (DailyUpdate.team_name x) = true)
              (Dashboard.cleanData data)
    /\ Forall (fun x =>
                 match DailyUpdate.aditi_teams x with
                 | Some team =>
                     Team.team_name team <> "" ->
                     DailyUpdate.team_name x = Some (Team.team_name team)
                 | None => DailyUpdate.team_name x = Some "Unknown Team"
                 end)
              (Dashboard.cleanData data).
Proof.
  intros data. unfold Dashboard.cleanData.
  split; [|split].
  - rewrite map_map. apply map_ext. intros u. reflexivity.
  - apply Forall_forall. intros x Hx. apply in_map_iff in Hx as (u & <- & _).
    cbn. destruct (DailyUpdate.aditi_teams u) as [team|]; cbn; [|reflexivity].
    destruct (Js.truthy (Team.team_name team)) eqn:Hname; [exact Hname|reflexivity].
  - apply Forall_forall. intros x Hx. apply in_map_iff in Hx as (u & <- & _).
    cbn. destruct (DailyUpdate.aditi_teams u) as [team|]; cbn; [|reflexivity].
    intros Hne. destruct (Js.truthy (Team.team_name team)) eqn:Hname;
      [reflexivity|]. apply truthy_false in Hname. contradiction.
Qed.

(** ** Tabs, cards and stats *)

Lemma filter_disjoint_nil {A} (f g : A -> bool) (l : list A) :
  (forall x, f x && g x = false) -> filter g (filter f l) = [].
Proof.
  intros Hfg. rewrite filter_and.
  induction l as [|x l IH]; simpl; [reflexivity|]. now rewrite Hfg.
Qed.

Lemma tab_filter_shape (r : Dashboard.Render) (sevenDaysAgo : Z)
  (st : Dashboard.State) :
  exists l,
    Dashboard.filteredData (Dashboard.forceApplyFilters r sevenDaysAgo st)
    = filter (tabSelects (Dashboard.r_activeTab r) sevenDaysAgo) l.
Proof.
  rewrite forceApplyFilters_filteredData.
  unfold Dashboard.applyFiltersToData.
  destruct (Dashboard.r_historicalData r) as [|u data].
  - exists []. reflexivity.
  - cbn [List.length Nat.eqb].
    eexists. unfold tabSelects.
    destruct (Dashboard.r_activeTab r); try reflexivity.
    symmetry. apply filter_all. apply Forall_forall. reflexivity.
Qed.

(** X8. Under a status tab the stats of the manager view collapse onto
    that status: the count of the tab's status is the total and the two
    other status counts are zero; under the blockers tab the blocker count
    is the total. *)
Theorem status_tab_collapses_stats :
  forall (r : Dashboard.Render) (sevenDaysAgo : Z) (st : Dashboard.State),
    let stats := Dashboard.stats (Dashboard.forceApplyFilters r sevenDaysAgo st) in
    match Dashboard.r_activeTab r with
    | Dashboard.Tab_completed =>
        Dashboard.completedTasks stats = Dashboard.totalUpdates stats
        /\ Dashboard.inProgressTasks stats = 0%nat
        /\ Dashboard.stuckTasks stats = 0%nat
    | Dashboard.Tab_in_progress =>
        Dashboard.inProgressTasks stats = Dashboard.totalUpdates stats
        /\ Dashboard.completedTasks stats = 0%nat
        /\ Dashboard.stuckTasks stats = 0%nat
    | Dashboard.Tab_blocked =>
        Dashboard.stuckTasks stats = Dashboard.totalUpdates stats
        /\ Dashboard.completedTasks stats = 0%nat
        /\ Dashboard.inProgressTasks stats = 0%nat
    | Dashboard.Tab_blockers =>
        Dashboard.totalBlockers stats = Dashboard.totalUpdates stats
    | _ => True
    end.
Proof.
  intros r sevenDaysAgo st stats. subst stats.
  rewrite forceApplyFilters_stats.
  destruct (tab_filter_shape r sevenDaysAgo st) as [l ->].
  cbn [Dashboard.calculateStats Dashboard.setStats Dashboard.stats
       Dashboard.completedTasks Dashboard.inProgressTasks Dashboard.stuckTasks
       Dashboard.totalUpdates Dashboard.totalBlockers].
  destruct (Dashboard.r_activeTab r); cbn [tabSelects]; try exact I;
    rewrite ?filter_twice; repeat split;
    rewrite filter_disjoint_nil; try reflexivity;
    intros u; apply hasStatus_disjoint; discriminate.
Qed.

(** X9. After a click on a stats card and the filter pass of the render
    that follows, the manager view displays the fetched rows of all teams
    that lie in the date range and pass the tab of the card. *)
Theorem card_click_displays_all_teams :
  forall (filterType : string) (sevenDaysAgo : Z) (st : Dashboard.State),
    Dashboard.filteredData
      (Dashboard.applyFiltersEffect sevenDaysAgo
         (Dashboard.clickStatsCard filterType st))
    = filter (fun u =>
                Dashboard.inDateRange (Dashboard.dateRange st) u
                && tabSelects (Dashboard.tabOfCard filterType) sevenDaysAgo u)
             (Dashboard.historicalData st).
Proof.
  intros filterType sevenDaysAgo st.
  unfold Dashboard.applyFiltersEffect, Dashboard.applyFilters.
  rewrite forceApplyFilters_filteredData, applyFiltersToData_filter.
  assert (Hteam : Js.truthy
                    (Dashboard.selectedTeam (Dashboard.clickStatsCard filterType st))
                  = false).
  { unfold Dashboard.clickStatsCard, Dashboard.filterByCardType.
    cbn [Dashboard.r_selectedTeam Dashboard.render].
    destruct (Js.truthy (Dashboard.selectedTeam st)) eqn:Hsel;
      [reflexivity | exact Hsel]. }
  assert (Hkeep : forall (x : Dashboard.State),
             Dashboard.historicalData
               (if Js.truthy (Dashboard.selectedTeam st)
                then Dashboard.setSelectedTeam "" x else x)
             = Dashboard.historicalData x
             /\ Dashboard.dateRange
                  (if Js.truthy (Dashboard.selectedTeam st)
                   then Dashboard.setSelectedTeam "" x else x)
                = Dashboard.dateRange x).
  { intros x. destruct (Js.truthy (Dashboard.selectedTeam st)); split; reflexivity. }
  assert (Hdata : Dashboard.historicalData (Dashboard.clickStatsCard filterType st)
                  = Dashboard.historicalData st)
    by (exact (proj1 (Hkeep st))).
  assert (Hrange : Dashboard.dateRange (Dashboard.clickStatsCard filterType st)
                   = Dashboard.dateRange st)
    by (exact (proj2 (Hkeep st))).
  change (Dashboard.r_historicalData
            (Dashboard.render (Dashboard.clickStatsCard filterType st)))
    with (Dashboard.historicalData (Dashboard.clickStatsCard filterType st)).
  rewrite Hdata. apply filter_ext. intros u. unfold keeps.
  change (Dashboard.r_selectedTeam
            (Dashboard.render (Dashboard.clickStatsCard filterType st)))
    with (Dashboard.selectedTeam (Dashboard.clickStatsCard filterType st)).
  rewrite Hteam.
  change (Dashboard.r_dateRange
            (Dashboard.render (Dashboard.clickStatsCard filterType st)))
    with (Dashboard.dateRange (Dashboard.clickStatsCard filterType st)).
  rewrite Hrange, andb_true_r. reflexivity.
Qed.

(** X10. An edit button that is shown is never disabled: for a plain
    user the button is shown only under the statuses to-do and
    in-progress, and it is disabled only under the status completed. *)
Theorem shown_edit_button_is_enabled :
  forall (user : option User) (status : string),
    UserDashboard.button (UserDashboard.listViewEditCell user status) <> Some true
    /\ UserDashboard.detailViewEditAction user status <> Some true.
Proof.
  intros user status.
  assert (H : UserDashboard.detailViewEditAction user status <> Some true).
  { unfold UserDashboard.detailViewEditAction, UserDashboard.isTaskEditable,
      UserDashboard.editDisabled.
    destruct (roleIs user "admin"), (roleIs user "manager"); simpl;
      try discriminate.
    destruct (String.eqb_spec status "to-do") as [->|_]; simpl;
      [discriminate|].
    destruct (String.eqb_spec status "in-progress") as [->|_]; simpl;
      discriminate. }
  split; exact H.
Qed.

(** ** Deferred filter passes *)

Lemma forceApplyFilters_frame (r : Dashboard.Render) (sevenDaysAgo : Z)
  (st : Dashboard.State) :
  let st' := Dashboard.forceApplyFilters r sevenDaysAgo st in
  Dashboard.timers st' = Dashboard.timers st
  /\ Dashboard.activeTab st' = Dashboard.activeTab st
  /\ Dashboard.selectedTeam st' = Dashboard.selectedTeam st
  /\ Dashboard.historicalData st' = Dashboard.historicalData st
  /\ Dashboard.toasts st' = Dashboard.toasts st.
Proof.
  unfold Dashboard.forceApplyFilters.
  destruct (List.length (Dashboard.r_historicalData r) =? 0)%nat;
    repeat split; reflexivity.
Qed.

Lemma clickStatsCard_frame (filterType : string) (st : Dashboard.State) :
  let st' := Dashboard.clickStatsCard filterType st in
  Dashboard.timers st'
  = (Dashboard.timers st
     ++ [Dashboard.mkTimer (Dashboard.nextTimerId st) 100
           (Dashboard.DeferredApplyFilters (Dashboard.render st))])%list
  /\ Dashboard.activeTab st' = Dashboard.tabOfCard filterType
  /\ Dashboard.selectedTeam st' = "".
Proof.
  unfold Dashboard.clickStatsCard, Dashboard.filterByCardType.
  cbn [Dashboard.r_selectedTeam Dashboard.render].
  destruct (Js.truthy (Dashboard.selectedTeam st)) eqn:Hsel.
  - repeat split; reflexivity.
  - apply truthy_false in Hsel. repeat split; try reflexivity. exact Hsel.
Qed.

(** X11. The filter pass that a click on a stats card of the manager view
    schedules 100 ms later belongs to the render that handled the click:
    when it fires, the rows on display are those of the tab and the team
    in force before the click, while the tab is the one of the card and
    the team filter is empty. *)
Theorem deferred_pass_shows_previous_filters :
  forall (filterType : string) (sevenDaysAgo later : Z) (st : Dashboard.State),
    let deferred := Dashboard.DeferredApplyFilters (Dashboard.render st) in
    let shown := Dashboard.applyFiltersEffect sevenDaysAgo
                   (Dashboard.clickStatsCard filterType st) in
    let late := Dashboard.fire deferred later shown in
    In (Dashboard.mkTimer (Dashboard.nextTimerId st) 100 deferred)
       (Dashboard.timers shown)
    /\ Dashboard.filteredData late
       = Dashboard.applyFiltersToData (Dashboard.render st) later
           (Dashboard.historicalData st)
    /\ Dashboard.activeTab late = Dashboard.tabOfCard filterType
    /\ Dashboard.selectedTeam late = "".
Proof.
  intros filterType sevenDaysAgo later st deferred shown late.
  destruct (clickStatsCard_frame filterType st) as (Htimers & Htab & Hteam).
  destruct (forceApplyFilters_frame
              (Dashboard.render (Dashboard.clickStatsCard filterType st))
              sevenDaysAgo (Dashboard.clickStatsCard filterType st))
    as (Htimers1 & Htab1 & Hteam1 & _).
  destruct (forceApplyFilters_frame (Dashboard.render st) later shown)
    as (_ & Htab2 & Hteam2 & _).
  split.
  { subst shown. unfold Dashboard.applyFiltersEffect, Dashboard.applyFilters.
    rewrite Htimers1, Htimers. apply in_or_app. right. left. reflexivity. }
  subst late deferred. cbn [Dashboard.fire]. unfold Dashboard.applyFilters.
  split; [apply forceApplyFilters_filteredData|].
  rewrite Htab2, Hteam2. subst shown.
  unfold Dashboard.applyFiltersEffect, Dashboard.applyFilters.
  rewrite Htab1, Hteam1. split; assumption.
Qed.

Lemma applyFilters_frame (r : UserDashboard.Render) (st : UserDashboard.State) :
  let st' := UserDashboard.applyFilters r st in
  UserDashboard.timers st' = UserDashboard.timers st
  /\ UserDashboard.activeFilter st' = UserDashboard.activeFilter st
  /\ UserDashboard.userUpdates st' = UserDashboard.userUpdates st
  /\ UserDashboard.toasts st' = UserDashboard.toasts st.
Proof.
  unfold UserDashboard.applyFilters.
  destruct (List.length (UserDashboard.r_userUpdates r) =? 0)%nat;
    repeat split; reflexivity.
Qed.

(** X12. The same in the employee view: when the filter pass scheduled by
    a card click fires, the rows on display are again those of the card
    filter in force before the click, while the active filter is the one
    of the card. *)
Theorem deferred_pass_undoes_card_filter :
  forall (filterType : string) (st : UserDashboard.State),
    let deferred := UserDashboard.DeferredApplyFilters (UserDashboard.render st) in
    let shown := UserDashboard.applyFiltersEffect
                   (UserDashboard.filterByCardType (UserDashboard.render st)
                      filterType st) in
    let late := UserDashboard.fire deferred shown in
    In (UserDashboard.mkTimer (UserDashboard.nextTimerId st) 100 deferred)
       (UserDashboard.timers shown)
    /\ UserDashboard.filteredUpdates shown
       = UserDashboard.switchActiveFilter filterType (UserDashboard.userUpdates st)
    /\ UserDashboard.filteredUpdates late
       = UserDashboard.switchActiveFilter (UserDashboard.activeFilter st)
           (UserDashboard.userUpdates st)
    /\ UserDashboard.activeFilter late = filterType.
Proof.
  intros filterType st deferred shown late.
  destruct (applyFilters_frame
              (UserDashboard.render
                 (UserDashboard.filterByCardType (UserDashboard.render st)
                    filterType st))
              (UserDashboard.filterByCardType (UserDashboard.render st)
                 filterType st))
    as (Htimers & Hfilter & _).
  destruct (applyFilters_frame (UserDashboard.render st) shown)
    as (_ & Hfilter2 & _).
  split; [|split; [|split]].
  - subst shown. unfold UserDashboard.applyFiltersEffect. rewrite Htimers.
    apply in_or_app. right. left. reflexivity.
  - subst shown. rewrite applyFiltersEffect_filteredUpdates. reflexivity.
  - subst late deferred. apply deferred_applyFilters_rows.
  - subst late deferred. cbn [UserDashboard.fire]. rewrite Hfilter2.
    subst shown. unfold UserDashboard.applyFiltersEffect. rewrite Hfilter.
    reflexivity.
Qed.

(** ** More on the fetch of the employee view *)

Lemma attemptFetch_after_failures (q : Store.Query) (maxRetries : nat)
  (now : Z) (table : list DailyUpdate.t) (net : list Store.Outcome) :
  forall (k retryCount : nat),
    (retryCount + k < maxRetries)%nat ->
    UserDashboard.attemptFetch q maxRetries retryCount
      (repeat Store.Failed k ++ Store.Served now table :: net)%list
    = UserDashboard.mkTrial (UserDashboard.Data now (Store.run q table))
        (retryCount + k) (backoff retryCount k) net.
Proof.
  induction k as [|k IH]; intros retryCount Hlt.
  - cbn [repeat app]. rewrite attemptFetch_served, Nat.add_0_r. reflexivity.
  - cbn [repeat app]. rewrite attemptFetch_failed_cons.
    destruct (lt_dec (S retryCount) maxRetries) as [_|Hge]; [|lia].
    rewrite IH by lia. unfold UserDashboard.afterWait, backoff.
    cbn [UserDashboard.result UserDashboard.retryCount UserDashboard.waits
         UserDashboard.rest seq map].
    now rewrite Nat.add_succ_r.
Qed.

Lemma attemptFetch_budget_spent (q : Store.Query) (maxRetries : nat)
  (net : list Store.Outcome) :
  forall (left_ retryCount : nat),
    S left_ = (maxRetries - retryCount)%nat ->
    UserDashboard.attemptFetch q maxRetries retryCount
      (repeat Store.Failed (S left_) ++ net)%list
    = UserDashboard.mkTrial UserDashboard.Thrown maxRetries
        (backoff retryCount left_) net.
Proof.
  induction left_ as [|left_ IH]; intros retryCount Hleft;
    cbn [repeat app]; rewrite attemptFetch_failed_cons;
    destruct (lt_dec (S retryCount) maxRetries) as [Hlt|Hge]; try lia.
  - replace (S retryCount) with maxRetries by lia. reflexivity.
  - cbn [repeat app] in IH. rewrite IH by lia.
    unfold UserDashboard.afterWait, backoff.
    cbn [UserDashboard.result UserDashboard.retryCount UserDashboard.waits
         UserDashboard.rest seq map]. reflexivity.
Qed.

Lemma fetchUserUpdates_rest (production : bool) (r : UserDashboard.Render)
  (net : list Store.Outcome) (st : UserDashboard.State) :
  snd (UserDashboard.fetchUserUpdates production r net st)
  = UserDashboard.rest
      (UserDashboard.attemptFetch (UserDashboard.updatesQuery r)
         (UserDashboard.maxRetriesOf production) 0 net).
Proof.
  unfold UserDashboard.fetchUserUpdates. cbn [UserDashboard.setTimeout].
  reflexivity.
Qed.

(** X13. Whatever the number of failures below the budget, the fetch of
    the employee view stores the answer of the first served attempt:
    after [k] failures, with [k] below the budget, the fetched set is the
    answer to attempt [k + 1], no toast is shown, the delays awaited are
    1000 ms, 2000 ms, ... up to [k] times 1000 ms, and no later outcome
    of the store is consumed. *)
Theorem retry_until_served :
  forall (production : bool) (r : UserDashboard.Render) (k : nat) (now : Z)
         (table : list DailyUpdate.t) (net : list Store.Outcome)
         (st : UserDashboard.State),
    (k < UserDashboard.maxRetriesOf production)%nat ->
    let run := UserDashboard.fetchUserUpdates production r
                 (repeat Store.Failed k ++ Store.Served now table :: net)%list st in
    UserDashboard.userUpdates (fst run)
    = Store.run (UserDashboard.updatesQuery r) table
    /\ UserDashboard.toasts (fst run) = UserDashboard.toasts st
    /\ UserDashboard.slept (fst run)
       = (UserDashboard.slept st
          ++ map (fun attempt => (1000 * Z.of_nat attempt)%Z) (seq 1 k))%list
    /\ UserDashboard.dataLoaded (fst run) = true
    /\ UserDashboard.isLoading (fst run) = false
    /\ snd run = net.
Proof.
  intros production r k now table net st Hk run.
  pose proof (attemptFetch_after_failures (UserDashboard.updatesQuery r)
                (UserDashboard.maxRetriesOf production) now table net k 0 Hk)
    as Htrial.
  destruct (fetchUserUpdates_data production r
              (repeat Store.Failed k ++ Store.Served now table :: net)%list st
              now (Store.run (UserDashboard.updatesQuery r) table))
    as (Hupd & Htoasts & Hload & Hloaded & _ & _ & _ & Hslept);
    [rewrite Htrial; reflexivity|].
  rewrite Htrial in Hslept.
  split; [exact Hupd|]. split; [exact Htoasts|]. split; [exact Hslept|].
  split; [exact Hloaded|]. split; [exact Hload|].
  subst run. rewrite fetchUserUpdates_rest, Htrial. reflexivity.
Qed.

Lemma retry_until_served_witness :
  let alice := Some (mkUser "alice@aditi.test" "Alice" "user") in
  let u := DailyUpdate.mk "u1" "alice@aditi.test" (Some "t1") 0 "to-do"
                          None None None in
  let st := UserDashboard.mount alice 0 in
  let run := UserDashboard.fetchUserUpdates true (UserDashboard.render st)
               [Store.Failed; Store.Served 5 [u]; Store.Failed] st in
  (1 < UserDashboard.maxRetriesOf true)%nat
  /\ UserDashboard.userUpdates (fst run) = [u]
  /\ UserDashboard.slept (fst run) = [1000%Z]
  /\ snd run = [Store.Failed].
Proof.
  intros alice u st run.
  assert (Hk : (1 < UserDashboard.maxRetriesOf true)%nat) by (cbn; lia).
  destruct (retry_until_served true (UserDashboard.render st) 1 5 [u]
              [Store.Failed] st Hk)
    as (Hupd & _ & Hslept & _ & _ & Hrest).
  split; [exact Hk|]. split; [exact Hupd|]. split; [exact Hslept|exact Hrest].
Defined.

(** X14. Once the budget of attempts is spent on failures the fetch gives
    up without reading further: the outcomes that follow, a served answer
    included, stay unread, the fetched set is emptied and the one error
    toast is shown. *)
Theorem answer_beyond_budget_is_not_read :
  forall (production : bool) (r : UserDashboard.Render)
         (net : list Store.Outcome) (st : UserDashboard.State),
    let run := UserDashboard.fetchUserUpdates production r
                 (repeat Store.Failed (UserDashboard.maxRetriesOf production)
                  ++ net)%list st in
    snd run = net
    /\ UserDashboard.userUpdates (fst run) = []
    /\ UserDashboard.dataLoaded (fst run) = UserDashboard.dataLoaded st
    /\ UserDashboard.toasts (fst run)
       = (UserDashboard.toasts st ++ [ToastError "Failed to load your updates"])%list.
Proof.
  intros production r net st run.
  assert (Hbudget : exists left_,
             UserDashboard.maxRetriesOf production = S left_
             /\ S left_ = (UserDashboard.maxRetriesOf production - 0)%nat)
    by (destruct production; eexists; split; reflexivity).
  destruct Hbudget as (left_ & Hm & Hleft).
  pose proof (attemptFetch_budget_spent (UserDashboard.updatesQuery r)
                (UserDashboard.maxRetriesOf production) net left_ 0 Hleft)
    as Htrial.
  rewrite <- Hm in Htrial.
  destruct (fetchUserUpdates_thrown production r
              (repeat Store.Failed (UserDashboard.maxRetriesOf production) ++ net)%list
              st)
    as (Hupd & _ & _ & Htoasts & _); [rewrite Htrial; reflexivity|].
  split; [subst run; rewrite fetchUserUpdates_rest, Htrial; reflexivity|].
  split; [exact Hupd|]. split; [|exact Htoasts].
  subst run. unfold UserDashboard.fetchUserUpdates.
  cbn [UserDashboard.setTimeout]. rewrite Htrial.
  destruct (UserDashboard.r_loadingTimeout r); reflexivity.
Qed.

Lemma totalDelay_backoff (k : nat) :
  (k <= 2)%nat -> (0 <= totalDelay (backoff 0 k) <= 3000)%Z.
Proof.
  intros Hk. destruct k as [|[|[|k]]]; try lia; cbn; lia.
Qed.

(** X15. The retries of a fetch add at most 3 seconds of waiting in
    production and none otherwise, whatever the store answers. *)
Theorem backoff_is_bounded :
  forall (production : bool) (r : UserDashboard.Render)
         (net : list Store.Outcome) (st : UserDashboard.State),
    exists awaited,
      UserDashboard.slept (fst (UserDashboard.fetchUserUpdates production r net st))
      = (UserDashboard.slept st ++ awaited)%list
      /\ (0 <= totalDelay awaited <= if production then 3000 else 0)%Z.
Proof.
  intros production r net st.
  exists (UserDashboard.waits
            (UserDashboard.attemptFetch (UserDashboard.updatesQuery r)
               (UserDashboard.maxRetriesOf production) 0 net)).
  split.
  - unfold UserDashboard.fetchUserUpdates. cbn [UserDashboard.setTimeout].
    destruct (UserDashboard.r_loadingTimeout r),
      (UserDashboard.result
         (UserDashboard.attemptFetch (UserDashboard.updatesQuery r)
            (UserDashboard.maxRetriesOf production) 0 net));
      reflexivity.
  - destruct (attemptFetch_backoff (UserDashboard.updatesQuery r)
                (UserDashboard.maxRetriesOf production)
                (UserDashboard.maxRetriesOf production) 0 net)
      as [Hw Hlen]; [lia|].
    rewrite Hw.
    destruct production; unfold UserDashboard.maxRetriesOf in Hlen |- *.
    + apply totalDelay_backoff. lia.
    + replace (List.length _) with 0%nat by lia. cbn. lia.
Qed.

(** ** Manual refresh and the watchdog of the employee view *)

(** X16. A manual refresh of the employee view reports success also when
    the fetch it awaits fails on every attempt: [fetchUserUpdates]
    catches its own failure, so the toast 'Data refreshed successfully'
    follows the error toast, over an emptied display, and the refreshing
    flag is released. *)
Theorem refresh_reports_success_after_failed_fetch :
  forall (production : bool) (r : UserDashboard.Render)
         (net : list Store.Outcome) (st : UserDashboard.State),
    allFail (UserDashboard.maxRetriesOf production) net ->
    let st' := fst (UserDashboard.refreshData production r net st) in
    UserDashboard.toasts st'
    = (UserDashboard.toasts st
       ++ [ToastError "Failed to load your updates";
           ToastSuccess "Data refreshed successfully"])%list
    /\ UserDashboard.userUpdates st' = []
    /\ UserDashboard.filteredUpdates st' = []
    /\ UserDashboard.isRefreshing st' = false
    /\ UserDashboard.isLoading st' = false.
Proof.
  intros production r net st Hfail st'.
  assert (Hbudget : exists left_,
             S left_ = (UserDashboard.maxRetriesOf production - 0)%nat)
    by (destruct production; eexists; reflexivity).
  destruct Hbudget as [left_ Hleft].
  destruct (attemptFetch_exhausted (UserDashboard.updatesQuery r)
              (UserDashboard.maxRetriesOf production) left_ 0 net Hleft)
    as (Hres & _ & _); [rewrite Hleft, Nat.sub_0_r; exact Hfail|].
  destruct (fetchUserUpdates_thrown production r net
              (UserDashboard.setIsRefreshing true st) Hres)
    as (Hupd & Hrows & _ & Htoasts & Hload & _).
  subst st'. unfold UserDashboard.refreshData.
  destruct (UserDashboard.fetchUserUpdates production r net
              (UserDashboard.setIsRefreshing true st)) as [st1 net1].
  cbn [fst] in *.
  change (UserDashboard.toasts (UserDashboard.setIsRefreshing true st))
    with (UserDashboard.toasts st) in Htoasts.
  split; [|repeat split; assumption].
  change (UserDashboard.toasts st1 ++ [ToastSuccess "Data refreshed successfully"]
          = UserDashboard.toasts st
            ++ [ToastError "Failed to load your updates";
                ToastSuccess "Data refreshed successfully"])%list.
  rewrite Htoasts, <- app_assoc. reflexivity.
Qed.

Lemma refresh_reports_success_after_failed_fetch_witness :
  let alice := Some (mkUser "alice@aditi.test" "Alice" "user") in
  let st := UserDashboard.mount alice 0 in
  allFail (UserDashboard.maxRetriesOf false) [Store.Failed]
  /\ UserDashboard.toasts
       (fst (UserDashboard.refreshData false (UserDashboard.render st)
               [Store.Failed] st))
     = [ToastError "Failed to load your updates";
        ToastSuccess "Data refreshed successfully"].
Proof.
  intros alice st.
  assert (Hfail : allFail (UserDashboard.maxRetriesOf false) [Store.Failed])
    by (repeat constructor).
  split; [exact Hfail|].
  exact (proj1 (refresh_reports_success_after_failed_fetch false
                  (UserDashboard.render st) [Store.Failed] st Hfail)).
Defined.

(** X17. The watchdog a fetch starts is not cancelled by that fetch: the
    handler clears the timer its render had on record, never the one it
    has just started.  Whatever the store answers, the watchdog is still
    pending when the fetch settles; and when the render had a timer on
    record the state ends with none, so the pending watchdog is on
    record nowhere. *)
Theorem watchdog_outlives_the_fetch :
  forall (production : bool) (r : UserDashboard.Render)
         (net : list Store.Outcome) (st : UserDashboard.State),
    UserDashboard.r_loadingTimeout r <> Some (UserDashboard.nextTimerId st) ->
    let st' := fst (UserDashboard.fetchUserUpdates production r net st) in
    In (UserDashboard.mkTimer (UserDashboard.nextTimerId st)
          (if production then 20000 else 15000) UserDashboard.LoadingTimedOut)
       (UserDashboard.timers st')
    /\ UserDashboard.loadingTimeout st'
       = match UserDashboard.r_loadingTimeout r with
         | Some _ => None
         | None => Some (UserDashboard.nextTimerId st)
         end.
Proof.
  intros production r net st Hfresh st'. subst st'.
  unfold UserDashboard.fetchUserUpdates. cbn [UserDashboard.setTimeout].
  set (t := UserDashboard.attemptFetch _ _ _ _). clearbody t.
  set (w := UserDashboard.mkTimer _ _ _).
  set (d := UserDashboard.mkTimer (S (UserDashboard.nextTimerId st)) 100
              (UserDashboard.DeferredApplyFilters r)).
  assert (Hw : In w (UserDashboard.timers st ++ [w])%list)
    by (apply in_or_app; right; left; reflexivity).
  destruct (UserDashboard.r_loadingTimeout r) as [old|].
  - set (keep := fun t0 => negb (UserDashboard.timerId t0 =? old)%nat).
    assert (Hkeep : keep w = true).
    { subst keep w. cbn [UserDashboard.timerId].
      apply negb_true_iff, Nat.eqb_neq. intros Heq. apply Hfresh.
      now rewrite Heq. }
    split; [|destruct (UserDashboard.result t); reflexivity].
    destruct (UserDashboard.result t); cbn [fst].
    + change (In w (filter keep
                      (filter keep (UserDashboard.timers st ++ [w]) ++ [d]))%list).
      apply filter_In. split; [|exact Hkeep].
      apply in_or_app. left. apply filter_In. split; [exact Hw|exact Hkeep].
    + change (In w (filter keep
                      (filter keep (UserDashboard.timers st ++ [w])))%list).
      apply filter_In. split; [|exact Hkeep].
      apply filter_In. split; [exact Hw|exact Hkeep].
    + change (In w (filter keep
                      (filter keep (UserDashboard.timers st ++ [w])))%list).
      apply filter_In. split; [|exact Hkeep].
      apply filter_In. split; [exact Hw|exact Hkeep].
  - split; [|destruct (UserDashboard.result t); reflexivity].
    destruct (UserDashboard.result t); cbn [fst].
    + change (In w ((UserDashboard.timers st ++ [w]) ++ [d])%list).
      apply in_or_app. left. exact Hw.
    + exact Hw.
    + exact Hw.
Qed.

Lemma watchdog_outlives_the_fetch_witness :
  let alice := Some (mkUser "alice@aditi.test" "Alice" "user") in
  let st := UserDashboard.setLoadingTimeout (Some 0%nat)
              (UserDashboard.mount alice 0) in
  let st' := fst (UserDashboard.fetchUserUpdates true (UserDashboard.render st)
                    [Store.Served 5 []] st) in
  UserDashboard.r_loadingTimeout (UserDashboard.render st)
  <> Some (UserDashboard.nextTimerId st)
  /\ In (UserDashboard.mkTimer 1 20000 UserDashboard.LoadingTimedOut)
        (UserDashboard.timers st')
  /\ UserDashboard.loadingTimeout st' = None.
Proof.
  intros alice st st'.
  assert (Hfresh : UserDashboard.r_loadingTimeout (UserDashboard.render st)
                   <> Some (UserDashboard.nextTimerId st)) by discriminate.
  split; [exact Hfresh|].
  exact (watchdog_outlives_the_fetch true (UserDashboard.render st)
           [Store.Served 5 []] st Hfresh).
Defined.

(** ** The fetch of the manager view *)

(** The toast of the [catch] of [fetchTeamsBasedOnRole], line 1117. *)
Lemma teamsFailed_shows (st : Dashboard.State) :
  Dashboard.loadingFailed (Dashboard.teamsFailed st) = true
  /\ In (ToastError "Failed to load teams")
        (Dashboard.toasts (Dashboard.teamsFailed st)).
Proof.
  split; [reflexivity|].
  change (In (ToastError "Failed to load teams")
            (Dashboard.toasts st ++ [ToastError "Failed to load teams"])%list).
  apply in_or_app. right. left. reflexivity.
Qed.

(** The tail of [fetchData] once the teams step is over, whatever the
    update query answers: it never lowers the failure flag and drops no
    toast. *)
Lemma fetchData_tail (r : Dashboard.Render) (teamFilter : string)
  (outcome : Store.Outcome) (toast0 : Toast) (st : Dashboard.State) :
  let st1 := match Dashboard.r_loadingTimeout r with
             | Some t => Dashboard.clearTimeout t st
             | None => st
             end in
  let st2 := Dashboard.setLoadingTimeout
               (Some (fst (Dashboard.setTimeout Dashboard.DataTimedOut 20000 st1)))
               (snd (Dashboard.setTimeout Dashboard.DataTimedOut 20000 st1)) in
  let st3 :=
    match outcome with
    | Store.Served now table =>
        Dashboard.setDataLoaded true
          (Dashboard.setLastRefreshed (Some now)
             (Dashboard.setHistoricalData
                (Dashboard.cleanData
                   (Store.run (Dashboard.updatesQuery r teamFilter) table)) st2))
    | Store.NoData => st2
    | Store.Failed =>
        Dashboard.setLoadingFailed true
          (Dashboard.toast (ToastError "Failed to load data. Please try again.") st2)
    end in
  let st4 := Dashboard.setIsLoading false st3 in
  let st5 := match Dashboard.r_loadingTimeout r with
             | Some t => Dashboard.setLoadingTimeout None (Dashboard.clearTimeout t st4)
             | None => st4
             end in
  Dashboard.loadingFailed st = true ->
  In toast0 (Dashboard.toasts st) ->
  Dashboard.loadingFailed st5 = true
  /\ Dashboard.isLoading st5 = false
  /\ In toast0 (Dashboard.toasts st5).
Proof.
  intros st1 st2 st3 st4 st5 Hfailed Hin.
  subst st5 st4 st3 st2 st1.
  destruct (Dashboard.r_loadingTimeout r), outcome;
    (split; [first [exact Hfailed | reflexivity]|]);
    (split; [reflexivity|]);
    first
      [ exact Hin
      | change (In toast0
                  (Dashboard.toasts st
                   ++ [ToastError "Failed to load data. Please try again."])%list);
        apply in_or_app; left; exact Hin ].
Qed.

Lemma fetch_ends_on_failure_screen (fuel : nat) :
  (forall r teamFilter net st st' net',
      roleIs (Dashboard.r_user r) "admin" || roleIs (Dashboard.r_user r) "manager"
      = true ->
      Dashboard.fetchData fuel r teamFilter net st = Some (st', net') ->
      Dashboard.loadingFailed st' = true
      /\ Dashboard.isLoading st' = false
      /\ In (ToastError "Failed to load teams") (Dashboard.toasts st'))
  /\ (forall r net st st' net',
         roleIs (Dashboard.r_user r) "admin" || roleIs (Dashboard.r_user r) "manager"
         = true ->
         Dashboard.fetchTeamsBasedOnRole fuel r net st = Some (st', net') ->
         Dashboard.loadingFailed st' = true
         /\ In (ToastError "Failed to load teams") (Dashboard.toasts st')).
Proof.
  induction fuel as [|fuel [IHdata IHteams]]; [split; discriminate|].
  split.
  - intros r teamFilter net st st' net' Hrole Hrun.
    cbn [Dashboard.fetchData] in Hrun.
    destruct (Dashboard.r_user r) as [actor|] eqn:Huser; [|discriminate].
    destruct (Dashboard.fetchTeamsBasedOnRole fuel r net _)
      as [[st1 net1]|] eqn:Hteams; [|discriminate].
    apply IHteams in Hteams as [Hfailed Hin]; [|rewrite Huser; exact Hrole].
    destruct (Dashboard.nextUpdates net1) as [outcome net2].
    cbn [Dashboard.setTimeout] in Hrun.
    injection Hrun as <- <-.
    pose proof (fetchData_tail r teamFilter outcome
                  (ToastError "Failed to load teams") st1) as Htail.
    cbn [Dashboard.setTimeout fst snd] in Htail.
    exact (Htail Hfailed Hin).
  - intros r net st st' net' Hrole Hrun.
    cbn [Dashboard.fetchTeamsBasedOnRole] in Hrun.
    destruct (Dashboard.r_user r) as [actor|] eqn:Huser; [|discriminate].
    assert (Hserved : forall teamFilter net1 st1,
               Dashboard.fetchData fuel r teamFilter net1 st1 = Some (st', net') ->
               Dashboard.loadingFailed st' = true
               /\ In (ToastError "Failed to load teams") (Dashboard.toasts st')).
    { intros teamFilter net1 st1 Hdata.
      apply IHdata in Hdata as (H1 & _ & H3); [|rewrite Huser; exact Hrole].
      split; assumption. }
    cbn [roleIs] in Hrole.
    destruct (role actor =? "admin").
    + destruct (Dashboard.nextTeams net) as [[|data] net1].
      * injection Hrun as <- <-. apply teamsFailed_shows.
      * eapply Hserved; exact Hrun.
    + destruct (role actor =? "manager"); [|discriminate].
      destruct (Dashboard.nextTeams net) as [[|data] net1].
      * injection Hrun as <- <-. apply teamsFailed_shows.
      * destruct data as [[|team [|team' ts]]|]; eapply Hserved; exact Hrun.
Qed.

(** X18. For an admin or a manager every run of [fetchData] that returns
    ends on the loading-failed screen, whatever the update store answers:
    [fetchData] awaits [fetchTeamsBasedOnRole], which awaits [fetchData]
    again after each served team query, so the run unwinds only from a
    failed team query, whose [catch] raises the failure flag; nothing on
    the way back lowers it.  With finitely many team answers on record
    the run returns. *)
Theorem manager_fetch_ends_on_failure_screen :
  forall (r : Dashboard.Render) (teamFilter : string) (net : Dashboard.Net)
         (st : Dashboard.State),
    roleIs (Dashboard.r_user r) "admin" || roleIs (Dashboard.r_user r) "manager"
    = true ->
    exists st' net',
      Dashboard.fetchData (2 * List.length (Dashboard.teamsNet net) + 2)
                          r teamFilter net st
      = Some (st', net')
      /\ Dashboard.loadingFailed st' = true
      /\ Dashboard.isLoading st' = false
      /\ In (ToastError "Failed to load teams") (Dashboard.toasts st').
Proof.
  intros r teamFilter net st Hrole.
  destruct (proj1 (fetch_returns _) r teamFilter net st (le_n _))
    as [[st' net'] Hrun].
  exists st', net'. split; [exact Hrun|].
  exact (proj1 (fetch_ends_on_failure_screen _) r teamFilter net st st' net'
           Hrole Hrun).
Qed.

Lemma manager_fetch_ends_on_failure_screen_witness :
  let admin := Some (mkUser "root@aditi.test" "Root" "admin") in
  let u := DailyUpdate.mk "u1" "alice@aditi.test" (Some "t1") 0 "to-do"
                          None None None in
  let st := Dashboard.mount admin 0 in
  let net := Dashboard.mkNet [Dashboard.TeamsServed (Some [])]
                             [Store.Served 5 [u]; Store.Served 6 [u]] in
  exists st' net',
    Dashboard.fetchData 4 (Dashboard.render st) "" net st = Some (st', net')
    /\ Dashboard.loadingFailed st' = true
    /\ Dashboard.isLoading st' = false
    /\ In (ToastError "Failed to load teams") (Dashboard.toasts st').
Proof.
  intros admin u st net.
  exact (manager_fetch_ends_on_failure_screen (Dashboard.render st) "" net st
           eq_refl).
Defined.

(** ** The local recovery cache *)

Lemma recovered_shape (data : list DailyUpdate.t) (st : Dashboard.State) :
  let st' := Dashboard.recovered data st in
  Dashboard.historicalData st' = data
  /\ Dashboard.filteredData st' = data
  /\ Dashboard.stats st' = Dashboard.stats (Dashboard.calculateStats data st)
  /\ Dashboard.dataLoaded st' = true
  /\ Dashboard.loadingFailed st' = false
  /\ Dashboard.activeTab st' = Dashboard.activeTab st
  /\ Dashboard.selectedTeam st' = Dashboard.selectedTeam st
  /\ Dashboard.dateRange st' = Dashboard.dateRange st
  /\ Dashboard.toasts st' = Dashboard.toasts st.
Proof. repeat split; reflexivity. Qed.

Lemma split_go_head (sep : string) :
  forall (s cur : string),
    exists tail rest, Js.split_go sep 0 cur s = Js.rev_string tail cur :: rest.
Proof.
  induction s as [|c s IH]; intros cur.
  - exists "", []. reflexivity.
  - cbn [Js.split_go].
    destruct (String.prefix sep (String c s)).
    + eexists "", _. reflexivity.
    + destruct (IH (String c cur)) as (tail & rest & ->).
      exists (String c tail), rest. reflexivity.
Qed.

(** [key.split('dashboard_')[1].split('_')[0]] on the keys of this cache:
    the word that follows the prefix, not the email. *)
Lemma key_scan_word (word rest : string) :
  word = "teams" \/ word = "historicalData" ->
  nth 0 (Js.split (nth 1 (Js.split ("dashboard_" ++ word ++ "_" ++ rest)
                             "dashboard_") "") "_") ""
  = word.
Proof.
  intros [-> | ->]; unfold Js.split; cbn;
    match goal with |- context [Js.split_go ?sep 0 ?cur rest] =>
      destruct (split_go_head sep rest cur) as (tail & pieces & ->) end;
    destruct tail; reflexivity.
Qed.

Section RecoveryFurther.

Variable JSON_parse_email : string -> option string.
Variable JSON_parse_updates : string -> option (list DailyUpdate.t).
Variable parseInt : string -> option Z.

Lemma recoverOldFormat_shape (storage : Dashboard.Storage) (userEmail : string)
  (st : Dashboard.State) :
  let run := Dashboard.recoverOldFormat JSON_parse_updates storage userEmail st in
  if fst run
  then exists data, snd run = Dashboard.recovered data st
  else snd run = st.
Proof.
  unfold Dashboard.recoverOldFormat.
  destruct (Dashboard.getTruthy storage _) as [oldDataStr|]; [|reflexivity].
  destruct (JSON_parse_updates oldDataStr) as [parsedData|]; [|reflexivity].
  exists parsedData. reflexivity.
Qed.

Lemma tryRecover_shape (storage : Dashboard.Storage) (st : Dashboard.State) :
  let run := Dashboard.tryRecoverFromLocalStorage
               JSON_parse_email JSON_parse_updates parseInt storage st in
  if fst run
  then exists data, snd run = Dashboard.recovered data st
  else snd run = st.
Proof.
  unfold Dashboard.tryRecoverFromLocalStorage.
  destruct (Dashboard.recoverUserEmail JSON_parse_email storage)
    as [userEmail|]; [|reflexivity].
  destruct (Js.truthy userEmail); [|reflexivity].
  destruct (Dashboard.getTruthy storage _) as [chunkCountStr|];
    [|apply recoverOldFormat_shape].
  destruct (Dashboard.loadChunks _ _ _ _ _ _) as [combinedData|]; [|reflexivity].
  destruct (0 <? List.length combinedData)%nat; [|apply recoverOldFormat_shape].
  exists combinedData. reflexivity.
Qed.

(** X19. The recovery from the local cache is all or nothing.  When it
    reports failure it has written nothing.  When it reports success the
    recovered set is both the fetched set and the rows on display, whole:
    the tab, the team and the date range in force are not applied to it;
    the stats are those of the whole set, the data count as
    loaded, the failure flag is lowered and no toast is shown. *)
Theorem recovery_is_all_or_nothing :
  forall (storage : Dashboard.Storage) (st : Dashboard.State),
    let run := Dashboard.tryRecoverFromLocalStorage
                 JSON_parse_email JSON_parse_updates parseInt storage st in
    let st' := snd run in
    if fst run
    then Dashboard.filteredData st' = Dashboard.historicalData st'
         /\ Dashboard.stats st'
            = Dashboard.stats
                (Dashboard.calculateStats (Dashboard.historicalData st') st)
         /\ Dashboard.dataLoaded st' = true
         /\ Dashboard.loadingFailed st' = false
         /\ Dashboard.activeTab st' = Dashboard.activeTab st
         /\ Dashboard.selectedTeam st' = Dashboard.selectedTeam st
         /\ Dashboard.dateRange st' = Dashboard.dateRange st
         /\ Dashboard.toasts st' = Dashboard.toasts st
    else st' = st.
Proof.
  intros storage st run st'.
  pose proof (tryRecover_shape storage st) as Hshape.
  fold run in Hshape. cbv zeta in Hshape. fold st' in Hshape.
  destruct (fst run); [|exact Hshape].
  destruct Hshape as [data ->].
  destruct (recovered_shape data st)
    as (H1 & H2 & H3 & H4 & H5 & H6 & H7 & H8 & H9).
  rewrite H1, H2. repeat split; assumption.
Qed.

Lemma loadChunks_malformed (storage : Dashboard.Storage) (userEmail : string)
  (j : nat) (chunkData : string) :
  Dashboard.getTruthy storage (Dashboard.chunkKey j userEmail) = Some chunkData ->
  JSON_parse_updates chunkData = None ->
  forall (todo i : nat) (combinedData : list DailyUpdate.t),
    (i <= j < i + todo)%nat ->
    Dashboard.loadChunks JSON_parse_updates storage userEmail todo i combinedData
    = None.
Proof.
  intros Hget Hparse.
  induction todo as [|todo IH]; intros i combinedData Hj; [lia|].
  cbn [Dashboard.loadChunks].
  destruct (Nat.eq_dec i j) as [->|Hne].
  - now rewrite Hget, Hparse.
  - destruct (Dashboard.getTruthy storage (Dashboard.chunkKey i userEmail))
      as [c|]; [destruct (JSON_parse_updates c); [|reflexivity]|];
      apply IH; lia.
Qed.

(** X20. One stored chunk below the chunk count that does not parse ends
    the recovery with nothing recovered: the exception leaves the loop
    for the outer [catch], so the chunks that do parse are dropped and
    the legacy whole-set entry is not read, valid as it may be. *)
Theorem malformed_chunk_discards_the_cache :
  forall (storage : Dashboard.Storage) (st : Dashboard.State)
         (userEmail : string) (count j : nat) (chunkData : string),
    Dashboard.recoverUserEmail JSON_parse_email storage = Some userEmail ->
    Js.truthy userEmail = true ->
    storedChunkCount parseInt storage userEmail = Some count ->
    (j < count)%nat ->
    Dashboard.getTruthy storage (Dashboard.chunkKey j userEmail) = Some chunkData ->
    JSON_parse_updates chunkData = None ->
    Dashboard.tryRecoverFromLocalStorage
      JSON_parse_email JSON_parse_updates parseInt storage st
    = (false, st).
Proof.
  intros storage st userEmail count j chunkData Hemail Htruthy Hcount Hj
         Hget Hparse.
  unfold Dashboard.tryRecoverFromLocalStorage, storedChunkCount in *.
  rewrite Hemail, Htruthy.
  destruct (Dashboard.getTruthy storage
              ("dashboard_historicalData_chunkCount_" ++ userEmail))
    as [chunkCountStr|]; [|discriminate].
  injection Hcount as Hcount. rewrite Hcount.
  rewrite (loadChunks_malformed storage userEmail j chunkData Hget Hparse)
    by lia.
  reflexivity.
Qed.

(** X21. Without a usable cached user record the recovery reads the user
    email off the first cache key that starts with 'dashboard_' and holds
    an '@'.  On the keys of this cache, 'dashboard_teams_<email>' (the
    one this page writes) and 'dashboard_historicalData_...', the
    expression [key.split('dashboard_')[1].split('_')[0]] gives the word
    after the prefix, 'teams' or 'historicalData', for every email. *)
Theorem key_scan_yields_the_entry_kind :
  forall (storage : Dashboard.Storage) (word rest : string),
    word = "teams" \/ word = "historicalData" ->
    Js.truthyOpt
      match Dashboard.getTruthy storage "aditi_user_cache" with
      | Some cachedUser => JSON_parse_email cachedUser
      | None => None
      end = false ->
    find (fun key => Js.startsWith key "dashboard_" && Js.includes key "@")
         (map fst storage)
    = Some ("dashboard_" ++ word ++ "_" ++ rest) ->
    Dashboard.recoverUserEmail JSON_parse_email storage = Some word.
Proof.
  intros storage word rest Hword Hcache Hfind.
  unfold Dashboard.recoverUserEmail.
  rewrite Hcache. cbn [negb]. rewrite Hfind.
  now rewrite (key_scan_word word rest Hword).
Qed.

End RecoveryFurther.

Lemma malformed_chunk_discards_the_cache_witness :
  let storage := sampleStorage "[u1" in
  let st := Dashboard.mount None 0 in
  Dashboard.getTruthy storage "dashboard_historicalData_alice@aditi.test"
  = Some "[u0]"
  /\ sampleParseUpdates "[u0]" = Some [cachedUpdate "u0"]
  /\ Dashboard.tryRecoverFromLocalStorage
       sampleParseEmail sampleParseUpdates sampleParseInt storage st
     = (false, st).
Proof.
  intros storage st.
  split; [reflexivity|]. split; [reflexivity|].
  apply (malformed_chunk_discards_the_cache sampleParseEmail sampleParseUpdates
           sampleParseInt storage st "alice@aditi.test" 2 0 "[u1");
    [reflexivity | reflexivity | reflexivity | lia | reflexivity | reflexivity].
Defined.

Lemma key_scan_yields_the_entry_kind_witness :
  let storage := [("dashboard_teams_alice@aditi.test", "[]")] in
  Dashboard.recoverUserEmail sampleParseEmail storage = Some "teams".
Proof.
  intros storage.
  apply (key_scan_yields_the_entry_kind sampleParseEmail storage "teams"
           "alice@aditi.test");
    [left; reflexivity | reflexivity | reflexivity].
Defined.

(** ** The periodic refresh and the cache reset of the manager view *)

Lemma refreshTimes_count (ticks : list (Z * bool)) :
  forall (lastRefreshTime horizon : Z),
    (lastRefreshTime <= horizon)%Z ->
    Forall (fun tick => (fst tick <= horizon)%Z) ticks ->
    (Z.of_nat (List.length (Dashboard.refreshTimes ticks lastRefreshTime))
     * Dashboard.refreshInterval <= horizon - lastRefreshTime)%Z.
Proof.
  induction ticks as [|[now visible] ticks IH];
    intros lastRefreshTime horizon Hlast Hticks.
  - cbn. lia.
  - inversion Hticks as [|tick ticks' Hnow Hrest]; subst. cbn [fst] in Hnow.
    cbn [Dashboard.refreshTimes]. rewrite onInterval_spec.
    destruct visible; cbn [andb]; [|now apply IH].
    destruct (Z.leb_spec (lastRefreshTime + Dashboard.refreshInterval) now);
      [|now apply IH].
    specialize (IH now horizon Hnow Hrest).
    cbn [List.length]. lia.
Qed.

(** X22. The periodic refresh is rate limited: however often the interval
    callback runs and whatever the visibility it finds, the number of
    silent fetches it has issued by an instant, times 5 minutes, is at
    most the time elapsed since the effect was installed. *)
Theorem refresh_rate_is_bounded :
  forall (ticks : list (Z * bool)) (installed horizon : Z),
    (installed <= horizon)%Z ->
    Forall (fun tick => (fst tick <= horizon)%Z) ticks ->
    (Z.of_nat (List.length (Dashboard.refreshTimes ticks installed)) * 300000
     <= horizon - installed)%Z.
Proof.
  intros ticks installed horizon Hlast Hticks.
  exact (refreshTimes_count ticks installed horizon Hlast Hticks).
Qed.

Lemma refresh_rate_is_bounded_witness :
  let ticks := [(300000, true); (330000, true); (600000, false);
                (630000, true)]%Z in
  Dashboard.refreshTimes ticks 0 = [300000; 630000]%Z
  /\ (Z.of_nat (List.length (Dashboard.refreshTimes ticks 0)) * 300000
      <= 630000 - 0)%Z.
Proof.
  intros ticks. split; [reflexivity|].
  apply (refresh_rate_is_bounded ticks 0 630000); [lia|].
  repeat constructor; cbn; lia.
Defined.

(** X23. 'Clear Cache' empties the table before it fetches, and the
    fetch of the manager view writes the data only when its query is
    served: with every update query failing, the button leaves no fetched
    row and no row on display, whatever was shown before, and the toast
    'Fetching fresh data...' comes before the toasts of the failure. *)
Theorem clear_cache_with_failing_store_empties_the_table :
  forall (r : Dashboard.Render) (net : Dashboard.Net) (st : Dashboard.State),
    updatesAllFail net ->
    exists st' net',
      Dashboard.clearCache (2 * List.length (Dashboard.teamsNet net) + 2) r net st
      = Some (st', net')
      /\ Dashboard.historicalData st' = []
      /\ Dashboard.filteredData st' = []
      /\ Dashboard.stats st' = Dashboard.stats st
      /\ exists shown,
          Dashboard.toasts st'
          = (Dashboard.toasts st
             ++ ToastSuccess "Fetching fresh data..." :: shown)%list.
Proof.
  intros r net st Hfail. unfold Dashboard.clearCache.
  set (st0 := Dashboard.toast _ _).
  destruct (proj1 (fetch_returns _) r (Dashboard.r_selectedTeam r) net st0
              (le_n _)) as [[st' net'] Hrun].
  exists st', net'. split; [exact Hrun|].
  apply (proj1 (fetch_frame _)) in Hrun as ((H1 & H2 & H3 & shown & H4) & _);
    [|exact Hfail].
  split; [rewrite H1; reflexivity|].
  split; [rewrite H2; reflexivity|].
  split; [rewrite H3; reflexivity|].
  exists shown. rewrite H4.
  change (Dashboard.toasts st0)
    with (Dashboard.toasts st ++ [ToastSuccess "Fetching fresh data..."])%list.
  now rewrite <- app_assoc.
Qed.

Lemma clear_cache_with_failing_store_empties_the_table_witness :
  let admin := Some (mkUser "root@aditi.test" "Root" "admin") in
  let u := DailyUpdate.mk "u1" "alice@aditi.test" (Some "t1") 0 "to-do"
                          None None None in
  let st := Dashboard.applyFiltersEffect 0
              (Dashboard.setHistoricalData [u] (Dashboard.mount admin 0)) in
  let net := Dashboard.mkNet [] [] in
  Dashboard.filteredData st = [u]
  /\ updatesAllFail net
  /\ exists st' net',
      Dashboard.clearCache 2 (Dashboard.render st) net st = Some (st', net')
      /\ Dashboard.historicalData st' = []
      /\ Dashboard.filteredData st' = [].
Proof.
  intros admin u st net.
  assert (Hfail : updatesAllFail net) by constructor.
  split; [reflexivity|]. split; [exact Hfail|].
  destruct (clear_cache_with_failing_store_empties_the_table
              (Dashboard.render st) net st Hfail)
    as (st' & net' & Hrun & H1 & H2 & _).
  exists st', net'. split; [exact Hrun|]. split; assumption.
Defined.

(** ** Pagination, expanded rows, the tab id and the CSV export *)

(** X24. With the current page within [1, totalPages], the page buttons
    of the manager view are the [min 5 totalPages] consecutive page
    numbers from the first button on, all of them pages that exist, the
    current page among them; 'Previous' and 'Next' stay within the
    pages. *)
Theorem page_buttons_stay_in_range :
  forall (totalPages currentPage : Z),
    (1 <= currentPage <= totalPages)%Z ->
    let first := Dashboard.pageNum totalPages currentPage 0 in
    (forall p, In p (Dashboard.pageButtons totalPages currentPage)
               <-> (first <= p < first + Z.min 5 totalPages)%Z)
    /\ (1 <= first)%Z
    /\ (first + Z.min 5 totalPages - 1 <= totalPages)%Z
    /\ In currentPage (Dashboard.pageButtons totalPages currentPage)
    /\ (1 <= Dashboard.previousPage currentPage <= totalPages)%Z
    /\ (1 <= Dashboard.nextPage totalPages currentPage <= totalPages)%Z.
Proof.
  intros totalPages currentPage Hpage first.
  assert (Hin : forall p, In p (Dashboard.pageButtons totalPages currentPage)
                          <-> (first <= p < first + Z.min 5 totalPages)%Z).
  { intros p. unfold Dashboard.pageButtons. rewrite in_map_iff. split.
    - intros (i & <- & Hi%in_seq). subst first. unfold Dashboard.pageNum.
      destruct (totalPages <=? 5)%Z, (currentPage <=? 3)%Z,
        (totalPages - 2 <=? currentPage)%Z; lia.
    - intros Hp. exists (Z.to_nat (p - first)). rewrite in_seq. split; [|lia].
      subst first. unfold Dashboard.pageNum in *.
      destruct (totalPages <=? 5)%Z, (currentPage <=? 3)%Z,
        (totalPages - 2 <=? currentPage)%Z; lia. }
  assert (Hfirst : (1 <= first
                    /\ first + Z.min 5 totalPages - 1 <= totalPages
                    /\ first <= currentPage < first + Z.min 5 totalPages)%Z).
  { subst first. unfold Dashboard.pageNum.
    destruct (Z.leb_spec totalPages 5), (Z.leb_spec currentPage 3),
      (Z.leb_spec (totalPages - 2) currentPage); lia. }
  split; [exact Hin|]. split; [lia|]. split; [lia|].
  split; [apply Hin; lia|].
  unfold Dashboard.previousPage, Dashboard.nextPage. lia.
Qed.

Lemma page_buttons_stay_in_range_witness :
  Dashboard.pageButtons 9 7 = [5; 6; 7; 8; 9]%Z
  /\ In 7%Z (Dashboard.pageButtons 9 7)
  /\ (1 <= Dashboard.nextPage 9 9 <= 9)%Z.
Proof.
  split; [reflexivity|].
  split.
  - exact (proj1 (proj2 (proj2 (proj2
             (page_buttons_stay_in_range 9 7 ltac:(lia)))))).
  - exact (proj2 (proj2 (proj2 (proj2 (proj2
             (page_buttons_stay_in_range 9 9 ltac:(lia))))))).
Defined.

Lemma get_assign (id id' : string) (v : bool) (rows : ExpandedRows.t) :
  ExpandedRows.get (ExpandedRows.assign id v rows) id'
  = if (id' =? id)%string then Some v else ExpandedRows.get rows id'.
Proof.
  induction rows as [|[k x] rows IH]; cbn [ExpandedRows.assign ExpandedRows.get].
  - rewrite (String.eqb_sym id id').
    now destruct (id' =? id)%string.
  - destruct (String.eqb_spec k id) as [->|Hk];
      cbn [ExpandedRows.get].
    + rewrite (String.eqb_sym id id').
      now destruct (id' =? id)%string.
    + rewrite IH.
      destruct (String.eqb_spec k id') as [Hk'|Hk']; [|reflexivity].
      destruct (String.eqb_spec id' id) as [Heq|_]; [congruence|reflexivity].
Qed.

(** X25. A click on a row toggles the expansion of that row id and of no
    other, in both views; a second click restores what every row
    showed. *)
Theorem row_click_toggles_one_row :
  forall (rows : ExpandedRows.t) (id id' : string),
    ExpandedRows.isExpanded (ExpandedRows.toggleRowExpansion id rows) id'
    = (if (id' =? id)%string
       then negb (ExpandedRows.isExpanded rows id)
       else ExpandedRows.isExpanded rows id')
    /\ ExpandedRows.isExpanded
         (ExpandedRows.toggleRowExpansion id
            (ExpandedRows.toggleRowExpansion id rows)) id'
       = ExpandedRows.isExpanded rows id'.
Proof.
  intros rows id id'.
  assert (Hone : forall rows0 row,
             ExpandedRows.isExpanded (ExpandedRows.toggleRowExpansion id rows0) row
             = if (row =? id)%string
               then negb (ExpandedRows.isExpanded rows0 id)
               else ExpandedRows.isExpanded rows0 row).
  { intros rows0 row.
    unfold ExpandedRows.isExpanded, ExpandedRows.toggleRowExpansion,
      ExpandedRows.notAt.
    rewrite get_assign.
    destruct (row =? id)%string; [|reflexivity].
    now destruct (ExpandedRows.get rows0 id). }
  split; [apply Hone|].
  rewrite Hone. destruct (id' =? id)%string eqn:Heq.
  - apply String.eqb_eq in Heq.
    rewrite Hone, String.eqb_refl, Heq. apply negb_involutive.
  - now rewrite Hone, Heq.
Qed.

Lemma getItem_setItem (key value : string) (storage : Dashboard.Storage) :
  Dashboard.getItem (TabId.setItem key value storage) key = Some value.
Proof.
  induction storage as [|[k v] storage IH]; cbn [TabId.setItem Dashboard.getItem].
  - now rewrite String.eqb_refl.
  - destruct (String.eqb_spec k key) as [->|Hk]; cbn [Dashboard.getItem].
    + now rewrite String.eqb_refl.
    + destruct (String.eqb_spec k key); [contradiction|exact IH].
Qed.

(** X26. The tab id is created once: a call of [getTabId] that follows
    another gives the same id and writes nothing, whatever the clock and
    the random source then say; without a window the id is empty and the
    session storage is not touched. *)
Theorem tab_id_is_stable :
  forall (now random now' random' : string)
         (sessionStorage : Dashboard.Storage),
    let first := TabId.getTabId true now random sessionStorage in
    TabId.getTabId true now' random' (snd first) = (fst first, snd first)
    /\ Js.truthy (fst first) = true
    /\ TabId.getTabId false now random sessionStorage = ("", sessionStorage).
Proof.
  intros now random now' random' sessionStorage first.
  split; [|split; [|reflexivity]]; subst first; unfold TabId.getTabId;
    cbn [negb];
    destruct (Dashboard.getTruthy sessionStorage TabId.TAB_ID_KEY)
      as [tabId|] eqn:Hget; cbn [fst snd].
  - now rewrite Hget.
  - unfold Dashboard.getTruthy. rewrite getItem_setItem. reflexivity.
  - unfold Dashboard.getTruthy in Hget.
    destruct (Dashboard.getItem sessionStorage TabId.TAB_ID_KEY) as [v|];
      [|discriminate].
    destruct (Js.truthy v) eqn:Hv; [|discriminate].
    now injection Hget as <-.
  - reflexivity.
Qed.

Lemma countChar_app (c : ascii) (a b : string) :
  countChar c (a ++ b) = (countChar c a + countChar c b)%nat.
Proof.
  induction a as [|d a IH]; [reflexivity|].
  cbn [append countChar]. rewrite IH. lia.
Qed.

Lemma countChar_join (c : ascii) (sep : string) (parts : list string) :
  countChar c (Dashboard.join sep parts)
  = ((List.length parts - 1) * countChar c sep + countCharAll c parts)%nat.
Proof.
  induction parts as [|p parts IH]; [reflexivity|].
  destruct parts as [|q parts].
  - cbn. lia.
  - change (Dashboard.join sep (p :: q :: parts))
      with (p ++ sep ++ Dashboard.join sep (q :: parts)).
    rewrite !countChar_app, IH.
    cbn [List.length countCharAll fold_right]. lia.
Qed.

Section ExportFacts.

Variable toLocaleDateString : Z -> string.
Variable dateToLocaleDateString : string -> string.
Variable numberToString : Z -> string.
Variable start_date : DailyUpdate.t -> option string.
Variable end_date : DailyUpdate.t -> option string.
Variable story_points : DailyUpdate.t -> option Z.
Variable tasks_completed : DailyUpdate.t -> string.
Variable priority : DailyUpdate.t -> string.
Variable additional_notes : DailyUpdate.t -> option string.

(** X27. The CSV export writes the fields as they are, without quoting:
    the line of an update holds the nine commas that separate its ten
    fields plus every comma of its fields, and the file holds one line
    break per update plus every line break of the fields.  A comma or a
    line break in the tasks or the notes therefore shifts the columns or
    splits the row. *)
Theorem csv_export_does_not_quote :
  forall (teams : list Team.t) (filteredData : list DailyUpdate.t)
         (update : DailyUpdate.t),
    countChar ","
      (Dashboard.join ","
         (Dashboard.csvFields toLocaleDateString dateToLocaleDateString
            numberToString start_date end_date story_points tasks_completed
            priority additional_notes teams update))
    = (9 + countCharAll ","
             (Dashboard.csvFields toLocaleDateString dateToLocaleDateString
                numberToString start_date end_date story_points
                tasks_completed priority additional_notes teams update))%nat
    /\ countChar (ascii_of_nat 10)
         (Dashboard.csvContent toLocaleDateString dateToLocaleDateString
            numberToString start_date end_date story_points tasks_completed
            priority additional_notes teams filteredData)
       = (List.length filteredData
          + fold_right
              (fun row n =>
                 (countCharAll (ascii_of_nat 10)
                    (Dashboard.csvFields toLocaleDateString
                       dateToLocaleDateString numberToString start_date
                       end_date story_points tasks_completed priority
                       additional_notes teams row) + n)%nat)
              O filteredData)%nat.
Proof.
  intros teams filteredData update. split.
  - rewrite countChar_join. reflexivity.
  - unfold Dashboard.csvContent. rewrite countChar_join.
    cbn [List.length countCharAll fold_right].
    rewrite length_map.
    change (countChar (ascii_of_nat 10) (String (ascii_of_nat 10) "")) with 1%nat.
    change (countChar (ascii_of_nat 10) (Dashboard.join "," Dashboard.csvHeaders))
      with 0%nat.
    rewrite Nat.sub_succ, Nat.sub_0_r, Nat.mul_1_r. cbn [Nat.add]. f_equal.
    induction filteredData as [|row rows IH]; [reflexivity|].
    cbn [map fold_right]. rewrite IH, countChar_join.
    change (countChar (ascii_of_nat 10) ",") with 0%nat.
    lia.
Qed.

End ExportFacts.
